(** * Ledger engine of the blockchain document demo

    A shallow embedding of [src/types.ts], [src/BlockchainService.ts]
    (the browser service) and [src/BlockchainServiceNode.ts] (the Node
    service), and of the ledger, hash and pages of the web demo
    ([web/src/lib/mockData.ts]), with their properties stated and proved.

    Layout: text helpers (number printing, hex), SHA-256, the entity
    model, the ambient effects ([Date.now], [Math.random]) as a state
    monad, the two services, the web demo, and then the theorems: first
    the facts they share, then the properties of the ledger, of the
    services and of the web demo. *)

From Stdlib Require Import ZArith List Bool Lia Arith Permutation.
From Stdlib.Strings Require Import String Ascii Byte.
Import ListNotations.

Local Open Scope string_scope.
Local Open Scope list_scope.
Local Open Scope Z_scope.

(** ** Text helpers *)

Module Text.

(** Character of one digit in a radix up to 16, lower case, as
    [Number.prototype.toString(radix)] prints it. *)
Definition digitChar (d : Z) : ascii :=
  if d <? 10 then ascii_of_N (Z.to_N (48 + d))
  else ascii_of_N (Z.to_N (87 + d)).

(** Digits of a non-negative integer, most significant first.  The fuel
    bounds the number of digits. *)
Fixpoint digitsOf (radix : Z) (fuel : nat) (n : Z) : list ascii :=
  match fuel with
  | O => []
  | S fuel' =>
      if n <? radix then [digitChar n]
      else digitsOf radix fuel' (n / radix) ++ [digitChar (n mod radix)]
  end.

(** Enough fuel for every radix from 2 on: one more than the position
    of the highest set bit. *)
Definition fuelFor (n : Z) : nat := S (Z.to_nat (Z.log2 n)).

(** [n.toString(radix)] for an integer [n]. *)
Definition toString (radix : Z) (n : Z) : string :=
  if n <? 0
  then String "-" (string_of_list_ascii (digitsOf radix (fuelFor (- n)) (- n)))
  else string_of_list_ascii (digitsOf radix (fuelFor n) n).

(** An integer inside a template literal: [`${n}`]. *)
Definition decimal (n : Z) : string := toString 10 n.

(** [s.padStart(width, fill)] with a one-character [fill]. *)
Definition padStart (width : nat) (fill : ascii) (s : string) : string :=
  string_of_list_ascii (repeat fill (width - String.length s)) ++ s.

(** [parts.join('')]. *)
Definition join (parts : list string) : string :=
  fold_right String.append EmptyString parts.

Definition isDigit (c : ascii) : bool :=
  let n := N_of_ascii c in ((48 <=? n) && (n <=? 57))%N.

(** The character class [a-f0-9] of the identifier formats. *)
Definition isLowerHex (c : ascii) : bool :=
  let n := N_of_ascii c in
  (((48 <=? n) && (n <=? 57)) || ((97 <=? n) && (n <=? 102)))%N.

Definition allChars (p : ascii -> bool) (s : string) : bool :=
  forallb p (list_ascii_of_string s).

(** Value of a digit character, and of a digit list read in a radix. *)
Definition digitValue (c : ascii) : Z :=
  let n := Z.of_N (N_of_ascii c) in
  if n <? 58 then n - 48 else n - 87.

Definition valueOf (radix : Z) (ds : list ascii) : Z :=
  fold_left (fun acc c => radix * acc + digitValue c) ds 0.

(** Reading a decimal integer back. *)
Definition readInt (s : string) : Z :=
  match s with
  | EmptyString => 0
  | String c rest =>
      if Ascii.eqb c "-" then - valueOf 10 (list_ascii_of_string rest)
      else valueOf 10 (list_ascii_of_string s)
  end.

End Text.

(** ** SHA-256 (FIPS 180-4)

    The digest behind [crypto.subtle.digest('SHA-256', _)] and
    [crypto.createHash('sha256')].  Words are 32-bit, kept in [Z] with
    the wrap-around written out. *)

Module SHA256.

Definition wrap (x : Z) : Z := x mod 2 ^ 32.
Definition add32 (x y : Z) : Z := wrap (x + y).
Definition rotr (k x : Z) : Z :=
  Z.lor (Z.shiftr x k) (wrap (Z.shiftl x (32 - k))).
Definition not32 (x : Z) : Z := 2 ^ 32 - 1 - x.

Definition Ch (x y z : Z) : Z := Z.lxor (Z.land x y) (Z.land (not32 x) z).
Definition Maj (x y z : Z) : Z :=
  Z.lxor (Z.lxor (Z.land x y) (Z.land x z)) (Z.land y z).
Definition Sigma0 (x : Z) : Z := Z.lxor (Z.lxor (rotr 2 x) (rotr 13 x)) (rotr 22 x).
Definition Sigma1 (x : Z) : Z := Z.lxor (Z.lxor (rotr 6 x) (rotr 11 x)) (rotr 25 x).
Definition sigma0 (x : Z) : Z := Z.lxor (Z.lxor (rotr 7 x) (rotr 18 x)) (Z.shiftr x 3).
Definition sigma1 (x : Z) : Z := Z.lxor (Z.lxor (rotr 17 x) (rotr 19 x)) (Z.shiftr x 10).

(** The round constants are the first 32 fractional bits of the cube
    roots of the first 64 primes, the initial state those of the square
    roots of the first 8; both tables are computed from the primes. *)
Definition primes : list Z :=
  [2; 3; 5; 7; 11; 13; 17; 19; 23; 29; 31; 37; 41; 43; 47; 53;
   59; 61; 67; 71; 73; 79; 83; 89; 97; 101; 103; 107; 109; 113; 127; 131;
   137; 139; 149; 151; 157; 163; 167; 173; 179; 181; 191; 193; 197; 199; 211; 223;
   227; 229; 233; 239; 241; 251; 257; 263; 269; 271; 277; 281; 283; 293; 307; 311].

(** Largest [r] in [[lo, lo + 2^bits)] with [r^3 <= n], by bisection. *)
Fixpoint cbrtBits (bits : nat) (lo n : Z) : Z :=
  match bits with
  | O => lo
  | S b =>
      let mid := lo + 2 ^ Z.of_nat b in
      if mid * mid * mid <=? n then cbrtBits b mid n else cbrtBits b lo n
  end.

Definition fracCbrt (p : Z) : Z := wrap (cbrtBits 40 0 (p * 2 ^ 96)).
Definition fracSqrt (p : Z) : Z := wrap (Z.sqrt (p * 2 ^ 64)).

Definition K : list Z := Eval vm_compute in map fracCbrt primes.

Record state := mkState { h0 : Z; h1 : Z; h2 : Z; h3 : Z; h4 : Z; h5 : Z; h6 : Z; h7 : Z }.

Definition initial : state :=
  Eval vm_compute in
    match map fracSqrt (firstn 8 primes) with
    | [a; b; c; d; e; f; g; h] => mkState a b c d e f g h
    | _ => mkState 0 0 0 0 0 0 0 0
    end.

(** Big-endian bytes of a [width]-byte quantity. *)
Fixpoint bigEndian (width : nat) (x : Z) : list Z :=
  match width with
  | O => []
  | S w => Z.land (Z.shiftr x (8 * Z.of_nat w)) 255 :: bigEndian w x
  end.

(** Padding: a 1 bit, zeros up to 56 mod 64 bytes, the bit length on 8 bytes. *)
Definition pad (msg : list Z) : list Z :=
  let len := Z.of_nat (List.length msg) in
  let zeros := Z.to_nat ((55 - len) mod 64) in
  msg ++ 128 :: repeat 0 zeros ++ bigEndian 8 (8 * len).

Fixpoint wordsOf (count : nat) (bytes : list Z) : list Z :=
  match count with
  | O => []
  | S c =>
      match bytes with
      | a :: b :: c' :: d :: rest =>
          (Z.shiftl a 24 + Z.shiftl b 16 + Z.shiftl c' 8 + d) :: wordsOf c rest
      | _ => []
      end
  end.

(** Message schedule: [w] holds the words so far, newest first. *)
Fixpoint schedule (more : nat) (w : list Z) : list Z :=
  match more with
  | O => w
  | S m =>
      let next :=
        add32 (add32 (sigma1 (nth 1 w 0)) (nth 6 w 0))
              (add32 (sigma0 (nth 14 w 0)) (nth 15 w 0)) in
      schedule m (next :: w)
  end.

Definition round (s : state) (kw : Z * Z) : state :=
  let '(k, w) := kw in
  let t1 := add32 (add32 (add32 (h7 s) (Sigma1 (h4 s))) (Ch (h4 s) (h5 s) (h6 s)))
                  (add32 k w) in
  let t2 := add32 (Sigma0 (h0 s)) (Maj (h0 s) (h1 s) (h2 s)) in
  mkState (add32 t1 t2) (h0 s) (h1 s) (h2 s) (add32 (h3 s) t1) (h4 s) (h5 s) (h6 s).

Definition compress (s : state) (block : list Z) : state :=
  let w := rev (schedule 48 (rev (wordsOf 16 block))) in
  let r := fold_left round (combine K w) s in
  mkState (add32 (h0 s) (h0 r)) (add32 (h1 s) (h1 r)) (add32 (h2 s) (h2 r))
          (add32 (h3 s) (h3 r)) (add32 (h4 s) (h4 r)) (add32 (h5 s) (h5 r))
          (add32 (h6 s) (h6 r)) (add32 (h7 s) (h7 r)).

Fixpoint blocks (count : nat) (s : state) (bytes : list Z) : state :=
  match count with
  | O => s
  | S c => blocks c (compress s (firstn 64 bytes)) (skipn 64 bytes)
  end.

(** The 32 bytes of the digest. *)
Definition digest (msg : list byte) : list Z :=
  let padded := pad (map (fun b => Z.of_N (Byte.to_N b)) msg) in
  let s := blocks (List.length padded / 64) initial padded in
  flat_map (bigEndian 4) [h0 s; h1 s; h2 s; h3 s; h4 s; h5 s; h6 s; h7 s].

End SHA256.

(** Bytes of an ASCII text, for writing test inputs. *)
Definition bytesOf (s : string) : list byte := list_byte_of_string s.

(** [byte.toString(16).padStart(2, '0')], joined: the hex rendering both
    services return. *)
Definition hexOfBytes (bs : list Z) : string :=
  Text.join (map (fun b => Text.padStart 2 "0" (Text.toString 16 b)) bs).

Definition sha256Hex (content : list byte) : string :=
  hexOfBytes (SHA256.digest content).

(** ** Entity model ([src/types.ts]) *)

Module UserRole.
Inductive t := BORROWER | LENDER | TITLE_COMPANY | ATTORNEY | NOTARY | COUNTY_CLERK.
End UserRole.

Module EventType.
Inductive t := UPLOAD | VIEW | APPROVAL | SIGNATURE | NOTARIZATION | RECORDED | REVISION.

(** [a === b] on the enum's values. *)
Definition eqb (a b : t) : bool :=
  match a, b with
  | UPLOAD, UPLOAD | VIEW, VIEW | APPROVAL, APPROVAL | SIGNATURE, SIGNATURE
  | NOTARIZATION, NOTARIZATION | RECORDED, RECORDED | REVISION, REVISION => true
  | _, _ => false
  end.
End EventType.

(** The string-literal union of [DocumentAsset.status]. *)
Module DocumentStatus.
Inductive t := DRAFT | APPROVED | SIGNED | RECORDED.

(** Position in the workflow DRAFT, APPROVED, SIGNED, RECORDED. *)
Definition rank (s : t) : Z :=
  match s with DRAFT => 0 | APPROVED => 1 | SIGNED => 2 | RECORDED => 3 end.
End DocumentStatus.

(** The string-literal union of [Transaction.status]. *)
Module TransactionStatus.
Inductive t := OPEN | CLOSING | RECORDED | COMPLETED.
End TransactionStatus.

(** The values that occur in the [metadata] objects of the services. *)
Inductive JsValue :=
| JsString (s : string)
| JsNumber (n : Z).

Definition Metadata := list (string * JsValue).

Module BlockchainEvent.
Record t := make {
  id : string;
  timestamp : Z;
  type : EventType.t;
  actorId : string;
  actorRole : UserRole.t;
  docHash : string;
  metadata : Metadata;
  blockId : string
}.
End BlockchainEvent.

Module DocumentAsset.
Record t := make {
  id : string;
  name : string;
  type : string;
  currentVersion : Z;
  currentHash : string;
  status : DocumentStatus.t;
  events : list BlockchainEvent.t
}.

(** [doc.events.push(e)] *)
Definition pushEvent (e : BlockchainEvent.t) (d : t) : t :=
  make (id d) (name d) (type d) (currentVersion d) (currentHash d) (status d)
       (events d ++ [e]).

(** [doc.status = s] *)
Definition setStatus (s : DocumentStatus.t) (d : t) : t :=
  make (id d) (name d) (type d) (currentVersion d) (currentHash d) s (events d).
End DocumentAsset.

Module Transaction.
Record t := make {
  id : string;
  propertyAddress : string;
  loanAmount : Z;
  lenderName : string;
  borrowerName : string;
  status : TransactionStatus.t;
  createdAt : Z;
  documents : list DocumentAsset.t
}.

Definition setDocuments (ds : list DocumentAsset.t) (x : t) : t :=
  make (id x) (propertyAddress x) (loanAmount x) (lenderName x) (borrowerName x)
       (status x) (createdAt x) ds.

(** [tx.status = s] *)
Definition setStatus (s : TransactionStatus.t) (x : t) : t :=
  make (id x) (propertyAddress x) (loanAmount x) (lenderName x) (borrowerName x)
       s (createdAt x) (documents x).
End Transaction.

(** What the services see of an input file.  The browser service is
    handed a [File] ([file.name], [file.size], [file.arrayBuffer()]);
    the Node service is handed a path and obtains the same three things
    with [path.basename], [fs.stat] and [fs.readFile]. *)
Module File.
Record t := make { name : string; content : list byte }.
Definition size (f : t) : Z := Z.of_nat (List.length (content f)).
End File.

(** ** Arrays *)

(** [xs.findIndex(p)]; [None] stands for -1. *)
Fixpoint findIndex {A} (p : A -> bool) (xs : list A) : option nat :=
  match xs with
  | [] => None
  | x :: rest => if p x then Some O else option_map S (findIndex p rest)
  end.

(** [xs[i] = f(xs[i])] for an index inside the array; the services only
    use indexes they have just found. *)
Fixpoint updateAt {A} (i : nat) (f : A -> A) (xs : list A) : list A :=
  match xs, i with
  | [], _ => []
  | x :: rest, O => f x :: rest
  | x :: rest, S i' => x :: updateAt i' f rest
  end.

(** ** Ambient effects

    [Date.now()] and [Math.random()] are read from the environment: the
    k-th call returns the k-th value of a sequence the environment fixes.
    [Math.random()] returns a double in [0, 1); it is given by its
    53-bit numerator, so that the value is [numerator / 2^53]. *)

Record Env := mkEnv {
  clock : nat -> Z;
  entropy : nat -> Z;
  subtleCrypto : bool   (* browser: [crypto.subtle] is there *)
}.

Record World := mkWorld {
  env : Env;
  clockReads : nat;
  randomDraws : nat;
  transactions : list Transaction.t   (* the module-level [transactions] array *)
}.

Definition M (A : Type) : Type := World -> A * World.

Definition ret {A} (a : A) : M A := fun w => (a, w).
Definition bind {A B} (m : M A) (k : A -> M B) : M B :=
  fun w => let (a, w') := m w in k a w'.

Notation "x <- m ;; k" := (bind m (fun x => k))
  (at level 61, m at next level, right associativity).
Notation "m ;;; k" := (bind m (fun _ => k))
  (at level 61, right associativity).

Definition Date_now : M Z :=
  fun w => (clock (env w) (clockReads w),
            mkWorld (env w) (S (clockReads w)) (randomDraws w) (transactions w)).

(** Numerator over [2^53] of the next [Math.random()]. *)
Definition Math_random : M Z :=
  fun w => (entropy (env w) (randomDraws w) mod 2 ^ 53,
            mkWorld (env w) (clockReads w) (S (randomDraws w)) (transactions w)).

(** [Math.floor(r * 16)] for [r = numerator / 2^53]. *)
Definition floorTimes16 (numerator : Z) : Z := (numerator * 16) / 2 ^ 53.

Definition readTransactions : M (list Transaction.t) :=
  fun w => (transactions w, w).

Definition writeTransactions (txs : list Transaction.t) : M unit :=
  fun w => (tt, mkWorld (env w) (clockReads w) (randomDraws w) txs).

(** [Array.from({ length: n }, () => m)]: [m] is run [n] times, in order. *)
Fixpoint arrayFrom {A} (n : nat) (m : M A) : M (list A) :=
  match n with
  | O => ret []
  | S n' => x <- m ;; xs <- arrayFrom n' m ;; ret (x :: xs)
  end.

(** [generateBlockId], the same in both services. *)
Definition generateBlockId : M string :=
  digits <- arrayFrom 64 (r <- Math_random ;; ret (Text.toString 16 (floorTimes16 r))) ;;
  ret ("0x" ++ Text.join digits)%string.

(** The two seeded transactions; [t1] and [t2] are the two [Date.now()]
    readings taken when the module is loaded. *)
Definition seedTransactions (t1 t2 : Z) : list Transaction.t :=
  [ Transaction.make "TX-2024-8492" "1200 Market St, Philadelphia, PA" 24500000
      "Keystone Commercial Bank" "Market Street Developers LLC"
      TransactionStatus.OPEN (t1 - 100000000) [];
    Transaction.make "TX-2024-9921" "450 Technology Dr, Austin, TX" 12000000
      "Austin Debt Fund" "TechSpace PropCo"
      TransactionStatus.CLOSING (t2 - 50000000) [] ].

Definition loadModule (e : Env) : World :=
  mkWorld e 2 0 (seedTransactions (clock e 0%nat) (clock e 1%nat)).

(** The object a verification returns; an absent property reads as
    [undefined], here [None]. *)
Module VerificationResult.
Record t := make {
  verified : bool;
  doc : option DocumentAsset.t;
  matchedEvent : option BlockchainEvent.t;
  transaction : option Transaction.t
}.
End VerificationResult.

(** ** Pieces the two services have word for word in common *)

Definition hasId (docId : string) (d : DocumentAsset.t) : bool :=
  (DocumentAsset.id d =? docId)%string.

Definition isTransaction (transactionId : string) (x : Transaction.t) : bool :=
  (Transaction.id x =? transactionId)%string.

Definition carriesHash (hash : string) (e : BlockchainEvent.t) : bool :=
  (BlockchainEvent.docHash e =? hash)%string.

(** The [newEvent] literal of [createDocument]; the fields are evaluated
    in the order they are written. *)
Definition uploadEvent (file : File.t) (hash actor : string) (role : UserRole.t)
  : M BlockchainEvent.t :=
  t_id <- Date_now ;;
  t_stamp <- Date_now ;;
  block <- generateBlockId ;;
  ret (BlockchainEvent.make ("evt_" ++ Text.decimal t_id) t_stamp EventType.UPLOAD
         actor role hash
         [("fileName", JsString (File.name file)); ("fileSize", JsNumber (File.size file))]
         block).

(** The [newDoc] literal of [createDocument]. *)
Definition uploadedDocument (file : File.t) (docType hash : string)
    (newEvent : BlockchainEvent.t) : M DocumentAsset.t :=
  t_id <- Date_now ;;
  ret (DocumentAsset.make ("DOC-" ++ Text.decimal t_id) (File.name file) docType 1 hash
         DocumentStatus.DRAFT [newEvent]).

(** [transactions[txIndex].documents.push(newDoc)] *)
Definition pushDocument (txIndex : nat) (newDoc : DocumentAsset.t) : M unit :=
  txs <- readTransactions ;;
  writeTransactions
    (updateAt txIndex
       (fun x => Transaction.setDocuments (Transaction.documents x ++ [newDoc]) x) txs).

(** The [newEvent] literal of [addEvent]; [metadata] is [None] when the
    caller leaves the argument out, and then defaults to the empty object. *)
Definition appendedEvent (type : EventType.t) (actor : string) (role : UserRole.t)
    (currentHash : string) (metadata : option Metadata) : M BlockchainEvent.t :=
  t_id <- Date_now ;;
  t_stamp <- Date_now ;;
  block <- generateBlockId ;;
  ret (BlockchainEvent.make ("evt_" ++ Text.decimal t_id) t_stamp type actor role currentHash
         (match metadata with Some m => m | None => [] end) block).

(** "Update status based on event": the three [if]s on the document. *)
Definition updateStatus (type : EventType.t) (doc : DocumentAsset.t) : DocumentAsset.t :=
  let doc := if EventType.eqb type EventType.APPROVAL
             then DocumentAsset.setStatus DocumentStatus.APPROVED doc else doc in
  let doc := if EventType.eqb type EventType.SIGNATURE
             then DocumentAsset.setStatus DocumentStatus.SIGNED doc else doc in
  if EventType.eqb type EventType.RECORDED
  then DocumentAsset.setStatus DocumentStatus.RECORDED doc else doc.

(** ... and the assignment to [tx.status] inside the third. *)
Definition updateTransactionStatus (type : EventType.t) (x : Transaction.t) : Transaction.t :=
  if EventType.eqb type EventType.RECORDED
  then Transaction.setStatus TransactionStatus.RECORDED x else x.

(** The object [find] returned is the first element that passes the
    test; what is assigned to it is seen through the array. *)
Fixpoint updateFirst {A} (p : A -> bool) (f : A -> A) (xs : list A) : list A :=
  match xs with
  | [] => []
  | x :: rest => if p x then f x :: rest else x :: updateFirst p f rest
  end.

(** The body of [if (doc) { ... }] in [addEvent]: the document after
    [push] and the status update, and its transaction around it. *)
Definition eventApplied (type : EventType.t) (newEvent : BlockchainEvent.t)
    (doc : DocumentAsset.t) : DocumentAsset.t :=
  updateStatus type (DocumentAsset.pushEvent newEvent doc).

Definition transactionApplied (docId : string) (type : EventType.t)
    (newEvent : BlockchainEvent.t) (x : Transaction.t) : Transaction.t :=
  updateTransactionStatus type
    (Transaction.setDocuments
       (updateFirst (hasId docId) (eventApplied type newEvent) (Transaction.documents x)) x).

(** The loop [for (const tx of transactions)] of [addEvent]: the document
    returned, if one was found, and the transactions as the loop leaves
    them. *)
Fixpoint addEventLoop (txs : list Transaction.t) (docId : string) (type : EventType.t)
    (actor : string) (role : UserRole.t) (currentHash : string) (metadata : option Metadata)
  : M (option DocumentAsset.t * list Transaction.t) :=
  match txs with
  | [] => ret (None, [])
  | x :: rest =>
      match find (hasId docId) (Transaction.documents x) with
      | Some doc =>
          newEvent <- appendedEvent type actor role currentHash metadata ;;
          ret (Some (eventApplied type newEvent doc),
               transactionApplied docId type newEvent x :: rest)
      | None =>
          r <- addEventLoop rest docId type actor role currentHash metadata ;;
          ret (fst r, x :: snd r)
      end
  end.

(** ** The Node service ([src/BlockchainServiceNode.ts]) *)

Module BlockchainServiceNode.

Definition computeFileHash (file : File.t) : M string :=
  ret (sha256Hex (File.content file)).

Definition getTransactions : M (list Transaction.t) := readTransactions.

Definition getTransaction (id : string) : M (option Transaction.t) :=
  txs <- readTransactions ;; ret (find (isTransaction id) txs).

Definition createDocument (transactionId : string) (file : File.t) (docType actor : string)
    (role : UserRole.t) : M (option DocumentAsset.t) :=
  txs <- readTransactions ;;
  match findIndex (isTransaction transactionId) txs with
  | None => ret None
  | Some txIndex =>
      hash <- computeFileHash file ;;
      newEvent <- uploadEvent file hash actor role ;;
      newDoc <- uploadedDocument file docType hash newEvent ;;
      pushDocument txIndex newDoc ;;;
      ret (Some newDoc)
  end.

Definition addEvent (docId : string) (type : EventType.t) (actor : string)
    (role : UserRole.t) (currentHash : string) (metadata : option Metadata)
  : M (option DocumentAsset.t) :=
  txs <- readTransactions ;;
  r <- addEventLoop txs docId type actor role currentHash metadata ;;
  writeTransactions (snd r) ;;;
  ret (fst r).

(** The inner loop of [verifyDocument], over the documents of [x]. *)
Fixpoint scanDocuments (hash : string) (x : Transaction.t) (docs : list DocumentAsset.t)
  : option VerificationResult.t :=
  match docs with
  | [] => None
  | doc :: rest =>
      match find (carriesHash hash) (DocumentAsset.events doc) with
      | Some m => Some (VerificationResult.make true (Some doc) (Some m) (Some x))
      | None => scanDocuments hash x rest
      end
  end.

Fixpoint scanTransactions (hash : string) (txs : list Transaction.t) : VerificationResult.t :=
  match txs with
  | [] => VerificationResult.make false None None None
  | x :: rest =>
      match scanDocuments hash x (Transaction.documents x) with
      | Some r => r
      | None => scanTransactions hash rest
      end
  end.

Definition verifyDocument (file : File.t) : M VerificationResult.t :=
  hash <- computeFileHash file ;;
  txs <- readTransactions ;;
  ret (scanTransactions hash txs).

Definition listAllDocuments : M (list (Transaction.t * list DocumentAsset.t)) :=
  txs <- readTransactions ;;
  ret (map (fun x => (x, Transaction.documents x)) txs).

Fixpoint historyIn (txs : list Transaction.t) (docId : string)
  : option (list BlockchainEvent.t) :=
  match txs with
  | [] => None
  | x :: rest =>
      match find (hasId docId) (Transaction.documents x) with
      | Some doc => Some (DocumentAsset.events doc)
      | None => historyIn rest docId
      end
  end.

Definition getDocumentHistory (docId : string) : M (option (list BlockchainEvent.t)) :=
  txs <- readTransactions ;; ret (historyIn txs docId).

End BlockchainServiceNode.

(** ** The browser service ([src/BlockchainService.ts]) *)

Module BlockchainService.

(** With [crypto.subtle] the SHA-256 of the content; without it the
    development fallback, which reads the clock. *)
Definition computeFileHash (file : File.t) : M string :=
  fun w =>
    if subtleCrypto (env w)
    then ret (sha256Hex (File.content file)) w
    else (now <- Date_now ;;
          ret ("mock-hash-" ++ File.name file ++ "-" ++ Text.decimal (File.size file)
               ++ "-" ++ Text.decimal now)%string) w.

Definition getTransactions : M (list Transaction.t) := readTransactions.

Definition getTransaction (id : string) : M (option Transaction.t) :=
  txs <- readTransactions ;; ret (find (isTransaction id) txs).

Definition createDocument (transactionId : string) (file : File.t) (docType actor : string)
    (role : UserRole.t) : M (option DocumentAsset.t) :=
  txs <- readTransactions ;;
  match findIndex (isTransaction transactionId) txs with
  | None => ret None
  | Some txIndex =>
      hash <- computeFileHash file ;;
      newEvent <- uploadEvent file hash actor role ;;
      newDoc <- uploadedDocument file docType hash newEvent ;;
      pushDocument txIndex newDoc ;;;
      ret (Some newDoc)
  end.

(** Declared [void]: the loop ends with [break], nothing is returned. *)
Definition addEvent (docId : string) (type : EventType.t) (actor : string)
    (role : UserRole.t) (currentHash : string) (metadata : option Metadata) : M unit :=
  txs <- readTransactions ;;
  r <- addEventLoop txs docId type actor role currentHash metadata ;;
  writeTransactions (snd r).

Fixpoint scanDocuments (hash : string) (docs : list DocumentAsset.t)
  : option VerificationResult.t :=
  match docs with
  | [] => None
  | doc :: rest =>
      match find (carriesHash hash) (DocumentAsset.events doc) with
      | Some m => Some (VerificationResult.make true (Some doc) (Some m) None)
      | None => scanDocuments hash rest
      end
  end.

Fixpoint scanTransactions (hash : string) (txs : list Transaction.t) : VerificationResult.t :=
  match txs with
  | [] => VerificationResult.make false None None None
  | x :: rest =>
      match scanDocuments hash (Transaction.documents x) with
      | Some r => r
      | None => scanTransactions hash rest
      end
  end.

Definition verifyDocument (file : File.t) : M VerificationResult.t :=
  hash <- computeFileHash file ;;
  txs <- readTransactions ;;
  ret (scanTransactions hash txs).

End BlockchainService.

(** ** Operations and runs

    The operations a caller can reach, per service.  The browser service
    has no [listAllDocuments] and no [getDocumentHistory]. *)

Inductive Service := Browser | Node.

Inductive Operation : Service -> Type :=
| CreateDocument (s : Service) (transactionId : string) (file : File.t)
    (docType actor : string) (role : UserRole.t) : Operation s
| AddEvent (s : Service) (docId : string) (type : EventType.t) (actor : string)
    (role : UserRole.t) (currentHash : string) (metadata : option Metadata) : Operation s
| VerifyDocument (s : Service) (file : File.t) : Operation s
| GetTransactions (s : Service) : Operation s
| GetTransaction (s : Service) (id : string) : Operation s
| ListAllDocuments : Operation Node
| GetDocumentHistory (docId : string) : Operation Node.

(** The world an operation leaves behind. *)
Definition perform {s : Service} (op : Operation s) (w : World) : World :=
  match op with
  | CreateDocument Browser tid file docType actor role =>
      snd (BlockchainService.createDocument tid file docType actor role w)
  | CreateDocument Node tid file docType actor role =>
      snd (BlockchainServiceNode.createDocument tid file docType actor role w)
  | AddEvent Browser docId type actor role hash metadata =>
      snd (BlockchainService.addEvent docId type actor role hash metadata w)
  | AddEvent Node docId type actor role hash metadata =>
      snd (BlockchainServiceNode.addEvent docId type actor role hash metadata w)
  | VerifyDocument Browser file => snd (BlockchainService.verifyDocument file w)
  | VerifyDocument Node file => snd (BlockchainServiceNode.verifyDocument file w)
  | GetTransactions Browser => snd (BlockchainService.getTransactions w)
  | GetTransactions Node => snd (BlockchainServiceNode.getTransactions w)
  | GetTransaction Browser id => snd (BlockchainService.getTransaction id w)
  | GetTransaction Node id => snd (BlockchainServiceNode.getTransaction id w)
  | ListAllDocuments => snd (BlockchainServiceNode.listAllDocuments w)
  | GetDocumentHistory docId => snd (BlockchainServiceNode.getDocumentHistory docId w)
  end.

Definition run {s : Service} (ops : list (Operation s)) (w : World) : World :=
  fold_left (fun w' op => perform op w') ops w.

(** The digest [computeFileHash] of a service returns in a world. *)
Definition hashIn (s : Service) (file : File.t) (w : World) : string :=
  match s with
  | Browser => fst (BlockchainService.computeFileHash file w)
  | Node => fst (BlockchainServiceNode.computeFileHash file w)
  end.

Definition createDocumentOf (s : Service) :=
  match s with
  | Browser => BlockchainService.createDocument
  | Node => BlockchainServiceNode.createDocument
  end.

Definition verifyDocumentOf (s : Service) :=
  match s with
  | Browser => BlockchainService.verifyDocument
  | Node => BlockchainServiceNode.verifyDocument
  end.

(** ** Vocabulary of the properties *)

(** The document an id names and the transaction that owns it: the first
    transaction, in ledger order, with a document of that id, and the
    first such document in it. *)
Fixpoint locate (txs : list Transaction.t) (docId : string)
  : option (Transaction.t * DocumentAsset.t) :=
  match txs with
  | [] => None
  | x :: rest =>
      match find (hasId docId) (Transaction.documents x) with
      | Some d => Some (x, d)
      | None => locate rest docId
      end
  end.

Definition holds (docId : string) (x : Transaction.t) : bool :=
  existsb (hasId docId) (Transaction.documents x).

(** No document of the ledger has the id. *)
Definition unknownDocument (txs : list Transaction.t) (docId : string) : Prop :=
  forall x d, In x txs -> In d (Transaction.documents x) -> DocumentAsset.id d <> docId.

(** The ledger in scan order: each event with its document and its
    transaction. *)
Definition ledgerEvents (txs : list Transaction.t)
  : list (Transaction.t * DocumentAsset.t * BlockchainEvent.t) :=
  flat_map (fun x =>
    flat_map (fun d => map (fun e => (x, d, e)) (DocumentAsset.events d))
             (Transaction.documents x)) txs.

Definition entryCarries (hash : string)
    (entry : Transaction.t * DocumentAsset.t * BlockchainEvent.t) : bool :=
  carriesHash hash (snd entry).

(** The first event, in scan order, that carries the hash. *)
Definition firstMatch (hash : string) (txs : list Transaction.t)
  : option (Transaction.t * DocumentAsset.t * BlockchainEvent.t) :=
  find (entryCarries hash) (ledgerEvents txs).

(** The verification result as the specification words it: the owning
    document, the matching event and the owning transaction on a match,
    nothing beyond [verified = false] otherwise. *)
Definition verificationStated (hash : string) (txs : list Transaction.t)
  : VerificationResult.t :=
  match firstMatch hash txs with
  | Some (x, d, e) => VerificationResult.make true (Some d) (Some e) (Some x)
  | None => VerificationResult.make false None None None
  end.

(** The same without the transaction. *)
Definition verificationWithoutTransaction (hash : string) (txs : list Transaction.t)
  : VerificationResult.t :=
  match firstMatch hash txs with
  | Some (_, d, e) => VerificationResult.make true (Some d) (Some e) None
  | None => VerificationResult.make false None None None
  end.

(** The transition table of the specification, row by row. *)
Definition tableAllows (current : DocumentStatus.t) (type : EventType.t)
    (next : DocumentStatus.t) : bool :=
  match type, current, next with
  | EventType.APPROVAL, DocumentStatus.DRAFT, DocumentStatus.APPROVED => true
  | EventType.SIGNATURE, (DocumentStatus.APPROVED | DocumentStatus.DRAFT),
      DocumentStatus.SIGNED => true
  | EventType.RECORDED, _, DocumentStatus.RECORDED => true
  | EventType.UPLOAD, _, DocumentStatus.DRAFT => true
  | (EventType.VIEW | EventType.REVISION), DocumentStatus.DRAFT, DocumentStatus.DRAFT
  | (EventType.VIEW | EventType.REVISION), DocumentStatus.APPROVED, DocumentStatus.APPROVED
  | (EventType.VIEW | EventType.REVISION), DocumentStatus.SIGNED, DocumentStatus.SIGNED
  | (EventType.VIEW | EventType.REVISION), DocumentStatus.RECORDED, DocumentStatus.RECORDED
      => true
  | _, _, _ => false
  end.

(** The status an event type leads to, whatever the status before. *)
Definition statusAfter (type : EventType.t) (current : DocumentStatus.t) : DocumentStatus.t :=
  match type with
  | EventType.APPROVAL => DocumentStatus.APPROVED
  | EventType.SIGNATURE => DocumentStatus.SIGNED
  | EventType.RECORDED => DocumentStatus.RECORDED
  | _ => current
  end.

(** Append-only: a document keeps its id and its events as a prefix; a
    transaction keeps its documents, each extended, as a prefix; a ledger
    keeps its transactions, each extended. *)
Definition documentExtends (d d' : DocumentAsset.t) : Prop :=
  DocumentAsset.id d' = DocumentAsset.id d /\
  exists more, DocumentAsset.events d' = DocumentAsset.events d ++ more.

Definition transactionExtends (x x' : Transaction.t) : Prop :=
  Transaction.id x' = Transaction.id x /\
  exists kept more,
    Transaction.documents x' = kept ++ more /\
    Forall2 documentExtends (Transaction.documents x) kept.

Definition ledgerExtends (txs txs' : list Transaction.t) : Prop :=
  Forall2 transactionExtends txs txs'.

(** Events that establish content. *)
Definition establishesContent (e : BlockchainEvent.t) : bool :=
  EventType.eqb (BlockchainEvent.type e) EventType.UPLOAD
  || EventType.eqb (BlockchainEvent.type e) EventType.REVISION.

(** The hash of the most recently appended UPLOAD or REVISION event. *)
Definition latestContentHash (d : DocumentAsset.t) : option string :=
  option_map BlockchainEvent.docHash
    (find establishesContent (rev (DocumentAsset.events d))).

(** The first event of a document is an UPLOAD carrying its current hash. *)
Definition anchored (d : DocumentAsset.t) : Prop :=
  exists e rest,
    DocumentAsset.events d = e :: rest /\
    BlockchainEvent.type e = EventType.UPLOAD /\
    BlockchainEvent.docHash e = DocumentAsset.currentHash d.

Definition allDocuments (txs : list Transaction.t) : list DocumentAsset.t :=
  flat_map Transaction.documents txs.

(** The identifier formats: [DOC-\d{13,}] and [^0x[a-f0-9]{64,}$]. *)
Definition matchesDocumentId (s : string) : bool :=
  String.prefix "DOC-" s
  && Text.allChars Text.isDigit (substring 4 (String.length s - 4) s)
  && (13 <=? String.length s - 4)%nat.

Definition matchesBlockId (s : string) : bool :=
  String.prefix "0x" s
  && Text.allChars Text.isLowerHex (substring 2 (String.length s - 2) s)
  && (64 <=? String.length s - 2)%nat.

(** The [Date.now()] reading that [createDocument], started in [w],
    prints into the document id: the third of the call, after one more
    when the browser fallback hash has read the clock. *)
Definition mintReading (s : Service) (w : World) : Z :=
  match s with
  | Node => clock (env w) (clockReads w + 2)%nat
  | Browser =>
      if subtleCrypto (env w) then clock (env w) (clockReads w + 2)%nat
      else clock (env w) (clockReads w + 3)%nat
  end.

(** ** A worked scenario

    The happy path of the test suite, on a clock that advances by one
    millisecond per reading. *)

Definition demoEnv : Env :=
  mkEnv (fun k => 1700000000000 + Z.of_nat k)
        (fun k => 123456789123456789 * (Z.of_nat k + 7))
        true.

(** The same machine without [crypto.subtle]. *)
Definition insecureEnv : Env :=
  mkEnv (clock demoEnv) (entropy demoEnv) false.

(** A machine fast enough for every reading to fall in one millisecond. *)
Definition sameMillisecondEnv : Env :=
  mkEnv (fun _ => 1700000000000) (entropy demoEnv) true.

Definition demoFile : File.t := File.make "test-doc.txt" (bytesOf "NOTE-V1").
Definition otherFile : File.t := File.make "test-doc-modified.txt" (bytesOf "NOTE-V2").

Definition upload (s : Service) : Operation s :=
  CreateDocument s "TX-2024-8492" demoFile "Test Document" "test@example.com"
    UserRole.ATTORNEY.

(** The id the upload gets on [demoEnv] with SHA-256 at hand. *)
Definition demoId : string := "DOC-1700000000004".

Definition act (s : Service) (type : EventType.t) (hash : string) : Operation s :=
  AddEvent s demoId type "actor@example.com" UserRole.LENDER hash None.

(** The document an id names, if any. *)
Definition documentNamed (docId : string) (w : World) : option DocumentAsset.t :=
  option_map snd (locate (transactions w) docId).

Definition statusNamed (docId : string) (w : World) : option DocumentStatus.t :=
  option_map DocumentAsset.status (documentNamed docId w).

(** ** Vocabulary of the further properties *)

(** What a transaction is about: every field but its status and its
    documents. *)
Definition describe (x : Transaction.t) : string * string * Z * string * string * Z :=
  (Transaction.id x, Transaction.propertyAddress x, Transaction.loanAmount x,
   Transaction.lenderName x, Transaction.borrowerName x, Transaction.createdAt x).

(** The status the events of a document lead to, from DRAFT. *)
Definition replayStatus (events : list BlockchainEvent.t) : DocumentStatus.t :=
  fold_left (fun status e => statusAfter (BlockchainEvent.type e) status) events
    DocumentStatus.DRAFT.

(** A clock that never goes back, and one that advances at every reading. *)
Definition clockMonotone (e : Env) : Prop :=
  forall i j, (i <= j)%nat -> clock e i <= clock e j.

Definition clockStrict (e : Env) : Prop :=
  forall i j, (i < j)%nat -> clock e i < clock e j.

(** Timestamps in non-decreasing order. *)
Fixpoint ascending (stamps : list Z) : Prop :=
  match stamps with
  | [] => True
  | t :: rest => (forall u, In u rest -> t <= u) /\ ascending rest
  end.

(** [allDocs.reduce((sum, item) => sum + item.documents.length, 0)], the
    count the test suite takes of a listing. *)
Definition totalDocuments (listing : list (Transaction.t * list DocumentAsset.t)) : nat :=
  fold_left (fun sum item => (sum + List.length (snd item))%nat) listing 0%nat.

(** Some event of some document of the ledger carries the hash. *)
Definition carried (hash : string) (txs : list Transaction.t) : Prop :=
  exists x d e,
    In x txs /\ In d (Transaction.documents x) /\ In e (DocumentAsset.events d)
    /\ BlockchainEvent.docHash e = hash.

(** A document whose id is already the id of a document that comes
    before it in the ledger. *)
Definition shadowed (d : DocumentAsset.t) (txs : list Transaction.t) : Prop :=
  exists earlier later first,
    allDocuments txs = earlier ++ later
    /\ In first earlier /\ DocumentAsset.id first = DocumentAsset.id d
    /\ In d later.

(** ** The web demo ([web/src/lib/mockData.ts])

    The pages of the web demo do not call the services: they work on a
    ledger written out in the module and on a hash of their own. *)

Module WebEvent.
Record t := make {
  id : string;
  timestamp : Z;
  type : EventType.t;
  actorId : string;
  actorRole : string;
  docHash : string;
  metadata : option Metadata;
  blockId : string
}.
End WebEvent.

Module WebDocument.
Record t := make {
  id : string;
  name : string;
  type : string;
  currentVersion : Z;
  currentHash : string;
  status : DocumentStatus.t;
  events : list WebEvent.t;
  uploadedAt : Z
}.
End WebDocument.

Module WebTransaction.
Record t := make {
  id : string;
  propertyAddress : string;
  loanAmount : Z;
  lenderName : string;
  borrowerName : string;
  status : TransactionStatus.t;
  createdAt : Z;
  documents : list WebDocument.t
}.
End WebTransaction.

(** 32-bit integers of the bitwise operators, kept in [Z]. *)
Module Int32.
Definition toInt32 (x : Z) : Z := (x + 2 ^ 31) mod 2 ^ 32 - 2 ^ 31.

(** [a << k] *)
Definition shiftLeft (a k : Z) : Z := toInt32 (Z.shiftl (toInt32 a) (k mod 32)).

(** [a & b] *)
Definition and (a b : Z) : Z := toInt32 (Z.land (toInt32 a) (toInt32 b)).
End Int32.

(** A row of the audit page: [{ ...event, documentName, transactionId }]. *)
Module AuditRow.
Record t := make {
  event : WebEvent.t;
  documentName : string;
  transactionId : string
}.
End AuditRow.

Module WebVerification.
Record t := make {
  verified : bool;
  document : option WebDocument.t;
  transaction : option WebTransaction.t
}.
End WebVerification.

Module MockData.

(** [mockTransactions]; [now k] is the reading of the k-th [Date.now()]
    of the literal, in the order they are written. *)
Definition mockTransactions (now : nat -> Z) : list WebTransaction.t :=
  [
  WebTransaction.make "TX-2024-8492" "1200 Market St, Philadelphia, PA 19107" 24500000
    "Keystone Commercial Bank" "Market Street Developers LLC"
    TransactionStatus.CLOSING (now 0%nat - 7 * 24 * 60 * 60 * 1000)
    [
      WebDocument.make "DOC-1705234567890" "promissory-note.pdf" "Promissory Note" 1
        "a1b2c3d4e5f6789012345678901234567890abcdef1234567890abcdef12345678"
        DocumentStatus.SIGNED
        [
          WebEvent.make "evt_1" (now 2%nat - 5 * 24 * 60 * 60 * 1000)
            EventType.UPLOAD "john.attorney@lawfirm.com" "ATTORNEY"
            "a1b2c3d4e5f6789012345678901234567890abcdef1234567890abcdef12345678"
            None
            "0xabc123def456789012345678901234567890abcdef1234567890abcdef12345678";
          WebEvent.make "evt_2" (now 3%nat - 4 * 24 * 60 * 60 * 1000)
            EventType.APPROVAL "sarah.underwriter@bank.com" "LENDER"
            "a1b2c3d4e5f6789012345678901234567890abcdef1234567890abcdef12345678"
            (Some [("comment", JsString "Terms approved by underwriting")])
            "0xdef456789012345678901234567890abcdef1234567890abcdef123456789012";
          WebEvent.make "evt_3" (now 4%nat - 3 * 24 * 60 * 60 * 1000)
            EventType.SIGNATURE "ceo@marketstreetdev.com" "BORROWER"
            "a1b2c3d4e5f6789012345678901234567890abcdef1234567890abcdef12345678"
            (Some [("signatureMethod", JsString "DocuSign")])
            "0x789012345678901234567890abcdef1234567890abcdef12345678901234567890" ]
        (now 1%nat - 5 * 24 * 60 * 60 * 1000);
      WebDocument.make "DOC-1705234567891" "deed-of-trust.pdf" "Deed of Trust" 1
        "b2c3d4e5f6789012345678901234567890abcdef1234567890abcdef123456789a"
        DocumentStatus.APPROVED
        [
          WebEvent.make "evt_4" (now 6%nat - 5 * 24 * 60 * 60 * 1000)
            EventType.UPLOAD "john.attorney@lawfirm.com" "ATTORNEY"
            "b2c3d4e5f6789012345678901234567890abcdef1234567890abcdef123456789a"
            None
            "0xcde567890123456789012345678901234567890abcdef1234567890abcdef1234";
          WebEvent.make "evt_5" (now 7%nat - 4 * 24 * 60 * 60 * 1000)
            EventType.APPROVAL "sarah.underwriter@bank.com" "LENDER"
            "b2c3d4e5f6789012345678901234567890abcdef1234567890abcdef123456789a"
            None
            "0xef6789012345678901234567890abcdef1234567890abcdef12345678901234567" ]
        (now 5%nat - 5 * 24 * 60 * 60 * 1000) ];
  WebTransaction.make "TX-2024-9921" "450 Technology Dr, Austin, TX 78701" 12000000
    "Austin Debt Fund" "TechSpace PropCo"
    TransactionStatus.OPEN (now 8%nat - 3 * 24 * 60 * 60 * 1000)
    [];
  WebTransaction.make "TX-2024-7156" "888 Financial Blvd, New York, NY 10004" 45000000
    "Manhattan Capital Partners" "Financial District Holdings"
    TransactionStatus.RECORDED (now 9%nat - 30 * 24 * 60 * 60 * 1000)
    [
      WebDocument.make "DOC-1705234567892" "promissory-note.pdf" "Promissory Note" 1
        "c3d4e5f6789012345678901234567890abcdef1234567890abcdef123456789ab0"
        DocumentStatus.RECORDED
        [
          WebEvent.make "evt_6" (now 11%nat - 28 * 24 * 60 * 60 * 1000)
            EventType.UPLOAD "legal@manhattancap.com" "ATTORNEY"
            "c3d4e5f6789012345678901234567890abcdef1234567890abcdef123456789ab0"
            None
            "0xf67890123456789012345678901234567890abcdef1234567890abcdef12345678";
          WebEvent.make "evt_7" (now 12%nat - 25 * 24 * 60 * 60 * 1000)
            EventType.APPROVAL "credit@manhattancap.com" "LENDER"
            "c3d4e5f6789012345678901234567890abcdef1234567890abcdef123456789ab0"
            None
            "0x0789012345678901234567890abcdef1234567890abcdef1234567890123456789";
          WebEvent.make "evt_8" (now 13%nat - 22 * 24 * 60 * 60 * 1000)
            EventType.SIGNATURE "cfo@fdholdings.com" "BORROWER"
            "c3d4e5f6789012345678901234567890abcdef1234567890abcdef123456789ab0"
            None
            "0x1890123456789012345678901234567890abcdef1234567890abcdef123456789a";
          WebEvent.make "evt_9" (now 14%nat - 20 * 24 * 60 * 60 * 1000)
            EventType.NOTARIZATION "notary@verified.com" "NOTARY"
            "c3d4e5f6789012345678901234567890abcdef1234567890abcdef123456789ab0"
            (Some [("notaryLicense", JsString "NY-98765")])
            "0x2901234567890123456789012345678901234567890abcdef1234567890abcdef1";
          WebEvent.make "evt_10" (now 15%nat - 18 * 24 * 60 * 60 * 1000)
            EventType.RECORDED "clerk@nyc.gov" "COUNTY_CLERK"
            "c3d4e5f6789012345678901234567890abcdef1234567890abcdef123456789ab0"
            (Some [("recordingNumber", JsString "NYC-2024-123456")])
            "0x3012345678901234567890123456789012345678901234567890abcdef12345678" ]
        (now 10%nat - 28 * 24 * 60 * 60 * 1000) ] ].

(** One turn of the loop of [computeHash] on the code unit [char]. *)
Definition mix (hash char : Z) : Z :=
  let hash := (Int32.shiftLeft hash 5 - hash) + char in
  Int32.and hash hash.

(** [computeHash(content)], [content] given by its UTF-16 code units
    ([content.charCodeAt(i)]). *)
Definition computeHash (content : list Z) : string :=
  let hash := fold_left mix content 0 in
  let hex := Text.padStart 8 "0" (Text.toString 16 (Z.abs hash)) in
  Text.join (repeat hex 8).

(** The rows [getAllEvents] collects, before sorting. *)
Definition collectEvents (txs : list WebTransaction.t) : list AuditRow.t :=
  flat_map (fun x =>
    flat_map (fun doc =>
      map (fun event => AuditRow.make event (WebDocument.name doc) (WebTransaction.id x))
          (WebDocument.events doc))
      (WebTransaction.documents x)) txs.

Definition rowTime (row : AuditRow.t) : Z := WebEvent.timestamp (AuditRow.event row).

(** The comparator [(a, b) => b.timestamp - a.timestamp]. *)
Definition byTimeDescending (a b : AuditRow.t) : Z :=
  WebEvent.timestamp (AuditRow.event b) - WebEvent.timestamp (AuditRow.event a).

(** [Array.prototype.sort] is stable: rows the comparator does not
    separate stay in the order they had.  Inserting each row, from the
    last to the first, in front of the first row it does not have to
    follow, is the stable sort. *)
Fixpoint insertSorted (compare : AuditRow.t -> AuditRow.t -> Z) (a : AuditRow.t)
    (sorted : list AuditRow.t) : list AuditRow.t :=
  match sorted with
  | [] => [a]
  | b :: rest =>
      if compare a b <=? 0 then a :: b :: rest
      else b :: insertSorted compare a rest
  end.

Definition sort (compare : AuditRow.t -> AuditRow.t -> Z) (rows : list AuditRow.t)
  : list AuditRow.t :=
  fold_right (insertSorted compare) [] rows.

(** [getAllEvents], on the ledger it reads. *)
Definition getAllEvents (txs : list WebTransaction.t) : list AuditRow.t :=
  sort byTimeDescending (collectEvents txs).

(** [verifyDocument(hash)]: the first document, in ledger order, whose
    current hash is the hash. *)
Fixpoint verifyDocument (txs : list WebTransaction.t) (hash : string) : WebVerification.t :=
  match txs with
  | [] => WebVerification.make false None None
  | x :: rest =>
      match find (fun doc => (WebDocument.currentHash doc =? hash)%string)
                 (WebTransaction.documents x) with
      | Some doc => WebVerification.make true (Some doc) (Some x)
      | None => verifyDocument rest hash
      end
  end.

(** The totals of the dashboard ([web/src/app/page.tsx]). *)
Definition totalDocuments (txs : list WebTransaction.t) : Z :=
  fold_left (fun acc x => acc + Z.of_nat (List.length (WebTransaction.documents x))) txs 0.

Definition totalEvents (txs : list WebTransaction.t) : Z :=
  fold_left (fun acc x =>
               acc + fold_left (fun docAcc doc =>
                                  docAcc + Z.of_nat (List.length (WebDocument.events doc)))
                               (WebTransaction.documents x) 0) txs 0.

End MockData.

(** The code units of a text of ASCII characters. *)
Definition unitsOf (s : string) : list Z :=
  map (fun c => Z.of_N (N_of_ascii c)) (list_ascii_of_string s).

(** [HashSchema] of the validation schemas: [/^[a-f0-9]{64}$/i]. *)
Definition isHexDigit (c : ascii) : bool :=
  let n := N_of_ascii c in
  (((48 <=? n) && (n <=? 57)) || ((97 <=? n) && (n <=? 102))
   || ((65 <=? n) && (n <=? 70)))%N.

Definition isValidHash (s : string) : bool :=
  (String.length s =? 64)%nat && Text.allChars isHexDigit s.

(** The timestamps from the latest to the earliest. *)
Fixpoint descending (stamps : list Z) : Prop :=
  match stamps with
  | [] => True
  | t :: rest => (forall u, In u rest -> u <= t) /\ descending rest
  end.

(** The values [handleUpload] of the upload page shows
    ([web/src/app/upload/page.tsx]).  [now1] and [now2] are its two
    [Date.now()] readings; [randomText] is the text [Math.random()] is
    printed as, by its code units. *)
Module UploadPage.
Record result := make {
  hash : string;
  blockId : string;
  documentId : string
}.

Definition handleUpload (fileContent : list Z) (now1 : Z) (randomText : list Z) (now2 : Z)
  : result :=
  let hash := MockData.computeHash (fileContent ++ unitsOf (Text.decimal now1)) in
  let blockId := ("0x" ++ MockData.computeHash (unitsOf hash ++ randomText))%string in
  let documentId := ("DOC-" ++ Text.decimal now2)%string in
  make hash blockId documentId.
End UploadPage.

(** * Facts *)

(** ** Text *)

Section TextFacts.

Lemma length_string_of_list (l : list ascii) :
  String.length (string_of_list_ascii l) = List.length l.
Proof. induction l; simpl; congruence. Qed.

Lemma list_of_append (a b : string) :
  list_ascii_of_string (a ++ b) = list_ascii_of_string a ++ list_ascii_of_string b.
Proof. induction a; simpl; congruence. Qed.

Lemma length_append (a b : string) :
  String.length (a ++ b) = (String.length a + String.length b)%nat.
Proof. induction a; simpl; congruence. Qed.

Lemma allChars_append p (a b : string) :
  Text.allChars p (a ++ b) = Text.allChars p a && Text.allChars p b.
Proof. unfold Text.allChars. now rewrite list_of_append, forallb_app. Qed.

Lemma allChars_of_list p (l : list ascii) :
  Text.allChars p (string_of_list_ascii l) = forallb p l.
Proof. unfold Text.allChars. now rewrite list_ascii_of_string_of_list_ascii. Qed.

Lemma append_inj_l (p a b : string) : (p ++ a = p ++ b)%string -> a = b.
Proof. induction p; simpl; intros H; [assumption | injection H; auto]. Qed.

Lemma prefix_append (p s : string) : String.prefix p (p ++ s) = true.
Proof.
  induction p as [|c p IH]; simpl.
  - now destruct s.
  - destruct (ascii_dec c c); [assumption | contradiction].
Qed.

Lemma substring_append (p s : string) :
  substring (String.length p) (String.length s) (p ++ s) = s.
Proof.
  induction p as [|c p IH]; simpl; [|assumption].
  induction s as [|c s IH]; simpl; [reflexivity|]. now rewrite IH.
Qed.

(** Checking a predicate on the integers below a bound by running it. *)
Lemma below_by_running (P : Z -> bool) (n : nat) :
  forallb P (map Z.of_nat (seq 0 n)) = true ->
  forall z, 0 <= z < Z.of_nat n -> P z = true.
Proof.
  intros H z Hz. rewrite forallb_forall in H. apply H.
  apply in_map_iff. exists (Z.to_nat z). split; [lia|].
  apply in_seq. lia.
Qed.

Lemma digitValue_digitChar d : 0 <= d < 16 -> Text.digitValue (Text.digitChar d) = d.
Proof.
  intros H.
  apply (proj1 (Z.eqb_eq _ _)).
  revert d H.
  apply (below_by_running (fun d => Text.digitValue (Text.digitChar d) =? d) 16).
  vm_compute. reflexivity.
Qed.

Lemma isDigit_digitChar d : 0 <= d < 10 -> Text.isDigit (Text.digitChar d) = true.
Proof.
  apply (below_by_running (fun d => Text.isDigit (Text.digitChar d)) 10).
  vm_compute. reflexivity.
Qed.

Lemma valueOf_snoc radix ds c :
  Text.valueOf radix (ds ++ [c]) = radix * Text.valueOf radix ds + Text.digitValue c.
Proof. unfold Text.valueOf. now rewrite fold_left_app. Qed.

(** With fuel for every digit, reading the digits back gives the number. *)
Lemma valueOf_digitsOf radix fuel : 2 <= radix <= 16 ->
  forall n, 0 <= n < radix ^ Z.of_nat fuel ->
  Text.valueOf radix (Text.digitsOf radix fuel n) = n.
Proof.
  intros Hr. induction fuel as [|fuel IH]; intros n Hn.
  - change (radix ^ Z.of_nat 0) with 1 in Hn. cbn. lia.
  - cbn [Text.digitsOf]. destruct (Z.ltb_spec n radix) as [Hlt|Hge].
    + unfold Text.valueOf. simpl. rewrite digitValue_digitChar; lia.
    + rewrite valueOf_snoc, IH.
      * rewrite digitValue_digitChar.
        -- pose proof (Z.div_mod n radix). lia.
        -- pose proof (Z.mod_pos_bound n radix). lia.
      * rewrite Nat2Z.inj_succ, Z.pow_succ_r in Hn by lia.
        split; [apply Z.div_pos; lia|].
        apply Z.div_lt_upper_bound; lia.
Qed.

Lemma fuelFor_enough radix n : 2 <= radix -> 0 <= n ->
  n < radix ^ Z.of_nat (Text.fuelFor n).
Proof.
  intros Hr Hn. unfold Text.fuelFor.
  rewrite Nat2Z.inj_succ, Z2Nat.id by apply Z.log2_nonneg.
  apply Z.lt_le_trans with (2 ^ Z.succ (Z.log2 n)).
  - destruct (Z.eq_dec n 0) as [->|]; [reflexivity|].
    apply Z.log2_spec. lia.
  - apply Z.pow_le_mono_l. lia.
Qed.

Lemma digitsOf_decimal_digits fuel :
  forall n, 0 <= n -> forallb Text.isDigit (Text.digitsOf 10 fuel n) = true.
Proof.
  induction fuel as [|fuel IH]; intros n Hn; [reflexivity|].
  cbn [Text.digitsOf]. destruct (Z.ltb_spec n 10).
  - simpl. rewrite isDigit_digitChar; [reflexivity | lia].
  - rewrite forallb_app, IH by (apply Z.div_pos; lia).
    simpl. rewrite isDigit_digitChar; [reflexivity|].
    pose proof (Z.mod_pos_bound n 10). lia.
Qed.

(** A number of at least [10^k] prints on more than [k] digits. *)
Lemma digitsOf_long (k : nat) :
  forall fuel n, n < 10 ^ Z.of_nat fuel -> 10 ^ Z.of_nat k <= n ->
  (k < List.length (Text.digitsOf 10 fuel n))%nat.
Proof.
  induction k as [|k IH]; intros fuel n Hfuel Hn.
  - change (10 ^ Z.of_nat 0) with 1 in Hn.
    destruct fuel as [|fuel]; [change (10 ^ Z.of_nat 0) with 1 in Hfuel; lia|].
    cbn [Text.digitsOf]. destruct (n <? 10); [simpl; lia|].
    rewrite length_app. simpl. lia.
  - rewrite Nat2Z.inj_succ, Z.pow_succ_r in Hn by lia.
    assert (0 < 10 ^ Z.of_nat k) by (apply Z.pow_pos_nonneg; lia).
    destruct fuel as [|fuel]; [change (10 ^ Z.of_nat 0) with 1 in Hfuel; lia|].
    rewrite Nat2Z.inj_succ, Z.pow_succ_r in Hfuel by lia.
    cbn [Text.digitsOf]. destruct (Z.ltb_spec n 10); [lia|].
    rewrite length_app. simpl.
    assert (k < List.length (Text.digitsOf 10 fuel (n / 10)))%nat; [|lia].
    apply IH.
    + apply Z.div_lt_upper_bound; lia.
    + apply Z.div_le_lower_bound; lia.
Qed.

End TextFacts.

Section NumberFacts.

Lemma readInt_decimal n : Text.readInt (Text.decimal n) = n.
Proof.
  unfold Text.decimal, Text.toString. destruct (Z.ltb_spec n 0) as [Hneg|Hpos].
  - cbn [Text.readInt]. rewrite Ascii.eqb_refl, list_ascii_of_string_of_list_ascii.
    rewrite valueOf_digitsOf; [lia | lia |].
    split; [lia | apply fuelFor_enough; lia].
  - pose proof (digitsOf_decimal_digits (Text.fuelFor n) n Hpos) as Hd.
    pose proof (valueOf_digitsOf 10 (Text.fuelFor n) ltac:(lia) n
                  (conj Hpos (fuelFor_enough 10 n ltac:(lia) Hpos))) as Hv.
    destruct (Text.digitsOf 10 (Text.fuelFor n) n) as [|c ds]; [exact Hv|].
    cbn [string_of_list_ascii Text.readInt].
    destruct (Ascii.eqb_spec c "-") as [->|_]; [discriminate Hd|].
    change (list_ascii_of_string (String c (string_of_list_ascii ds)))
      with (c :: list_ascii_of_string (string_of_list_ascii ds)).
    now rewrite list_ascii_of_string_of_list_ascii.
Qed.

Lemma decimal_inj a b : Text.decimal a = Text.decimal b -> a = b.
Proof.
  intros H. rewrite <- (readInt_decimal a), <- (readInt_decimal b). now rewrite H.
Qed.

Lemma decimal_digits n : 0 <= n -> Text.allChars Text.isDigit (Text.decimal n) = true.
Proof.
  intros Hn. unfold Text.decimal, Text.toString.
  destruct (Z.ltb_spec n 0); [lia|].
  rewrite allChars_of_list. now apply digitsOf_decimal_digits.
Qed.

Lemma decimal_long (k : nat) n :
  10 ^ Z.of_nat k <= n -> (k < String.length (Text.decimal n))%nat.
Proof.
  intros Hn.
  assert (0 < 10 ^ Z.of_nat k) by (apply Z.pow_pos_nonneg; lia).
  unfold Text.decimal, Text.toString.
  destruct (Z.ltb_spec n 0); [lia|].
  rewrite length_string_of_list. apply digitsOf_long; [|assumption].
  apply fuelFor_enough; lia.
Qed.

(** One byte prints on exactly two characters of [0-9a-f]. *)
Lemma hex_of_byte b : 0 <= b < 256 ->
  let h := Text.padStart 2 "0" (Text.toString 16 b) in
  String.length h = 2%nat /\ Text.allChars Text.isLowerHex h = true.
Proof.
  intros Hb h.
  assert ((String.length h =? 2)%nat && Text.allChars Text.isLowerHex h = true) as Hrun.
  { subst h. revert b Hb.
    apply (below_by_running
             (fun b => (String.length (Text.padStart 2 "0" (Text.toString 16 b)) =? 2)%nat
                       && Text.allChars Text.isLowerHex
                            (Text.padStart 2 "0" (Text.toString 16 b))) 256).
    vm_compute. reflexivity. }
  apply andb_true_iff in Hrun. destruct Hrun as [Hl Hc].
  apply Nat.eqb_eq in Hl. now split.
Qed.

(** A value below 16 prints on exactly one. *)
Lemma hex_of_nibble d : 0 <= d < 16 ->
  String.length (Text.toString 16 d) = 1%nat
  /\ Text.allChars Text.isLowerHex (Text.toString 16 d) = true.
Proof.
  intros Hd.
  assert ((String.length (Text.toString 16 d) =? 1)%nat
          && Text.allChars Text.isLowerHex (Text.toString 16 d) = true) as Hrun.
  { revert d Hd.
    apply (below_by_running
             (fun d => (String.length (Text.toString 16 d) =? 1)%nat
                       && Text.allChars Text.isLowerHex (Text.toString 16 d)) 16).
    vm_compute. reflexivity. }
  apply andb_true_iff in Hrun. destruct Hrun as [Hl Hc].
  apply Nat.eqb_eq in Hl. now split.
Qed.

Lemma join_pieces (width : nat) (parts : list string) :
  Forall (fun s => String.length s = width
                   /\ Text.allChars Text.isLowerHex s = true) parts ->
  String.length (Text.join parts) = (width * List.length parts)%nat
  /\ Text.allChars Text.isLowerHex (Text.join parts) = true.
Proof.
  induction 1 as [|s parts [Hl Hc] _ [IHl IHc]]; simpl.
  - split; [lia | reflexivity].
  - rewrite length_append, allChars_append, Hl, Hc, IHl, IHc. split; [lia | reflexivity].
Qed.

Lemma hexOfBytes_shape bs : Forall (fun b => 0 <= b < 256) bs ->
  String.length (hexOfBytes bs) = (2 * List.length bs)%nat
  /\ Text.allChars Text.isLowerHex (hexOfBytes bs) = true.
Proof.
  intros H. unfold hexOfBytes.
  rewrite <- (length_map (fun b => Text.padStart 2 "0" (Text.toString 16 b)) bs).
  apply join_pieces. apply Forall_map.
  eapply Forall_impl; [|exact H]. intros b Hb. now apply hex_of_byte.
Qed.

End NumberFacts.

(** ** SHA-256: the digest has 32 bytes *)

Section DigestFacts.

Lemma bigEndian_bytes width x : Forall (fun b => 0 <= b < 256) (SHA256.bigEndian width x).
Proof.
  induction width as [|w IH]; cbn [SHA256.bigEndian]; constructor; [|assumption].
  change 255 with (Z.ones 8). rewrite Z.land_ones by lia.
  apply Z.mod_pos_bound. reflexivity.
Qed.

Lemma bigEndian_length width x : List.length (SHA256.bigEndian width x) = width.
Proof. induction width; simpl; congruence. Qed.

Lemma digest_bytes msg : Forall (fun b => 0 <= b < 256) (SHA256.digest msg).
Proof.
  unfold SHA256.digest. cbv zeta. cbn [flat_map].
  repeat (apply Forall_app; split; [apply bigEndian_bytes|]). constructor.
Qed.

Lemma digest_length msg : List.length (SHA256.digest msg) = 32%nat.
Proof.
  unfold SHA256.digest. cbv zeta. cbn [flat_map].
  repeat rewrite length_app. repeat rewrite bigEndian_length. reflexivity.
Qed.

Lemma sha256Hex_shape content :
  String.length (sha256Hex content) = 64%nat
  /\ Text.allChars Text.isLowerHex (sha256Hex content) = true.
Proof.
  unfold sha256Hex.
  destruct (hexOfBytes_shape _ (digest_bytes content)) as [Hl Hc].
  rewrite digest_length in Hl. now split.
Qed.

End DigestFacts.

(** Test vectors of FIPS 180-4. *)

Example sha256_abc :
  sha256Hex (bytesOf "abc")
  = "ba7816bf8f01cfea414140de5dae2223b00361a396177a9cb410ff61f20015ad".
Proof. vm_compute. reflexivity. Qed.

Example sha256_empty :
  sha256Hex []
  = "e3b0c44298fc1c149afbf4c8996fb92427ae41e4649b934ca495991b7852b855".
Proof. vm_compute. reflexivity. Qed.

Example sha256_two_blocks :
  sha256Hex (bytesOf "abcdbcdecdefdefgefghfghighijhijkijkljklmklmnlmnomnopnopq")
  = "248d6a61d20638b8e5c026930c3e6039a33ce45964ff2167f6ecedd419db06c1".
Proof. vm_compute. reflexivity. Qed.

(** ** Effects *)

Section EffectFacts.

Lemma floorTimes16_range r : 0 <= r < 2 ^ 53 -> 0 <= floorTimes16 r < 16.
Proof.
  intros H. unfold floorTimes16. split.
  - apply Z.div_pos; lia.
  - apply Z.div_lt_upper_bound; lia.
Qed.

Lemma arrayFrom_random {A} (f : Z -> A) (n : nat) : forall w,
  arrayFrom n (r <- Math_random ;; ret (f r)) w
  = (map (fun k => f (entropy (env w) k mod 2 ^ 53)) (seq (randomDraws w) n),
     mkWorld (env w) (clockReads w) (n + randomDraws w) (transactions w)).
Proof.
  set (m := r <- Math_random ;; ret (f r)).
  assert (forall w, m w = (f (entropy (env w) (randomDraws w) mod 2 ^ 53),
                           mkWorld (env w) (clockReads w) (S (randomDraws w))
                                   (transactions w))) as Hm by reflexivity.
  induction n as [|n IH]; intros w.
  - destruct w; reflexivity.
  - cbn [arrayFrom]. unfold bind at 1. rewrite Hm.
    unfold bind at 1. rewrite IH. unfold ret. cbn.
    now rewrite Nat.add_succ_r.
Qed.

(** A block id is [0x] and 64 characters of [0-9a-f]; minting one only
    draws random numbers. *)
Lemma generateBlockId_spec w :
  exists block,
    generateBlockId w
    = (block, mkWorld (env w) (clockReads w) (64 + randomDraws w) (transactions w))
    /\ String.length block = 66%nat
    /\ matchesBlockId block = true.
Proof.
  unfold generateBlockId. unfold bind at 1. rewrite arrayFrom_random. unfold ret.
  eexists. split; [reflexivity|].
  match goal with |- context [Text.join ?l] => set (parts := l) end.
  assert (Forall (fun s => String.length s = 1%nat
                           /\ Text.allChars Text.isLowerHex s = true) parts) as Hparts.
  { subst parts. apply Forall_map. apply Forall_forall. intros k _.
    apply hex_of_nibble, floorTimes16_range, Z.mod_pos_bound. reflexivity. }
  destruct (join_pieces 1 parts Hparts) as [Hl Hc].
  assert (List.length parts = 64%nat) as Hn
    by (subst parts; now rewrite length_map, length_seq).
  rewrite Hn in Hl.
  assert (String.length ("0x" ++ Text.join parts) = 66%nat) as Hlen
    by (rewrite length_append, Hl; reflexivity).
  split; [exact Hlen|].
  unfold matchesBlockId. rewrite Hlen, prefix_append.
  change (66 - 2)%nat with 64%nat. rewrite <- Hl at 1.
  change 2%nat with (String.length "0x") at 1.
  rewrite substring_append, Hc. reflexivity.
Qed.

(** The event [addEvent] builds: two clock readings, one block id. *)
Lemma appendedEvent_spec type actor role hash metadata w :
  exists block,
    appendedEvent type actor role hash metadata w
    = (BlockchainEvent.make ("evt_" ++ Text.decimal (clock (env w) (clockReads w)))
         (clock (env w) (S (clockReads w))) type actor role hash
         (match metadata with Some m => m | None => [] end) block,
       mkWorld (env w) (2 + clockReads w) (64 + randomDraws w) (transactions w))
    /\ matchesBlockId block = true
    /\ String.length block = 66%nat.
Proof.
  unfold appendedEvent, bind, Date_now. cbn [env clockReads randomDraws transactions].
  destruct (generateBlockId_spec
              (mkWorld (env w) (S (S (clockReads w))) (randomDraws w) (transactions w)))
    as (block & Hgen & Hlen & Hfmt).
  rewrite Hgen. exists block. split; [reflexivity | split; assumption].
Qed.

(** The event [createDocument] builds. *)
Lemma uploadEvent_spec file hash actor role w :
  exists block,
    uploadEvent file hash actor role w
    = (BlockchainEvent.make ("evt_" ++ Text.decimal (clock (env w) (clockReads w)))
         (clock (env w) (S (clockReads w))) EventType.UPLOAD actor role hash
         [("fileName", JsString (File.name file));
          ("fileSize", JsNumber (File.size file))] block,
       mkWorld (env w) (2 + clockReads w) (64 + randomDraws w) (transactions w))
    /\ matchesBlockId block = true
    /\ String.length block = 66%nat.
Proof.
  unfold uploadEvent, bind, Date_now. cbn [env clockReads randomDraws transactions].
  destruct (generateBlockId_spec
              (mkWorld (env w) (S (S (clockReads w))) (randomDraws w) (transactions w)))
    as (block & Hgen & Hlen & Hfmt).
  rewrite Hgen. exists block. split; [reflexivity | split; assumption].
Qed.

End EffectFacts.

(** ** Looking documents up *)

Section LookupFacts.

Lemma holds_find docId x :
  holds docId x
  = match find (hasId docId) (Transaction.documents x) with
    | Some _ => true
    | None => false
    end.
Proof.
  unfold holds. induction (Transaction.documents x) as [|d ds IH]; simpl; [reflexivity|].
  destruct (hasId docId d); simpl; [reflexivity | assumption].
Qed.

Lemma hasId_true docId d : hasId docId d = true <-> DocumentAsset.id d = docId.
Proof. unfold hasId. apply String.eqb_eq. Qed.

Lemma locate_none txs docId : locate txs docId = None <-> unknownDocument txs docId.
Proof.
  unfold unknownDocument. induction txs as [|x rest IH]; simpl.
  - split; [intros _ ? ? [] | reflexivity].
  - destruct (find (hasId docId) (Transaction.documents x)) as [d|] eqn:Hfind.
    + split; [discriminate|]. intros H. exfalso.
      apply find_some in Hfind. destruct Hfind as [Hin Hid].
      apply (H x d); auto. now apply hasId_true.
    + rewrite IH. split.
      * intros H y d [<-|Hy] Hd; [|eauto].
        intros Hid. apply hasId_true in Hid.
        pose proof (find_none _ _ Hfind d Hd). congruence.
      * intros H y d Hy. apply H. now right.
Qed.

Lemma locate_some txs docId x d :
  locate txs docId = Some (x, d) ->
  In x txs /\ In d (Transaction.documents x) /\ DocumentAsset.id d = docId.
Proof.
  induction txs as [|y rest IH]; simpl; [discriminate|].
  destruct (find (hasId docId) (Transaction.documents y)) as [d'|] eqn:Hfind.
  - intros [= <- <-]. apply find_some in Hfind. destruct Hfind as [Hin Hid].
    repeat split; auto. now apply hasId_true.
  - intros H. destruct (IH H) as (? & ? & ?). auto.
Qed.

(** What the loop of [addEvent] does, by whether the id names a document. *)
Lemma addEventLoop_missing txs docId type actor role hash metadata w :
  locate txs docId = None ->
  addEventLoop txs docId type actor role hash metadata w = ((None, txs), w).
Proof.
  induction txs as [|x rest IH]; simpl; [reflexivity|].
  destruct (find (hasId docId) (Transaction.documents x)); [discriminate|].
  intros H. unfold bind. now rewrite (IH H).
Qed.

Lemma addEventLoop_found txs docId type actor role hash metadata w x d :
  locate txs docId = Some (x, d) ->
  let (newEvent, w') := appendedEvent type actor role hash metadata w in
  addEventLoop txs docId type actor role hash metadata w
  = ((Some (eventApplied type newEvent d),
      updateFirst (holds docId) (transactionApplied docId type newEvent) txs), w').
Proof.
  destruct (appendedEvent type actor role hash metadata w) as [newEvent w'] eqn:Hev.
  induction txs as [|y rest IH]; simpl; [discriminate|].
  rewrite holds_find.
  destruct (find (hasId docId) (Transaction.documents y)) as [d'|] eqn:Hfind.
  - intros [= <- <-]. unfold bind. rewrite Hev. reflexivity.
  - intros H. unfold bind. rewrite (IH H). reflexivity.
Qed.

Lemma find_updateFirst {A} (p : A -> bool) (f : A -> A) xs a :
  (forall y, p y = true -> p (f y) = true) ->
  find p xs = Some a -> find p (updateFirst p f xs) = Some (f a).
Proof.
  intros Hp. induction xs as [|y rest IH]; simpl; [discriminate|].
  destruct (p y) eqn:Hy.
  - intros [= <-]. simpl. now rewrite (Hp _ Hy).
  - intros H. simpl. rewrite Hy. auto.
Qed.

Lemma hasId_eventApplied docId type e d :
  hasId docId (eventApplied type e d) = hasId docId d.
Proof. unfold eventApplied, updateStatus. now destruct type. Qed.

Lemma locate_updateFirst txs docId type newEvent x d :
  locate txs docId = Some (x, d) ->
  locate (updateFirst (holds docId) (transactionApplied docId type newEvent) txs) docId
  = Some (transactionApplied docId type newEvent x, eventApplied type newEvent d).
Proof.
  induction txs as [|y rest IH]; simpl; [discriminate|].
  rewrite holds_find.
  destruct (find (hasId docId) (Transaction.documents y)) as [d'|] eqn:Hfind.
  - intros [= <- <-]. simpl.
    assert (Transaction.documents (transactionApplied docId type newEvent y)
            = updateFirst (hasId docId) (eventApplied type newEvent)
                (Transaction.documents y)) as ->
      by (unfold transactionApplied, updateTransactionStatus; now destruct type).
    rewrite (find_updateFirst _ _ _ d'); [reflexivity | | assumption].
    intros z Hz. now rewrite hasId_eventApplied.
  - intros H. simpl. rewrite Hfind. auto.
Qed.

End LookupFacts.

(** ** The services, operation by operation *)

Section ServiceFacts.

Lemma findIndex_some {A} (p : A -> bool) xs : forall i,
  findIndex p xs = Some i ->
  exists before x after,
    xs = before ++ x :: after /\ p x = true
    /\ (forall y, In y before -> p y = false)
    /\ forall f, updateAt i f xs = before ++ f x :: after.
Proof.
  induction xs as [|a rest IH]; intros i; simpl; [discriminate|].
  destruct (p a) eqn:Ha.
  - intros [= <-]. exists [], a, rest. repeat split; auto. intros ? [].
  - destruct (findIndex p rest) as [j|]; [|discriminate].
    intros [= <-]. destruct (IH j eq_refl) as (before & x & after & -> & Hx & Hb & Hu).
    exists (a :: before), x, after. repeat split; auto.
    + intros y [<-|Hy]; auto.
    + intros f. simpl. now rewrite Hu.
Qed.

Lemma findIndex_none {A} (p : A -> bool) xs :
  findIndex p xs = None -> forall y, In y xs -> p y = false.
Proof.
  induction xs as [|a rest IH]; simpl; [intros _ ? []|].
  destruct (p a) eqn:Ha; [discriminate|].
  destruct (findIndex p rest); [discriminate|].
  intros _ y [<-|Hy]; auto.
Qed.

Lemma known_transaction tid txs :
  In tid (map Transaction.id txs) <-> findIndex (isTransaction tid) txs <> None.
Proof.
  split.
  - intros Hin Hnone. apply in_map_iff in Hin. destruct Hin as (x & Hid & Hx).
    pose proof (findIndex_none _ _ Hnone x Hx) as Hp.
    unfold isTransaction in Hp. apply String.eqb_neq in Hp. contradiction.
  - destruct (findIndex (isTransaction tid) txs) as [i|] eqn:Hi; [|congruence].
    intros _. destruct (findIndex_some _ _ _ Hi) as (before & x & after & -> & Hx & _).
    apply in_map_iff. exists x. split.
    + now apply String.eqb_eq.
    + apply in_or_app. right. now left.
Qed.

(** Clock readings consumed by hashing: one in the browser fallback. *)
Lemma computeFileHash_spec s file w :
  exists c,
    (match s with
     | Browser => BlockchainService.computeFileHash file w
     | Node => BlockchainServiceNode.computeFileHash file w
     end) = (hashIn s file w,
             mkWorld (env w) c (randomDraws w) (transactions w))
    /\ mintReading s w = clock (env w) (2 + c)
    /\ (clockReads w <= c)%nat.
Proof.
  destruct s; unfold hashIn, mintReading.
  - unfold BlockchainService.computeFileHash.
    destruct (subtleCrypto (env w)).
    + exists (clockReads w). destruct w. cbn.
      rewrite Nat.add_comm. repeat split; auto.
    + exists (S (clockReads w)). cbn.
      replace (clockReads w + 3)%nat with (S (S (S (clockReads w)))) by lia.
      repeat split; auto.
  - exists (clockReads w). destruct w. cbn.
    rewrite Nat.add_comm. repeat split; auto.
Qed.

Lemma createDocument_unknown s tid file docType actor role w :
  findIndex (isTransaction tid) (transactions w) = None ->
  createDocumentOf s tid file docType actor role w = (None, w).
Proof.
  intros H.
  destruct s; cbn [createDocumentOf];
    [unfold BlockchainService.createDocument
    |unfold BlockchainServiceNode.createDocument];
    unfold bind at 1; unfold readTransactions; now rewrite H.
Qed.

(** The document [createDocument] builds and where it puts it. *)
Lemma createDocument_known s tid file docType actor role w i :
  findIndex (isTransaction tid) (transactions w) = Some i ->
  exists block c,
    let h := hashIn s file w in
    let e := BlockchainEvent.make ("evt_" ++ Text.decimal (clock (env w) c))
               (clock (env w) (S c)) EventType.UPLOAD actor role h
               [("fileName", JsString (File.name file));
                ("fileSize", JsNumber (File.size file))] block in
    let doc := DocumentAsset.make ("DOC-" ++ Text.decimal (mintReading s w))
                 (File.name file) docType 1 h DocumentStatus.DRAFT [e] in
    createDocumentOf s tid file docType actor role w
    = (Some doc,
       mkWorld (env w) (3 + c) (64 + randomDraws w)
         (updateAt i (fun x => Transaction.setDocuments
                                 (Transaction.documents x ++ [doc]) x)
                   (transactions w)))
    /\ (matchesBlockId block = true /\ String.length block = 66%nat)
    /\ (clockReads w <= c)%nat.
Proof.
  intros H.
  destruct (computeFileHash_spec s file w) as (c & Hhash & Hmint & Hc).
  destruct (uploadEvent_spec file (hashIn s file w) actor role
              (mkWorld (env w) c (randomDraws w) (transactions w)))
    as (block & Hev & Hfmt).
  cbn [env clockReads randomDraws transactions] in Hev.
  exists block, c. cbv zeta. rewrite Hmint. split; [|split; assumption].
  destruct s; cbn [createDocumentOf];
    [unfold BlockchainService.createDocument
    |unfold BlockchainServiceNode.createDocument];
    unfold bind at 1; unfold readTransactions at 1; rewrite H;
    unfold bind at 1; rewrite Hhash;
    unfold bind at 1; rewrite Hev;
    reflexivity.
Qed.

Lemma world_eta w : mkWorld (env w) (clockReads w) (randomDraws w) (transactions w) = w.
Proof. now destruct w. Qed.

Lemma node_addEvent_missing docId type actor role hash metadata w :
  locate (transactions w) docId = None ->
  BlockchainServiceNode.addEvent docId type actor role hash metadata w = (None, w).
Proof.
  intros H. unfold BlockchainServiceNode.addEvent, bind, readTransactions.
  rewrite (addEventLoop_missing _ _ _ _ _ _ _ _ H). unfold writeTransactions, ret. cbn.
  now rewrite world_eta.
Qed.

Lemma node_addEvent_found docId type actor role hash metadata w x d :
  locate (transactions w) docId = Some (x, d) ->
  exists block,
    let e := BlockchainEvent.make ("evt_" ++ Text.decimal (clock (env w) (clockReads w)))
               (clock (env w) (S (clockReads w))) type actor role hash
               (match metadata with Some m => m | None => [] end) block in
    BlockchainServiceNode.addEvent docId type actor role hash metadata w
    = (Some (eventApplied type e d),
       mkWorld (env w) (2 + clockReads w) (64 + randomDraws w)
         (updateFirst (holds docId) (transactionApplied docId type e) (transactions w)))
    /\ matchesBlockId block = true
    /\ String.length block = 66%nat.
Proof.
  intros H.
  destruct (appendedEvent_spec type actor role hash metadata w) as (block & Hev & Hfmt).
  exists block. cbv zeta. split; [|assumption].
  pose proof (addEventLoop_found _ _ type actor role hash metadata w _ _ H) as Hloop.
  rewrite Hev in Hloop.
  unfold BlockchainServiceNode.addEvent, bind, readTransactions.
  rewrite Hloop. reflexivity.
Qed.

(** The browser [addEvent] leaves the world the Node one leaves. *)
Lemma browser_addEvent docId type actor role hash metadata w :
  BlockchainService.addEvent docId type actor role hash metadata w
  = (tt, snd (BlockchainServiceNode.addEvent docId type actor role hash metadata w)).
Proof.
  unfold BlockchainService.addEvent, BlockchainServiceNode.addEvent, bind, readTransactions.
  destruct (addEventLoop _ _ _ _ _ _ _ w) as [[r txs] w']. reflexivity.
Qed.

End ServiceFacts.

(** * Properties of the ledger *)

(** ** Verification *)

Section Verification.

Lemma find_map_some {A B} (p : A -> bool) (q : B -> bool) (g : A -> B) xs a :
  (forall y, q (g y) = p y) -> find p xs = Some a -> find q (map g xs) = Some (g a).
Proof.
  intros Hq. induction xs as [|y rest IH]; simpl; [discriminate|].
  rewrite Hq. destruct (p y); [intros [= <-]; reflexivity | assumption].
Qed.

Lemma find_map_none {A B} (p : A -> bool) (q : B -> bool) (g : A -> B) xs :
  (forall y, q (g y) = p y) -> find p xs = None -> find q (map g xs) = None.
Proof.
  intros Hq. induction xs as [|y rest IH]; simpl; [reflexivity|].
  rewrite Hq. destruct (p y); [discriminate | assumption].
Qed.

Lemma find_app {A} (p : A -> bool) xs ys :
  find p (xs ++ ys) = match find p xs with Some a => Some a | None => find p ys end.
Proof.
  induction xs as [|y rest IH]; simpl; [reflexivity|]. now destruct (p y).
Qed.

(** The scan over the documents of one transaction is the search
    through its part of the flattened ledger. *)
Lemma node_scanDocuments_find hash x docs :
  BlockchainServiceNode.scanDocuments hash x docs
  = option_map (fun entry : Transaction.t * DocumentAsset.t * BlockchainEvent.t =>
                  let '(x', d, e) := entry in
                  VerificationResult.make true (Some d) (Some e) (Some x'))
      (find (entryCarries hash)
         (flat_map (fun d => map (fun e => (x, d, e)) (DocumentAsset.events d)) docs)).
Proof.
  induction docs as [|d rest IH]; simpl; [reflexivity|].
  rewrite find_app.
  destruct (find (carriesHash hash) (DocumentAsset.events d)) as [m|] eqn:Hm.
  - rewrite (find_map_some (carriesHash hash) (entryCarries hash)
               (fun e => (x, d, e)) _ m); auto.
  - rewrite (find_map_none (carriesHash hash) (entryCarries hash)
               (fun e => (x, d, e))); auto.
Qed.

Lemma node_scanTransactions_stated hash txs :
  BlockchainServiceNode.scanTransactions hash txs = verificationStated hash txs.
Proof.
  unfold verificationStated, firstMatch, ledgerEvents.
  induction txs as [|x rest IH]; simpl; [reflexivity|].
  rewrite find_app, node_scanDocuments_find.
  destruct (find (entryCarries hash)
              (flat_map (fun d => map (fun e => (x, d, e)) (DocumentAsset.events d))
                        (Transaction.documents x)))
    as [[[x' d] e]|]; simpl; [reflexivity|].
  exact IH.
Qed.

Lemma browser_scanDocuments_find hash x docs :
  BlockchainService.scanDocuments hash docs
  = option_map (fun entry : Transaction.t * DocumentAsset.t * BlockchainEvent.t =>
                  let '(_, d, e) := entry in
                  VerificationResult.make true (Some d) (Some e) None)
      (find (entryCarries hash)
         (flat_map (fun d => map (fun e => (x, d, e)) (DocumentAsset.events d)) docs)).
Proof.
  induction docs as [|d rest IH]; simpl; [reflexivity|].
  rewrite find_app.
  destruct (find (carriesHash hash) (DocumentAsset.events d)) as [m|] eqn:Hm.
  - rewrite (find_map_some (carriesHash hash) (entryCarries hash)
               (fun e => (x, d, e)) _ m); auto.
  - rewrite (find_map_none (carriesHash hash) (entryCarries hash)
               (fun e => (x, d, e))); auto.
Qed.

Lemma browser_scanTransactions_stated hash txs :
  BlockchainService.scanTransactions hash txs = verificationWithoutTransaction hash txs.
Proof.
  unfold verificationWithoutTransaction, firstMatch, ledgerEvents.
  induction txs as [|x rest IH]; simpl; [reflexivity|].
  rewrite find_app, (browser_scanDocuments_find hash x).
  destruct (find (entryCarries hash)
              (flat_map (fun d => map (fun e => (x, d, e)) (DocumentAsset.events d))
                        (Transaction.documents x)))
    as [[[x' d] e]|]; simpl; [reflexivity|].
  exact IH.
Qed.

Lemma in_ledgerEvents txs x d e :
  In (x, d, e) (ledgerEvents txs)
  <-> In x txs /\ In d (Transaction.documents x) /\ In e (DocumentAsset.events d).
Proof.
  unfold ledgerEvents. rewrite in_flat_map. split.
  - intros (x' & Hx & Hin). rewrite in_flat_map in Hin.
    destruct Hin as (d' & Hd & Hin). rewrite in_map_iff in Hin.
    destruct Hin as (e' & [= <- <- <-] & He). auto.
  - intros (Hx & Hd & He). exists x. split; [assumption|].
    rewrite in_flat_map. exists d. split; [assumption|].
    rewrite in_map_iff. now exists e.
Qed.

(** A match is found exactly when some event of the ledger carries the hash. *)
Lemma firstMatch_some hash txs :
  firstMatch hash txs <> None
  <-> exists x d e, In x txs /\ In d (Transaction.documents x)
                    /\ In e (DocumentAsset.events d)
                    /\ BlockchainEvent.docHash e = hash.
Proof.
  unfold firstMatch. split.
  - destruct (find _ _) as [[[x d] e]|] eqn:Hf; [|congruence].
    intros _. apply find_some in Hf. destruct Hf as [Hin Hc].
    apply in_ledgerEvents in Hin. destruct Hin as (Hx & Hd & He).
    exists x, d, e. repeat split; auto. now apply String.eqb_eq.
  - intros (x & d & e & Hx & Hd & He & Hh) Hnone.
    pose proof (find_none _ _ Hnone (x, d, e)) as Hf.
    rewrite in_ledgerEvents in Hf. specialize (Hf (conj Hx (conj Hd He))).
    cbn in Hf. unfold carriesHash in Hf. apply String.eqb_neq in Hf. contradiction.
Qed.

Lemma verified_stated hash txs :
  VerificationResult.verified (verificationStated hash txs) = true
  <-> firstMatch hash txs <> None.
Proof.
  unfold verificationStated. destruct (firstMatch hash txs) as [[[x d] e]|]; cbn.
  - split; congruence.
  - split; [discriminate | congruence].
Qed.

Lemma verified_without_transaction hash txs :
  VerificationResult.verified (verificationWithoutTransaction hash txs)
  = VerificationResult.verified (verificationStated hash txs).
Proof.
  unfold verificationWithoutTransaction, verificationStated.
  now destruct (firstMatch hash txs) as [[[x d] e]|].
Qed.

End Verification.

Section VerificationClaim.

Lemma verifyDocument_result s file w :
  fst (verifyDocumentOf s file w)
  = match s with
    | Node => verificationStated (hashIn s file w) (transactions w)
    | Browser => verificationWithoutTransaction (hashIn s file w) (transactions w)
    end.
Proof.
  destruct (computeFileHash_spec s file w) as (c & Hhash & _).
  destruct s; cbn [verifyDocumentOf];
    [unfold BlockchainService.verifyDocument
    |unfold BlockchainServiceNode.verifyDocument];
    unfold bind at 1; rewrite Hhash; cbn.
  - apply browser_scanTransactions_stated.
  - apply node_scanTransactions_stated.
Qed.

Lemma verified_result s file w :
  VerificationResult.verified (fst (verifyDocumentOf s file w))
  = VerificationResult.verified
      (verificationStated (hashIn s file w) (transactions w)).
Proof.
  rewrite verifyDocument_result. destruct s; [apply verified_without_transaction|reflexivity].
Qed.

Lemma hashIn_sha256 s file w :
  s = Node \/ subtleCrypto (env w) = true ->
  hashIn s file w = sha256Hex (File.content file).
Proof.
  intros [->|H]; [reflexivity|]. destruct s; [|reflexivity].
  unfold hashIn, BlockchainService.computeFileHash. now rewrite H.
Qed.

Lemma not_verified hash txs :
  VerificationResult.verified (verificationStated hash txs) = false
  <-> firstMatch hash txs = None.
Proof.
  unfold verificationStated. destruct (firstMatch hash txs) as [[[x d] e]|]; cbn.
  - split; discriminate.
  - split; reflexivity.
Qed.

End VerificationClaim.

(** C1 (as amended).  [verifyDocument] hashes the file and returns the
    first event, in ledger scan order, whose [docHash] is that hash: with
    [verified = true] it returns the owning document and the matching
    event, and the Node service also the owning transaction (the browser
    service returns none); it reports [verified = true] exactly when some
    event of some document carries the hash, and otherwise returns
    [verified = false] and nothing else.  Where the hash is SHA-256 (the
    Node service, the browser service with [crypto.subtle]), a document
    just created from a file verifies, and another file of a different
    hash does not, provided no event of the ledger carried that hash. *)
Theorem verifyDocument_first_match (s : Service) (file : File.t) (w : World) :
  let hash := hashIn s file w in
  let result := fst (verifyDocumentOf s file w) in
  result = (match s with
            | Node => verificationStated hash (transactions w)
            | Browser => verificationWithoutTransaction hash (transactions w)
            end)
  /\ (VerificationResult.verified result = true
      <-> exists x d e,
            In x (transactions w) /\ In d (Transaction.documents x)
            /\ In e (DocumentAsset.events d) /\ BlockchainEvent.docHash e = hash)
  /\ (VerificationResult.verified result = false ->
      VerificationResult.doc result = None
      /\ VerificationResult.matchedEvent result = None
      /\ VerificationResult.transaction result = None)
  /\ forall tid docType actor role other,
       s = Node \/ subtleCrypto (env w) = true ->
       In tid (map Transaction.id (transactions w)) ->
       let w1 := snd (createDocumentOf s tid file docType actor role w) in
       VerificationResult.verified (fst (verifyDocumentOf s file w1)) = true
       /\ (sha256Hex (File.content other) <> sha256Hex (File.content file) ->
           firstMatch (sha256Hex (File.content other)) (transactions w) = None ->
           VerificationResult.verified (fst (verifyDocumentOf s other w1)) = false).
Proof.
  cbv zeta. split; [apply verifyDocument_result|]. split; [|split].
  - rewrite verified_result, verified_stated. apply firstMatch_some.
  - rewrite verifyDocument_result.
    unfold verificationStated, verificationWithoutTransaction.
    destruct s; destruct (firstMatch _ _) as [[[x d] e]|]; cbn; auto; discriminate.
  - intros tid docType actor role other Hsha Hknown.
    apply known_transaction in Hknown.
    destruct (findIndex (isTransaction tid) (transactions w)) as [i|] eqn:Hi; [|congruence].
    destruct (createDocument_known s tid file docType actor role w i Hi)
      as (block & c & Hcreate & _).
    cbv zeta in Hcreate. rewrite Hcreate. cbn [snd].
    destruct (findIndex_some _ _ _ Hi) as (before & x0 & after & Htxs & _ & _ & Hupd).
    rewrite Hupd. rewrite (hashIn_sha256 s file w Hsha).
    set (e := BlockchainEvent.make _ _ _ _ _ _ _ _).
    set (doc := DocumentAsset.make _ _ _ _ _ _ _).
    set (w1 := mkWorld _ _ _ _).
    assert (forall f, hashIn s f w1 = sha256Hex (File.content f)) as Hh
      by (intros f; apply hashIn_sha256; exact Hsha).
    split.
    + rewrite verified_result, verified_stated, Hh. apply firstMatch_some.
      exists (Transaction.setDocuments (Transaction.documents x0 ++ [doc]) x0), doc, e.
      repeat split.
      * cbn. apply in_or_app. right. now left.
      * cbn. apply in_or_app. right. now left.
      * now left.
    + intros Hdiff Hnone.
      rewrite verified_result, Hh. apply not_verified.
      destruct (firstMatch (sha256Hex (File.content other)) (transactions w1)) eqn:Hm;
        [exfalso | reflexivity].
      assert (firstMatch (sha256Hex (File.content other)) (transactions w1) <> None) as Hsome
        by congruence.
      apply firstMatch_some in Hsome. destruct Hsome as (x & d & e' & Hx & Hd & He & Hhash).
      assert (firstMatch (sha256Hex (File.content other)) (transactions w) <> None) as Hold;
        [|congruence].
      apply firstMatch_some. rewrite Htxs.
      cbn [transactions w1] in Hx. apply in_app_or in Hx.
      destruct Hx as [Hx|[<-|Hx]].
      * exists x, d, e'. repeat split; auto. apply in_or_app. now left.
      * cbn [Transaction.documents Transaction.setDocuments] in Hd. apply in_app_or in Hd. destruct Hd as [Hd|[<-|[]]].
        -- exists x0, d, e'. repeat split; auto. apply in_or_app. right. now left.
        -- cbn [DocumentAsset.events doc] in He. destruct He as [<-|[]].
           cbn [BlockchainEvent.docHash e] in Hhash. congruence.
      * exists x, d, e'. repeat split; auto. apply in_or_app. right. now right.
Qed.

Lemma verifyDocument_first_match_witness :
  let w1 := snd (createDocumentOf Node "TX-2024-8492" demoFile "Test Document"
                   "test@example.com" UserRole.ATTORNEY (loadModule demoEnv)) in
  VerificationResult.verified (fst (verifyDocumentOf Node demoFile w1)) = true
  /\ VerificationResult.verified (fst (verifyDocumentOf Node otherFile w1)) = false.
Proof.
  destruct (verifyDocument_first_match Node demoFile (loadModule demoEnv))
    as (_ & _ & _ & Hscenario).
  destruct (Hscenario "TX-2024-8492" "Test Document" "test@example.com" UserRole.ATTORNEY
              otherFile) as [Hsame Hother].
  - left. reflexivity.
  - simpl. left. reflexivity.
  - split; [exact Hsame|]. apply Hother.
    + vm_compute. discriminate.
    + reflexivity.
Defined.

(** C1 as stated fails on the browser service: a matching document is
    returned without its transaction; and on the fallback hash a document
    created from a file and never revised does not verify against that
    same file. *)
Lemma verifyDocument_browser_counterexample :
  (let w1 := perform (upload Browser) (loadModule demoEnv) in
   fst (BlockchainService.verifyDocument demoFile w1)
   <> verificationStated (hashIn Browser demoFile w1) (transactions w1))
  /\ (let w2 := perform (upload Browser) (loadModule insecureEnv) in
      VerificationResult.verified (fst (BlockchainService.verifyDocument demoFile w2))
      = false).
Proof.
  split.
  - intros w1 H. apply (f_equal VerificationResult.transaction) in H.
    vm_compute in H. discriminate H.
  - vm_compute. reflexivity.
Qed.
(** ** Creating documents *)

(** C4 (as amended).  For a known transaction id [createDocument]
    returns a document in status DRAFT, at version 1, with exactly one
    event, of type UPLOAD, whose [docHash] is the digest
    [computeFileHash] returned for the file and is the document's
    [currentHash].  In the Node service, and in the browser service when
    [crypto.subtle] is there, that digest is the SHA-256 of the content,
    64 characters of [0-9a-f]; in the browser service without
    [crypto.subtle] it is the fallback [mock-hash-<name>-<size>-<now>]
    on the clock reading of the call.  The document is appended at the
    end of the documents of the first transaction with that id, and
    nothing else in the ledger changes.  For an unknown id it returns
    [null] and leaves the world as it was. *)
Theorem createDocument_appends (s : Service) (tid : string) (file : File.t)
    (docType actor : string) (role : UserRole.t) (w : World) :
  (In tid (map Transaction.id (transactions w)) ->
   exists doc e before x after,
     fst (createDocumentOf s tid file docType actor role w) = Some doc
     /\ DocumentAsset.status doc = DocumentStatus.DRAFT
     /\ DocumentAsset.currentVersion doc = 1
     /\ DocumentAsset.events doc = [e]
     /\ BlockchainEvent.type e = EventType.UPLOAD
     /\ BlockchainEvent.docHash e = hashIn s file w
     /\ DocumentAsset.currentHash doc = hashIn s file w
     /\ (s = Node \/ subtleCrypto (env w) = true ->
         BlockchainEvent.docHash e = sha256Hex (File.content file)
         /\ DocumentAsset.currentHash doc = sha256Hex (File.content file)
         /\ String.length (BlockchainEvent.docHash e) = 64%nat
         /\ Text.allChars Text.isLowerHex (BlockchainEvent.docHash e) = true)
     /\ (s = Browser -> subtleCrypto (env w) = false ->
         BlockchainEvent.docHash e
         = ("mock-hash-" ++ File.name file ++ "-" ++ Text.decimal (File.size file)
            ++ "-" ++ Text.decimal (clock (env w) (clockReads w)))%string)
     /\ transactions w = before ++ x :: after
     /\ Transaction.id x = tid
     /\ (forall y, In y before -> Transaction.id y <> tid)
     /\ transactions (snd (createDocumentOf s tid file docType actor role w))
        = before ++ Transaction.setDocuments (Transaction.documents x ++ [doc]) x :: after)
  /\ (~ In tid (map Transaction.id (transactions w)) ->
      createDocumentOf s tid file docType actor role w = (None, w)).
Proof.
  split; intros Hknown; rewrite known_transaction in Hknown.
  - destruct (findIndex (isTransaction tid) (transactions w)) as [i|] eqn:Hi; [|congruence].
    destruct (createDocument_known s tid file docType actor role w i Hi)
      as (block & c & Hcreate & _).
    cbv zeta in Hcreate.
    destruct (findIndex_some _ _ _ Hi) as (before & x & after & Htxs & Hx & Hbefore & Hupd).
    rewrite Hcreate, Hupd. cbn [fst snd transactions].
    eexists _, _, before, x, after.
    cbn [DocumentAsset.status DocumentAsset.currentVersion DocumentAsset.events
         DocumentAsset.currentHash BlockchainEvent.type BlockchainEvent.docHash].
    split; [reflexivity|]. split; [reflexivity|]. split; [reflexivity|].
    split; [reflexivity|]. split; [reflexivity|]. split; [reflexivity|].
    split; [reflexivity|]. split; [|split; [|split; [|split; [|split]]]].
    + intros Hsha. rewrite (hashIn_sha256 s file w Hsha).
      split; [reflexivity|]. split; [reflexivity|]. apply sha256Hex_shape.
    + intros -> Hsubtle.
      unfold hashIn, BlockchainService.computeFileHash. rewrite Hsubtle. reflexivity.
    + exact Htxs.
    + now apply String.eqb_eq.
    + intros y Hy. apply String.eqb_neq. now apply Hbefore.
    + reflexivity.
  - apply createDocument_unknown.
    destruct (findIndex (isTransaction tid) (transactions w)); [|reflexivity].
    exfalso. apply Hknown. discriminate.
Qed.

Lemma createDocument_appends_witness :
  (exists doc,
     fst (createDocumentOf Node "TX-2024-9921" demoFile "Deed" "a@b.c" UserRole.ATTORNEY
            (loadModule demoEnv)) = Some doc
     /\ DocumentAsset.status doc = DocumentStatus.DRAFT
     /\ DocumentAsset.currentHash doc = sha256Hex (File.content demoFile))
  /\ createDocumentOf Node "TX-0000-0000" demoFile "Deed" "a@b.c" UserRole.ATTORNEY
       (loadModule demoEnv) = (None, loadModule demoEnv).
Proof.
  split.
  - destruct (proj1 (createDocument_appends Node "TX-2024-9921" demoFile "Deed" "a@b.c"
                       UserRole.ATTORNEY (loadModule demoEnv)))
      as (doc & e & before & x & after & Hdoc & Hstatus & _ & _ & _ & _ & _ & Hsha & _).
    + simpl. right. left. reflexivity.
    + exists doc. split; [assumption|]. split; [assumption|].
      apply Hsha. left. reflexivity.
  - apply (proj2 (createDocument_appends Node "TX-0000-0000" demoFile "Deed" "a@b.c"
                    UserRole.ATTORNEY (loadModule demoEnv))).
    simpl. intros [H|[H|[]]]; discriminate H.
Defined.

(** C4 as stated fails in a browser without [crypto.subtle]: the
    [docHash] of the UPLOAD event and the [currentHash] of the document
    are the fallback string, not the hash of the content, and a file of
    the same name and size with another content gets the same one. *)
Lemma createDocument_fallback_hash :
  let sameSize := File.make "test-doc.txt" (bytesOf "NOTE-V2") in
  let created file :=
    fst (BlockchainService.createDocument "TX-2024-8492" file "Test Document"
           "test@example.com" UserRole.ATTORNEY (loadModule insecureEnv)) in
  match created demoFile, created sameSize with
  | Some doc, Some doc' =>
      map BlockchainEvent.docHash (DocumentAsset.events doc)
      = ["mock-hash-test-doc.txt-7-1700000000002"]
      /\ DocumentAsset.currentHash doc = "mock-hash-test-doc.txt-7-1700000000002"
      /\ DocumentAsset.currentHash doc <> sha256Hex (File.content demoFile)
      /\ File.content sameSize <> File.content demoFile
      /\ sha256Hex (File.content sameSize) <> sha256Hex (File.content demoFile)
      /\ map BlockchainEvent.docHash (DocumentAsset.events doc')
         = map BlockchainEvent.docHash (DocumentAsset.events doc)
  | _, _ => False
  end.
Proof.
  vm_compute. repeat split; try reflexivity; discriminate.
Qed.

(** ** Appending events *)

Section AppendFacts.

Lemma find_split {A} (p : A -> bool) xs a :
  find p xs = Some a ->
  exists before after,
    xs = before ++ a :: after /\ p a = true
    /\ (forall y, In y before -> p y = false)
    /\ forall f, updateFirst p f xs = before ++ f a :: after.
Proof.
  induction xs as [|y rest IH]; simpl; [discriminate|].
  destruct (p y) eqn:Hy.
  - intros [= <-]. exists [], rest. repeat split; auto. intros ? [].
  - intros H. destruct (IH H) as (before & after & -> & Ha & Hb & Hu).
    exists (y :: before), after. repeat split; auto.
    + intros z [<-|Hz]; auto.
    + intros f. simpl. now rewrite Hu.
Qed.

(** Where a located document sits. *)
Lemma locate_split txs docId x d :
  locate txs docId = Some (x, d) ->
  exists tb ta db da,
    txs = tb ++ x :: ta
    /\ Transaction.documents x = db ++ d :: da
    /\ DocumentAsset.id d = docId
    /\ (forall y, In y tb -> holds docId y = false)
    /\ (forall d', In d' db -> DocumentAsset.id d' <> docId)
    /\ (forall g, updateFirst (holds docId) g txs = tb ++ g x :: ta)
    /\ (forall f, updateFirst (hasId docId) f (Transaction.documents x)
                  = db ++ f d :: da).
Proof.
  induction txs as [|y rest IH]; simpl; [discriminate|].
  rewrite holds_find.
  destruct (find (hasId docId) (Transaction.documents y)) as [d'|] eqn:Hfind.
  - intros [= <- <-].
    destruct (find_split _ _ _ Hfind) as (db & da & Hdocs & Hd & Hdb & Hupd).
    exists [], rest, db, da. repeat split; auto.
    + now apply hasId_true.
    + intros ? [].
    + intros d0 Hd0 Hid. apply hasId_true in Hid. rewrite (Hdb _ Hd0) in Hid. discriminate.
  - intros H.
    destruct (IH H) as (tb & ta & db & da & -> & Hdocs & Hid & Htb & Hdb & Hg & Hf).
    exists (y :: tb), ta, db, da. repeat split; auto.
    + intros z [<-|Hz]; [|auto]. rewrite holds_find. now rewrite Hfind.
    + intros g. simpl. now rewrite Hg.
Qed.

(** The world both services leave after [addEvent]. *)
Lemma perform_addEvent s docId type actor role hash metadata w :
  perform (AddEvent s docId type actor role hash metadata) w
  = snd (BlockchainServiceNode.addEvent docId type actor role hash metadata w).
Proof. destruct s; cbn [perform]; [now rewrite browser_addEvent | reflexivity]. Qed.

Lemma updateStatus_status type d :
  DocumentAsset.status (updateStatus type d) = statusAfter type (DocumentAsset.status d).
Proof. now destruct type. Qed.

Lemma eventApplied_fields type e d :
  let d' := eventApplied type e d in
  DocumentAsset.id d' = DocumentAsset.id d
  /\ DocumentAsset.name d' = DocumentAsset.name d
  /\ DocumentAsset.type d' = DocumentAsset.type d
  /\ DocumentAsset.currentVersion d' = DocumentAsset.currentVersion d
  /\ DocumentAsset.currentHash d' = DocumentAsset.currentHash d
  /\ DocumentAsset.status d' = statusAfter type (DocumentAsset.status d)
  /\ DocumentAsset.events d' = DocumentAsset.events d ++ [e].
Proof. destruct type; repeat split. Qed.

Lemma transactionApplied_documents docId type e x :
  Transaction.documents (transactionApplied docId type e x)
  = updateFirst (hasId docId) (eventApplied type e) (Transaction.documents x).
Proof. now destruct type. Qed.

Lemma transactionApplied_status docId type e x :
  Transaction.status (transactionApplied docId type e x)
  = if EventType.eqb type EventType.RECORDED then TransactionStatus.RECORDED
    else Transaction.status x.
Proof. now destruct type. Qed.

Lemma transactionApplied_id docId type e x :
  Transaction.id (transactionApplied docId type e x) = Transaction.id x.
Proof. now destruct type. Qed.

(** After [addEvent] on a located document the id names the document
    with the event applied, in its transaction with the event applied. *)
Lemma addEvent_located s docId type actor role hash metadata w x d :
  locate (transactions w) docId = Some (x, d) ->
  exists e,
    BlockchainEvent.type e = type
    /\ BlockchainEvent.docHash e = hash
    /\ (matchesBlockId (BlockchainEvent.blockId e) = true
        /\ String.length (BlockchainEvent.blockId e) = 66%nat)
    /\ fst (BlockchainServiceNode.addEvent docId type actor role hash metadata w)
       = Some (eventApplied type e d)
    /\ transactions (perform (AddEvent s docId type actor role hash metadata) w)
       = updateFirst (holds docId) (transactionApplied docId type e) (transactions w)
    /\ locate (transactions (perform (AddEvent s docId type actor role hash metadata) w))
         docId
       = Some (transactionApplied docId type e x, eventApplied type e d).
Proof.
  intros H.
  destruct (node_addEvent_found docId type actor role hash metadata w x d H)
    as (block & Hadd & Hfmt).
  cbv zeta in Hadd. rewrite perform_addEvent, Hadd. cbn [fst snd transactions].
  eexists. repeat split; try reflexivity.
  - apply Hfmt.
  - apply Hfmt.
  - now apply locate_updateFirst.
Qed.

End AppendFacts.

(** C3 (as amended).  When no document of the ledger has the id,
    [addEvent] appends no event and changes no status: the world is left
    exactly as it was.  The Node service returns [null] to the caller; the
    browser service, declared [void], returns nothing in either case. *)
Theorem addEvent_unknown_document (docId : string) (type : EventType.t) (actor : string)
    (role : UserRole.t) (hash : string) (metadata : option Metadata) (w : World) :
  unknownDocument (transactions w) docId ->
  BlockchainServiceNode.addEvent docId type actor role hash metadata w = (None, w)
  /\ BlockchainService.addEvent docId type actor role hash metadata w = (tt, w).
Proof.
  intros H. apply locate_none in H.
  pose proof (node_addEvent_missing docId type actor role hash metadata w H) as Hnode.
  split; [exact Hnode|]. now rewrite browser_addEvent, Hnode.
Qed.

Lemma addEvent_unknown_document_witness :
  BlockchainServiceNode.addEvent "DOC-does-not-exist" EventType.APPROVAL "a@b.c"
    UserRole.LENDER "00" None (loadModule demoEnv)
  = (None, loadModule demoEnv).
Proof.
  apply (addEvent_unknown_document "DOC-does-not-exist" EventType.APPROVAL "a@b.c"
           UserRole.LENDER "00" None (loadModule demoEnv)).
  intros x d Hx Hd. simpl in Hx. destruct Hx as [<-|[<-|[]]]; destruct Hd.
Defined.

(** C3 as stated fails on the browser service: for an id that names no
    document the caller gets what it gets for one that does. *)
Lemma addEvent_browser_silent :
  let w := perform (upload Browser) (loadModule demoEnv) in
  unknownDocument (transactions w) "DOC-does-not-exist"
  /\ ~ unknownDocument (transactions w) demoId
  /\ fst (BlockchainService.addEvent "DOC-does-not-exist" EventType.APPROVAL "a@b.c"
            UserRole.LENDER "00" None w)
     = fst (BlockchainService.addEvent demoId EventType.APPROVAL "a@b.c"
              UserRole.LENDER "00" None w).
Proof.
  cbv zeta. split; [apply locate_none; vm_compute; reflexivity|]. split.
  - rewrite <- locate_none. vm_compute. discriminate.
  - rewrite !browser_addEvent. reflexivity.
Qed.

(** C10.  [addEvent] of type VIEW, REVISION or NOTARIZATION on an
    existing document appends the new event to that document and changes
    nothing else: the document keeps its status, hash, version, name and
    type, its transaction keeps its status, and every other document and
    transaction of the ledger is left as it was. *)
Theorem addEvent_status_neutral (s : Service) (docId : string) (type : EventType.t)
    (actor : string) (role : UserRole.t) (hash : string) (metadata : option Metadata)
    (w : World) (x : Transaction.t) (d : DocumentAsset.t) :
  type = EventType.VIEW \/ type = EventType.REVISION \/ type = EventType.NOTARIZATION ->
  locate (transactions w) docId = Some (x, d) ->
  exists e tb ta db da,
    let d' := DocumentAsset.make (DocumentAsset.id d) (DocumentAsset.name d)
                (DocumentAsset.type d) (DocumentAsset.currentVersion d)
                (DocumentAsset.currentHash d) (DocumentAsset.status d)
                (DocumentAsset.events d ++ [e]) in
    let x' := Transaction.make (Transaction.id x) (Transaction.propertyAddress x)
                (Transaction.loanAmount x) (Transaction.lenderName x)
                (Transaction.borrowerName x) (Transaction.status x)
                (Transaction.createdAt x) (db ++ d' :: da) in
    BlockchainEvent.type e = type
    /\ BlockchainEvent.docHash e = hash
    /\ fst (BlockchainServiceNode.addEvent docId type actor role hash metadata w) = Some d'
    /\ transactions w = tb ++ x :: ta
    /\ Transaction.documents x = db ++ d :: da
    /\ transactions (perform (AddEvent s docId type actor role hash metadata) w)
       = tb ++ x' :: ta.
Proof.
  intros Htype Hloc.
  destruct (addEvent_located s docId type actor role hash metadata w x d Hloc)
    as (e & Hty & Hh & _ & Hret & Htxs & _).
  destruct (locate_split _ _ _ _ Hloc) as (tb & ta & db & da & Hw & Hdocs & _ & _ & _ & Hg & Hf).
  exists e, tb, ta, db, da. cbv zeta.
  rewrite Hret, Htxs, Hg.
  assert (eventApplied type e d
          = DocumentAsset.make (DocumentAsset.id d) (DocumentAsset.name d)
              (DocumentAsset.type d) (DocumentAsset.currentVersion d)
              (DocumentAsset.currentHash d) (DocumentAsset.status d)
              (DocumentAsset.events d ++ [e])) as Hd
    by (destruct Htype as [-> | [-> | ->]]; reflexivity).
  assert (transactionApplied docId type e x
          = Transaction.setDocuments
              (updateFirst (hasId docId) (eventApplied type e) (Transaction.documents x)) x)
    as Hx by (destruct Htype as [-> | [-> | ->]]; reflexivity).
  rewrite Hx, Hf, Hd. repeat split; auto.
Qed.

Lemma addEvent_status_neutral_witness :
  exists d',
    fst (BlockchainServiceNode.addEvent demoId EventType.NOTARIZATION "notary@example.com"
           UserRole.NOTARY "00" None (perform (upload Node) (loadModule demoEnv)))
    = Some d'
    /\ DocumentAsset.status d' = DocumentStatus.DRAFT.
Proof.
  destruct (locate (transactions (perform (upload Node) (loadModule demoEnv))) demoId)
    as [[x d]|] eqn:Hloc; [|vm_compute in Hloc; discriminate Hloc].
  destruct (addEvent_status_neutral Node demoId EventType.NOTARIZATION "notary@example.com"
              UserRole.NOTARY "00" None (perform (upload Node) (loadModule demoEnv)) x d)
    as (e & tb & ta & db & da & _ & _ & Hret & _).
  - right. right. reflexivity.
  - exact Hloc.
  - eexists. split; [exact Hret|]. cbn [DocumentAsset.status].
    vm_compute in Hloc. injection Hloc as _ Hd. subst d. reflexivity.
Defined.

(** ** Status *)

(** C2 (as amended).  The status of a document after [addEvent] is fixed
    by the event type alone: APPROVAL gives APPROVED, SIGNATURE gives
    SIGNED, RECORDED gives RECORDED, every other type leaves the status.
    No event brings a document back to DRAFT, and the status moves to an
    earlier state of the workflow in exactly three cases: APPROVAL on a
    SIGNED or on a RECORDED document, and SIGNATURE on a RECORDED one. *)
Theorem addEvent_status_by_type (s : Service) (docId : string) (type : EventType.t)
    (actor : string) (role : UserRole.t) (hash : string) (metadata : option Metadata)
    (w : World) (x : Transaction.t) (d : DocumentAsset.t) :
  locate (transactions w) docId = Some (x, d) ->
  exists x' d',
    locate (transactions (perform (AddEvent s docId type actor role hash metadata) w)) docId
    = Some (x', d')
    /\ DocumentAsset.status d' = statusAfter type (DocumentAsset.status d)
    /\ (DocumentAsset.status d' = DocumentStatus.DRAFT ->
        DocumentAsset.status d = DocumentStatus.DRAFT)
    /\ (DocumentStatus.rank (DocumentAsset.status d')
        < DocumentStatus.rank (DocumentAsset.status d)
        <-> (type = EventType.APPROVAL
             /\ (DocumentAsset.status d = DocumentStatus.SIGNED
                 \/ DocumentAsset.status d = DocumentStatus.RECORDED))
            \/ (type = EventType.SIGNATURE
                /\ DocumentAsset.status d = DocumentStatus.RECORDED)).
Proof.
  intros Hloc.
  destruct (addEvent_located s docId type actor role hash metadata w x d Hloc)
    as (e & _ & _ & _ & _ & _ & Hafter).
  exists (transactionApplied docId type e x), (eventApplied type e d).
  split; [exact Hafter|].
  destruct (eventApplied_fields type e d) as (_ & _ & _ & _ & _ & Hst & _).
  rewrite Hst. split; [reflexivity|]. split.
  - destruct type; cbn; auto; discriminate.
  - destruct type, (DocumentAsset.status d); cbn; split;
      try lia; try (intros _; auto; fail);
      try (intros [[? [?|?]]|[? ?]]; discriminate).
Qed.

Lemma addEvent_status_by_type_witness :
  exists x' d',
    locate (transactions
              (perform (act Node EventType.APPROVAL "00")
                 (perform (upload Node) (loadModule demoEnv)))) demoId
    = Some (x', d')
    /\ DocumentAsset.status d' = DocumentStatus.APPROVED.
Proof.
  destruct (locate (transactions (perform (upload Node) (loadModule demoEnv))) demoId)
    as [[x d]|] eqn:Hloc; [|vm_compute in Hloc; discriminate Hloc].
  destruct (addEvent_status_by_type Node demoId EventType.APPROVAL "actor@example.com"
              UserRole.LENDER "00" None (perform (upload Node) (loadModule demoEnv)) x d Hloc)
    as (x' & d' & Hafter & Hst & _).
  exists x', d'. split; [exact Hafter | exact Hst].
Defined.

(** C2 as stated fails: an APPROVAL event on a SIGNED document takes it
    back to APPROVED, an edge the transition table does not have. *)
Lemma approval_after_signature_regresses :
  let signed := run [upload Node; act Node EventType.SIGNATURE "00"] (loadModule demoEnv) in
  let after := perform (act Node EventType.APPROVAL "00") signed in
  statusNamed demoId signed = Some DocumentStatus.SIGNED
  /\ statusNamed demoId after = Some DocumentStatus.APPROVED
  /\ tableAllows DocumentStatus.SIGNED EventType.APPROVAL DocumentStatus.APPROVED = false
  /\ DocumentStatus.rank DocumentStatus.APPROVED < DocumentStatus.rank DocumentStatus.SIGNED.
Proof. vm_compute. repeat split; reflexivity. Qed.

(** C8.  [addEvent] of type RECORDED on an existing document sets the
    status of that document to RECORDED and the status of the owning
    transaction, the first of the ledger that holds a document with the
    id, to RECORDED; the document gains the event and nothing else of
    it, of its transaction or of the rest of the ledger changes.  And an
    operation after which the statuses of the transactions are not what
    they were is an [addEvent] of type RECORDED on an existing document:
    the status of the owning transaction has become RECORDED and the
    status of every other transaction is what it was. *)
Theorem recorded_only_by_recording (s : Service) (w : World) :
  (forall docId actor role hash metadata x d,
     locate (transactions w) docId = Some (x, d) ->
     exists e tb ta db da,
       let d' := DocumentAsset.make (DocumentAsset.id d) (DocumentAsset.name d)
                   (DocumentAsset.type d) (DocumentAsset.currentVersion d)
                   (DocumentAsset.currentHash d) DocumentStatus.RECORDED
                   (DocumentAsset.events d ++ [e]) in
       let x' := Transaction.make (Transaction.id x) (Transaction.propertyAddress x)
                   (Transaction.loanAmount x) (Transaction.lenderName x)
                   (Transaction.borrowerName x) TransactionStatus.RECORDED
                   (Transaction.createdAt x) (db ++ d' :: da) in
       BlockchainEvent.type e = EventType.RECORDED
       /\ fst (BlockchainServiceNode.addEvent docId EventType.RECORDED actor role hash
                 metadata w) = Some d'
       /\ transactions w = tb ++ x :: ta
       /\ Transaction.documents x = db ++ d :: da
       /\ DocumentAsset.id d = docId
       /\ (forall y, In y tb -> holds docId y = false)
       /\ (forall d0, In d0 db -> DocumentAsset.id d0 <> docId)
       /\ transactions
            (perform (AddEvent s docId EventType.RECORDED actor role hash metadata) w)
          = tb ++ x' :: ta
       /\ locate (transactions
                    (perform (AddEvent s docId EventType.RECORDED actor role hash metadata) w))
                 docId = Some (x', d'))
  /\ (forall op : Operation s,
        map Transaction.status (transactions (perform op w))
        <> map Transaction.status (transactions w) ->
        exists docId actor role hash metadata tb x ta d,
          op = AddEvent s docId EventType.RECORDED actor role hash metadata
          /\ locate (transactions w) docId = Some (x, d)
          /\ transactions w = tb ++ x :: ta
          /\ In d (Transaction.documents x)
          /\ DocumentAsset.id d = docId
          /\ (forall y, In y tb -> holds docId y = false)
          /\ map Transaction.status (transactions (perform op w))
             = map Transaction.status tb ++ TransactionStatus.RECORDED
                 :: map Transaction.status ta).
Proof.
  split.
  - intros docId actor role hash metadata x d Hloc.
    destruct (addEvent_located s docId EventType.RECORDED actor role hash metadata w x d Hloc)
      as (e & Hty & _ & _ & Hret & Htxs & Hafter).
    destruct (locate_split _ _ _ _ Hloc)
      as (tb & ta & db & da & Hw & Hdocs & Hid & Htb & Hdb & Hg & Hf).
    exists e, tb, ta, db, da. cbv zeta.
    rewrite Hafter, Hret, Htxs, Hg.
    assert (eventApplied EventType.RECORDED e d
            = DocumentAsset.make (DocumentAsset.id d) (DocumentAsset.name d)
                (DocumentAsset.type d) (DocumentAsset.currentVersion d)
                (DocumentAsset.currentHash d) DocumentStatus.RECORDED
                (DocumentAsset.events d ++ [e])) as Hd by reflexivity.
    assert (transactionApplied docId EventType.RECORDED e x
            = Transaction.make (Transaction.id x) (Transaction.propertyAddress x)
                (Transaction.loanAmount x) (Transaction.lenderName x)
                (Transaction.borrowerName x) TransactionStatus.RECORDED
                (Transaction.createdAt x)
                (updateFirst (hasId docId) (eventApplied EventType.RECORDED e)
                   (Transaction.documents x))) as Hx by reflexivity.
    rewrite Hx, Hf, Hd. repeat split; auto.
  - intros op Hchanged.
    assert (forall tid file docType actor role,
              map Transaction.status
                (transactions (snd (createDocumentOf s tid file docType actor role w)))
              = map Transaction.status (transactions w)) as Hcreate.
    { intros tid file docType actor role.
      destruct (findIndex (isTransaction tid) (transactions w)) as [i|] eqn:Hi.
      - destruct (createDocument_known s tid file docType actor role w i Hi)
          as (block & c & Hc & _).
        cbv zeta in Hc. rewrite Hc. cbn [snd transactions].
        destruct (findIndex_some _ _ _ Hi) as (before & x0 & after & Htxs & _ & _ & Hupd).
        rewrite Hupd, Htxs, !map_app. reflexivity.
      - now rewrite (createDocument_unknown s tid file docType actor role w Hi). }
    assert (forall file, transactions (snd (verifyDocumentOf s file w)) = transactions w)
      as Hverify.
    { intros file. destruct (computeFileHash_spec s file w) as (c & Hhash & _).
      destruct s; cbn [verifyDocumentOf];
        [unfold BlockchainService.verifyDocument
        |unfold BlockchainServiceNode.verifyDocument];
        unfold bind at 1; rewrite Hhash; reflexivity. }
    destruct op as [s tid file docType actor role | s docId type actor role hash metadata
                   | s file | s | s id | | docId].
    + exfalso. apply Hchanged.
      specialize (Hcreate tid file docType actor role).
      destruct s; cbn [perform createDocumentOf] in *; exact Hcreate.
    + destruct (locate (transactions w) docId) as [[x d]|] eqn:Hloc.
      * destruct (addEvent_located s docId type actor role hash metadata w x d Hloc)
          as (e & _ & _ & _ & _ & Htxs & _).
        destruct (locate_split _ _ _ _ Hloc)
          as (tb & ta & _ & _ & Hw & _ & Hid & Htb & _ & Hg & _).
        destruct (EventType.eqb type EventType.RECORDED) eqn:Hrec.
        -- exists docId, actor, role, hash, metadata, tb, x, ta, d.
           assert (type = EventType.RECORDED) as ->
             by (destruct type; try discriminate Hrec; reflexivity).
           split; [reflexivity|]. split; [exact Hloc|]. split; [exact Hw|].
           split; [apply (locate_some _ _ _ _ Hloc)|]. split; [exact Hid|].
           split; [exact Htb|].
           rewrite Htxs, Hg, !map_app. cbn [map].
           now rewrite transactionApplied_status.
        -- exfalso. apply Hchanged. rewrite Htxs.
           rewrite Hg, Hw, !map_app. cbn [map].
           now rewrite transactionApplied_status, Hrec.
      * exfalso. apply Hchanged. rewrite perform_addEvent.
        now rewrite (node_addEvent_missing docId type actor role hash metadata w Hloc).
    + exfalso. apply Hchanged. specialize (Hverify file).
      destruct s; cbn [perform verifyDocumentOf] in *; now rewrite Hverify.
    + exfalso. apply Hchanged. now destruct s.
    + exfalso. apply Hchanged. now destruct s.
    + exfalso. now apply Hchanged.
    + exfalso. now apply Hchanged.
Qed.

Lemma recorded_only_by_recording_witness :
  exists x' d',
    locate (transactions
              (perform (AddEvent Node demoId EventType.RECORDED "clerk@county.gov"
                          UserRole.COUNTY_CLERK "00" None)
                 (perform (upload Node) (loadModule demoEnv)))) demoId
    = Some (x', d')
    /\ DocumentAsset.status d' = DocumentStatus.RECORDED
    /\ Transaction.status x' = TransactionStatus.RECORDED
    /\ Transaction.id x' = "TX-2024-8492".
Proof.
  destruct (locate (transactions (perform (upload Node) (loadModule demoEnv))) demoId)
    as [[x d]|] eqn:Hloc; [|vm_compute in Hloc; discriminate Hloc].
  destruct (proj1 (recorded_only_by_recording Node (perform (upload Node) (loadModule demoEnv)))
              demoId "clerk@county.gov" UserRole.COUNTY_CLERK "00" None x d Hloc)
    as (e & tb & ta & db & da & _ & _ & _ & _ & _ & _ & _ & _ & Hafter).
  cbv zeta in Hafter.
  eexists _, _. split; [exact Hafter|]. cbn [DocumentAsset.status Transaction.status Transaction.id].
  repeat split.
  vm_compute in Hloc. injection Hloc as Hx _. subst x. reflexivity.
Defined.

(** ** What an operation does to the ledger *)

Section LedgerFacts.

(** Every operation leaves the ledger as it was, or appends one new
    document to one transaction, or applies one event to one document. *)
Lemma perform_ledger {s} (op : Operation s) w :
  transactions (perform op w) = transactions w
  \/ (exists before x after doc e,
        transactions w = before ++ x :: after
        /\ transactions (perform op w)
           = before ++ Transaction.setDocuments (Transaction.documents x ++ [doc]) x
               :: after
        /\ DocumentAsset.events doc = [e]
        /\ BlockchainEvent.type e = EventType.UPLOAD
        /\ BlockchainEvent.docHash e = DocumentAsset.currentHash doc)
  \/ (exists tb x ta db d da docId type e,
        transactions w = tb ++ x :: ta
        /\ Transaction.documents x = db ++ d :: da
        /\ transactions (perform op w) = tb ++ transactionApplied docId type e x :: ta
        /\ Transaction.documents (transactionApplied docId type e x)
           = db ++ eventApplied type e d :: da).
Proof.
  destruct op as [s tid file docType actor role | s docId type actor role hash metadata
                 | s file | s | s id | | docId].
  - assert (perform (CreateDocument s tid file docType actor role) w
            = snd (createDocumentOf s tid file docType actor role w)) as ->
      by now destruct s.
    destruct (findIndex (isTransaction tid) (transactions w)) as [i|] eqn:Hi.
    + right. left.
      destruct (createDocument_known s tid file docType actor role w i Hi)
        as (block & c & Hc & _).
      cbv zeta in Hc. rewrite Hc. cbn [snd transactions].
      destruct (findIndex_some _ _ _ Hi) as (before & x0 & after & Htxs & _ & _ & Hupd).
      rewrite Hupd. eexists before, x0, after, _, _. repeat split; try reflexivity.
      exact Htxs.
    + left. now rewrite (createDocument_unknown s tid file docType actor role w Hi).
  - destruct (locate (transactions w) docId) as [[x d]|] eqn:Hloc.
    + right. right.
      destruct (addEvent_located s docId type actor role hash metadata w x d Hloc)
        as (e & _ & _ & _ & _ & Htxs & _).
      destruct (locate_split _ _ _ _ Hloc)
        as (tb & ta & db & da & Hw & Hdocs & _ & _ & _ & Hg & Hf).
      exists tb, x, ta, db, d, da, docId, type, e. repeat split; auto.
      * now rewrite Htxs, Hg.
      * now rewrite transactionApplied_documents, Hf.
    + left. rewrite perform_addEvent.
      now rewrite (node_addEvent_missing docId type actor role hash metadata w Hloc).
  - left. destruct (computeFileHash_spec s file w) as (c & Hhash & _).
    destruct s; cbn [perform];
      [unfold BlockchainService.verifyDocument
      |unfold BlockchainServiceNode.verifyDocument];
      unfold bind at 1; rewrite Hhash; reflexivity.
  - left. now destruct s.
  - left. now destruct s.
  - now left.
  - now left.
Qed.

Lemma documentExtends_refl d : documentExtends d d.
Proof. split; [reflexivity|]. exists []. now rewrite app_nil_r. Qed.

Lemma Forall2_same {A} (R : A -> A -> Prop) xs : (forall x, R x x) -> Forall2 R xs xs.
Proof. intros H. induction xs; constructor; auto. Qed.

Lemma Forall2_middle {A} (R : A -> A -> Prop) before x x' after :
  (forall y, R y y) -> R x x' -> Forall2 R (before ++ x :: after) (before ++ x' :: after).
Proof.
  intros Hrefl Hx. apply Forall2_app; [now apply Forall2_same|].
  constructor; [assumption | now apply Forall2_same].
Qed.

Lemma transactionExtends_refl x : transactionExtends x x.
Proof.
  split; [reflexivity|]. exists (Transaction.documents x), [].
  split; [now rewrite app_nil_r|]. apply Forall2_same, documentExtends_refl.
Qed.

Lemma anchored_eventApplied type e d : anchored d -> anchored (eventApplied type e d).
Proof.
  intros (e0 & rest & Hev & Hty & Hh).
  destruct (eventApplied_fields type e d) as (_ & _ & _ & _ & Hhash & _ & Hevents).
  exists e0, (rest ++ [e]). rewrite Hevents, Hhash, Hev. auto.
Qed.

Lemma allDocuments_app xs ys : allDocuments (xs ++ ys) = allDocuments xs ++ allDocuments ys.
Proof. unfold allDocuments. apply flat_map_app. Qed.

Lemma anchored_perform {s} (op : Operation s) w :
  (forall d, In d (allDocuments (transactions w)) -> anchored d) ->
  forall d, In d (allDocuments (transactions (perform op w))) -> anchored d.
Proof.
  intros Hinv d Hd.
  destruct (perform_ledger op w)
    as [Hsame | [(before & x & after & doc & e & Hw & Hafter & Hev & Hty & Hh)
                | (tb & x & ta & db & d0 & da & docId & type & e & Hw & Hdocs & Hafter & Hdocs')]].
  - rewrite Hsame in Hd. auto.
  - rewrite Hafter in Hd. rewrite Hw in Hinv.
    rewrite allDocuments_app in Hd, Hinv. cbn [allDocuments flat_map] in Hd, Hinv.
    cbn [Transaction.documents Transaction.setDocuments] in Hd.
    rewrite !in_app_iff in Hd.
    destruct Hd as [Hd | [[Hd | [<- | []]] | Hd]].
    + apply Hinv. rewrite in_app_iff. now left.
    + apply Hinv. rewrite !in_app_iff. right. now left.
    + exists e, []. auto.
    + apply Hinv. rewrite !in_app_iff. right. now right.
  - rewrite Hafter in Hd. rewrite Hw in Hinv.
    rewrite allDocuments_app in Hd, Hinv. cbn [allDocuments flat_map] in Hd, Hinv.
    rewrite Hdocs' in Hd. rewrite Hdocs in Hinv.
    rewrite !in_app_iff in Hd. cbn [In] in Hd.
    destruct Hd as [Hd | [[Hd | [<- | Hd]] | Hd]].
    + apply Hinv. rewrite in_app_iff. now left.
    + apply Hinv. rewrite !in_app_iff. right. left. now left.
    + apply anchored_eventApplied, Hinv. rewrite !in_app_iff. right. left. right. now left.
    + apply Hinv. rewrite !in_app_iff. right. left. right. now right.
    + apply Hinv. rewrite !in_app_iff. right. now right.
Qed.

End LedgerFacts.

(** ** Append-only *)

(** C5.  Every operation of either service is append-only: the ledger
    keeps its transactions in place, each transaction keeps its documents
    in place (new ones come after them), and each document that was there
    keeps its id and has its former event sequence, event for event, as a
    prefix of its event sequence afterwards. *)
Theorem operations_append_only (s : Service) (op : Operation s) (w : World) :
  ledgerExtends (transactions w) (transactions (perform op w)).
Proof.
  unfold ledgerExtends.
  destruct (perform_ledger op w)
    as [Hsame | [(before & x & after & doc & e & Hw & Hafter & _)
                | (tb & x & ta & db & d & da & docId & type & e & Hw & Hdocs & Hafter & Hdocs')]].
  - rewrite Hsame. apply Forall2_same, transactionExtends_refl.
  - rewrite Hafter, Hw. apply Forall2_middle; [apply transactionExtends_refl|].
    split; [reflexivity|]. exists (Transaction.documents x), [doc].
    split; [reflexivity|]. apply Forall2_same, documentExtends_refl.
  - rewrite Hafter, Hw. apply Forall2_middle; [apply transactionExtends_refl|].
    split; [apply transactionApplied_id|].
    exists (db ++ eventApplied type e d :: da), [].
    split; [now rewrite app_nil_r|]. rewrite Hdocs.
    apply Forall2_middle; [apply documentExtends_refl|].
    destruct (eventApplied_fields type e d) as (Hid & _ & _ & _ & _ & _ & Hev).
    split; [exact Hid|]. now exists [e].
Qed.

(** ** The current hash *)

(** C6 (as amended).  After every sequence of operations on a ledger
    whose documents have it, every document has as its first event an
    UPLOAD event whose [docHash] is the document's [currentHash]: the
    hash is set when the document is created and [addEvent] never changes
    it, whatever hash the appended event asserts. *)
Theorem currentHash_is_creation_hash (s : Service) (ops : list (Operation s)) (w : World) :
  (forall d, In d (allDocuments (transactions w)) -> anchored d) ->
  (forall d, In d (allDocuments (transactions (run ops w))) -> anchored d)
  /\ (forall docId type actor role hash metadata x d,
        locate (transactions (run ops w)) docId = Some (x, d) ->
        exists x' d',
          locate (transactions
                    (perform (AddEvent s docId type actor role hash metadata) (run ops w)))
                 docId = Some (x', d')
          /\ DocumentAsset.currentHash d' = DocumentAsset.currentHash d).
Proof.
  intros Hinv. split.
  - revert w Hinv. induction ops as [|op ops IH]; intros w Hinv; [exact Hinv|].
    cbn [run fold_left]. apply (IH (perform op w)). now apply anchored_perform.
  - intros docId type actor role hash metadata x d Hloc.
    destruct (addEvent_located s docId type actor role hash metadata _ x d Hloc)
      as (e & _ & _ & _ & _ & _ & Hafter).
    exists (transactionApplied docId type e x), (eventApplied type e d).
    split; [exact Hafter|].
    now destruct (eventApplied_fields type e d) as (_ & _ & _ & _ & Hh & _).
Qed.

Lemma currentHash_is_creation_hash_witness :
  match documentNamed demoId
          (run [upload Node; act Node EventType.REVISION "00"] (loadModule demoEnv)) with
  | Some d => anchored d
  | None => False
  end.
Proof.
  pose proof (proj1 (currentHash_is_creation_hash Node
                       [upload Node; act Node EventType.REVISION "00"] (loadModule demoEnv)
                       (fun d (Hd : In d []) => match Hd with end))) as Hall.
  destruct (documentNamed demoId
              (run [upload Node; act Node EventType.REVISION "00"] (loadModule demoEnv)))
    as [d|] eqn:Hd; [|vm_compute in Hd; discriminate Hd].
  apply Hall. vm_compute in Hd. injection Hd as <-. vm_compute. left. reflexivity.
Defined.

(** C6 as stated fails: after a REVISION event asserting another hash,
    the latest UPLOAD or REVISION event carries that hash and the
    document's [currentHash] is still the one of its creation. *)
Lemma revision_leaves_currentHash :
  let revised := sha256Hex (File.content otherFile) in
  let w := run [upload Node; act Node EventType.REVISION revised] (loadModule demoEnv) in
  exists d,
    documentNamed demoId w = Some d
    /\ latestContentHash d = Some revised
    /\ DocumentAsset.currentHash d = sha256Hex (File.content demoFile)
    /\ latestContentHash d <> Some (DocumentAsset.currentHash d).
Proof.
  vm_compute. eexists. split; [reflexivity|]. split; [reflexivity|].
  split; [reflexivity|]. discriminate.
Qed.

(** ** Hashes and identifiers *)

(** C7 (as amended).  Where SHA-256 is at hand (the Node service; the
    browser service when [crypto.subtle] is there) [computeFileHash]
    returns a digest fixed by the content of the file alone, reads no
    clock and leaves the world as it was, and the digest is 64 characters
    of [0-9a-f] whatever the length of the content. *)
Theorem computeFileHash_sha256 (s : Service) (file : File.t) (w : World) :
  s = Node \/ subtleCrypto (env w) = true ->
  (match s with
   | Browser => BlockchainService.computeFileHash file w
   | Node => BlockchainServiceNode.computeFileHash file w
   end) = (sha256Hex (File.content file), w)
  /\ String.length (sha256Hex (File.content file)) = 64%nat
  /\ Text.allChars Text.isLowerHex (sha256Hex (File.content file)) = true.
Proof.
  intros H. split; [|apply sha256Hex_shape].
  destruct s; [|reflexivity].
  destruct H as [H|H]; [discriminate H|].
  unfold BlockchainService.computeFileHash. now rewrite H.
Qed.

Lemma computeFileHash_sha256_witness :
  BlockchainService.computeFileHash demoFile (loadModule demoEnv)
  = (sha256Hex (File.content demoFile), loadModule demoEnv).
Proof.
  apply (computeFileHash_sha256 Browser demoFile (loadModule demoEnv)).
  right. reflexivity.
Defined.

(** C7 as stated fails in a browser without [crypto.subtle]: the hash is
    not a 64-character hex string, and a second call on the same file
    returns another one. *)
Lemma fallback_hash_not_sha256 :
  let first := BlockchainService.computeFileHash demoFile (loadModule insecureEnv) in
  let second := BlockchainService.computeFileHash demoFile (snd first) in
  fst first = "mock-hash-test-doc.txt-7-1700000000002"
  /\ String.length (fst first) <> 64%nat
  /\ Text.allChars Text.isLowerHex (fst first) = false
  /\ fst second <> fst first.
Proof.
  vm_compute. repeat split; try reflexivity; discriminate.
Qed.

Section IdentifierFacts.

Lemma matchesDocumentId_minted t :
  10 ^ 12 <= t -> matchesDocumentId ("DOC-" ++ Text.decimal t) = true.
Proof.
  intros Ht. unfold matchesDocumentId.
  rewrite prefix_append, length_append.
  change (String.length "DOC-") with 4%nat.
  replace (4 + String.length (Text.decimal t) - 4)%nat
    with (String.length (Text.decimal t)) by lia.
  change 4%nat with (String.length "DOC-") at 1.
  rewrite substring_append, decimal_digits by lia.
  pose proof (decimal_long 12 t Ht). cbn [andb].
  apply Nat.leb_le. lia.
Qed.

Lemma created_document s tid file docType actor role w doc :
  fst (createDocumentOf s tid file docType actor role w) = Some doc ->
  exists e,
    DocumentAsset.id doc = ("DOC-" ++ Text.decimal (mintReading s w))%string
    /\ DocumentAsset.events doc = [e]
    /\ matchesBlockId (BlockchainEvent.blockId e) = true
    /\ String.length (BlockchainEvent.blockId e) = 66%nat.
Proof.
  intros H.
  destruct (findIndex (isTransaction tid) (transactions w)) as [i|] eqn:Hi.
  - destruct (createDocument_known s tid file docType actor role w i Hi)
      as (block & c & Hc & Hfmt & _).
    cbv zeta in Hc. rewrite Hc in H. cbn [fst] in H. injection H as <-.
    eexists. repeat split; apply Hfmt.
  - rewrite (createDocument_unknown s tid file docType actor role w Hi) in H.
    discriminate H.
Qed.

End IdentifierFacts.

(** C9 (as amended).  A created document has the id [DOC-] followed by
    the decimal digits of the [Date.now()] reading taken for it, which
    are at least 13 digits from the reading [10^12] on; two created
    documents have the same id exactly when those readings are equal.
    The block id of the event of a created document, and of every event
    [addEvent] appends in either service, is [0x] followed by exactly 64
    characters of [0-9a-f]: it matches the pattern and is 66 characters
    long. *)
Theorem identifiers_minted (s : Service) (tid : string) (file : File.t)
    (docType actor : string) (role : UserRole.t) (w : World) (doc : DocumentAsset.t) :
  fst (createDocumentOf s tid file docType actor role w) = Some doc ->
  DocumentAsset.id doc = ("DOC-" ++ Text.decimal (mintReading s w))%string
  /\ (10 ^ 12 <= mintReading s w -> matchesDocumentId (DocumentAsset.id doc) = true)
  /\ (forall tid' file' docType' actor' role' w' doc',
        fst (createDocumentOf s tid' file' docType' actor' role' w') = Some doc' ->
        (DocumentAsset.id doc = DocumentAsset.id doc'
         <-> mintReading s w = mintReading s w'))
  /\ Forall (fun e => matchesBlockId (BlockchainEvent.blockId e) = true
                      /\ String.length (BlockchainEvent.blockId e) = 66%nat)
            (DocumentAsset.events doc)
  /\ (forall docId type actor' role' hash metadata w' x d,
        locate (transactions w') docId = Some (x, d) ->
        exists e,
          fst (BlockchainServiceNode.addEvent docId type actor' role' hash metadata w')
          = Some (eventApplied type e d)
          /\ locate (transactions
                       (perform (AddEvent s docId type actor' role' hash metadata) w'))
                    docId
             = Some (transactionApplied docId type e x, eventApplied type e d)
          /\ DocumentAsset.events (eventApplied type e d) = DocumentAsset.events d ++ [e]
          /\ matchesBlockId (BlockchainEvent.blockId e) = true
          /\ String.length (BlockchainEvent.blockId e) = 66%nat).
Proof.
  intros H. destruct (created_document _ _ _ _ _ _ _ _ H) as (e & Hid & Hev & Hfmt).
  split; [exact Hid|]. split; [|split; [|split]].
  - intros Ht. rewrite Hid. now apply matchesDocumentId_minted.
  - intros tid' file' docType' actor' role' w' doc' H'.
    destruct (created_document _ _ _ _ _ _ _ _ H') as (_ & Hid' & _).
    rewrite Hid, Hid'. split.
    + intros Heq. apply append_inj_l in Heq. now apply decimal_inj.
    + now intros ->.
  - rewrite Hev. constructor; [exact Hfmt | constructor].
  - intros docId type actor' role' hash metadata w' x d Hloc.
    destruct (addEvent_located s docId type actor' role' hash metadata w' x d Hloc)
      as (e' & _ & _ & Hfmt' & Hret & _ & Hafter).
    exists e'. split; [exact Hret|]. split; [exact Hafter|]. split; [|exact Hfmt'].
    now destruct (eventApplied_fields type e' d) as (_ & _ & _ & _ & _ & _ & Hevents).
Qed.

Lemma identifiers_minted_witness :
  exists doc,
    fst (createDocumentOf Node "TX-2024-8492" demoFile "Test Document" "test@example.com"
           UserRole.ATTORNEY (loadModule demoEnv)) = Some doc
    /\ DocumentAsset.id doc = demoId
    /\ matchesDocumentId (DocumentAsset.id doc) = true
    /\ Forall (fun e => matchesBlockId (BlockchainEvent.blockId e) = true
                        /\ String.length (BlockchainEvent.blockId e) = 66%nat)
              (DocumentAsset.events doc).
Proof.
  destruct (fst (createDocumentOf Node "TX-2024-8492" demoFile "Test Document"
                   "test@example.com" UserRole.ATTORNEY (loadModule demoEnv)))
    as [doc|] eqn:Hdoc; [|vm_compute in Hdoc; discriminate Hdoc].
  destruct (identifiers_minted Node "TX-2024-8492" demoFile "Test Document"
              "test@example.com" UserRole.ATTORNEY (loadModule demoEnv) doc Hdoc)
    as (Hid & Hfmt & _ & Hblock & _).
  exists doc. split; [reflexivity|]. split; [|split].
  - rewrite Hid. vm_compute. reflexivity.
  - apply Hfmt. vm_compute. discriminate.
  - exact Hblock.
Defined.

(** C9 as stated fails: two documents created within the same
    millisecond get the same id. *)
Lemma same_millisecond_same_id :
  map DocumentAsset.id
    (allDocuments
       (transactions (run [upload Node; upload Node] (loadModule sameMillisecondEnv))))
  = ["DOC-1700000000000"; "DOC-1700000000000"].
Proof. vm_compute. reflexivity. Qed.

(** * Further properties of the services *)

(** ** One operation, in full *)

Section OperationFacts.

(** [createDocument] on a known transaction, with the clock reading
    that goes into the id spelled out. *)
Lemma createDocument_reading s tid file docType actor role w i :
  findIndex (isTransaction tid) (transactions w) = Some i ->
  exists block c,
    let h := hashIn s file w in
    let e := BlockchainEvent.make ("evt_" ++ Text.decimal (clock (env w) c))
               (clock (env w) (S c)) EventType.UPLOAD actor role h
               [("fileName", JsString (File.name file));
                ("fileSize", JsNumber (File.size file))] block in
    let doc := DocumentAsset.make ("DOC-" ++ Text.decimal (clock (env w) (2 + c)))
                 (File.name file) docType 1 h DocumentStatus.DRAFT [e] in
    createDocumentOf s tid file docType actor role w
    = (Some doc,
       mkWorld (env w) (3 + c) (64 + randomDraws w)
         (updateAt i (fun x => Transaction.setDocuments
                                 (Transaction.documents x ++ [doc]) x)
                   (transactions w)))
    /\ (clockReads w <= c)%nat.
Proof.
  intros H.
  destruct (computeFileHash_spec s file w) as (c & Hhash & Hmint & Hc).
  destruct (uploadEvent_spec file (hashIn s file w) actor role
              (mkWorld (env w) c (randomDraws w) (transactions w)))
    as (block & Hev & _).
  cbn [env clockReads randomDraws transactions] in Hev.
  exists block, c. cbv zeta. split; [|assumption].
  destruct s; cbn [createDocumentOf];
    [unfold BlockchainService.createDocument
    |unfold BlockchainServiceNode.createDocument];
    unfold bind at 1; unfold readTransactions at 1; rewrite H;
    unfold bind at 1; rewrite Hhash;
    unfold bind at 1; rewrite Hev;
    reflexivity.
Qed.

(** What an operation does to the world: the environment stays, the
    clock position never goes back, and the ledger stays as it was, or
    gets one new document, or one event on one document. *)
Lemma perform_effect {s} (op : Operation s) w :
  env (perform op w) = env w
  /\ (clockReads w <= clockReads (perform op w))%nat
  /\ (transactions (perform op w) = transactions w
      \/ (exists before x after doc e c file,
            transactions w = before ++ x :: after
            /\ transactions (perform op w)
               = before ++ Transaction.setDocuments (Transaction.documents x ++ [doc]) x
                   :: after
            /\ DocumentAsset.id doc = ("DOC-" ++ Text.decimal (clock (env w) (2 + c)))%string
            /\ DocumentAsset.status doc = DocumentStatus.DRAFT
            /\ DocumentAsset.currentVersion doc = 1
            /\ DocumentAsset.currentHash doc = hashIn s file w
            /\ DocumentAsset.events doc = [e]
            /\ BlockchainEvent.type e = EventType.UPLOAD
            /\ BlockchainEvent.docHash e = DocumentAsset.currentHash doc
            /\ BlockchainEvent.timestamp e = clock (env w) (S c)
            /\ (clockReads w <= c)%nat
            /\ clockReads (perform op w) = (3 + c)%nat)
      \/ (exists tb x ta db d da docId type e,
            transactions w = tb ++ x :: ta
            /\ Transaction.documents x = db ++ d :: da
            /\ transactions (perform op w) = tb ++ transactionApplied docId type e x :: ta
            /\ Transaction.documents (transactionApplied docId type e x)
               = db ++ eventApplied type e d :: da
            /\ BlockchainEvent.type e = type
            /\ BlockchainEvent.timestamp e = clock (env w) (S (clockReads w))
            /\ clockReads (perform op w) = (2 + clockReads w)%nat)).
Proof.
  destruct op as [s tid file docType actor role | s docId type actor role hash metadata
                 | s file | s | s id | | docId].
  - assert (perform (CreateDocument s tid file docType actor role) w
            = snd (createDocumentOf s tid file docType actor role w)) as ->
      by now destruct s.
    destruct (findIndex (isTransaction tid) (transactions w)) as [i|] eqn:Hi.
    + destruct (createDocument_reading s tid file docType actor role w i Hi)
        as (block & c & Hc & Hle).
      cbv zeta in Hc. rewrite Hc. cbn [snd env clockReads transactions].
      split; [reflexivity|]. split; [lia|]. right. left.
      destruct (findIndex_some _ _ _ Hi) as (before & x0 & after & Htxs & _ & _ & Hupd).
      rewrite Hupd.
      eexists before, x0, after, _, _, c, file.
      repeat split; try reflexivity; assumption.
    + rewrite (createDocument_unknown s tid file docType actor role w Hi). cbn [snd].
      split; [reflexivity|]. split; [lia|]. now left.
  - destruct (locate (transactions w) docId) as [[x d]|] eqn:Hloc.
    + destruct (node_addEvent_found docId type actor role hash metadata w x d Hloc)
        as (block & Hadd & _).
      cbv zeta in Hadd. rewrite perform_addEvent, Hadd.
      cbn [snd env clockReads transactions].
      split; [reflexivity|]. split; [lia|]. right. right.
      destruct (locate_split _ _ _ _ Hloc)
        as (tb & ta & db & da & Hw & Hdocs & _ & _ & _ & Hg & Hf).
      eexists tb, x, ta, db, d, da, docId, type, _. repeat split; try reflexivity; auto.
      now rewrite transactionApplied_documents, Hf.
    + rewrite perform_addEvent.
      rewrite (node_addEvent_missing docId type actor role hash metadata w Hloc). cbn [snd].
      split; [reflexivity|]. split; [lia|]. now left.
  - destruct (computeFileHash_spec s file w) as (c & Hhash & _ & Hle).
    assert (perform (VerifyDocument s file) w
            = mkWorld (env w) c (randomDraws w) (transactions w)) as ->.
    { destruct s; cbn [perform];
        [unfold BlockchainService.verifyDocument
        |unfold BlockchainServiceNode.verifyDocument];
        unfold bind at 1; rewrite Hhash; reflexivity. }
    cbn. split; [reflexivity|]. split; [exact Hle|]. now left.
  - destruct s; cbn; (split; [reflexivity|]); (split; [lia|]); now left.
  - destruct s; cbn; (split; [reflexivity|]); (split; [lia|]); now left.
  - cbn. split; [reflexivity|]. split; [lia|]. now left.
  - cbn. split; [reflexivity|]. split; [lia|]. now left.
Qed.

Lemma env_run {s} (ops : list (Operation s)) : forall w, env (run ops w) = env w.
Proof.
  induction ops as [|op ops IH]; intros w; [reflexivity|].
  cbn [run fold_left]. change (env (run ops (perform op w)) = env w).
  rewrite IH. now destruct (perform_effect op w) as (He & _).
Qed.

(** An invariant of the ledger that mentions the clock position holds
    after every run when it holds at first and every operation keeps it. *)
Lemma run_invariant {s} (P : World -> Prop) :
  (forall (op : Operation s) w, P w -> P (perform op w)) ->
  forall (ops : list (Operation s)) w, P w -> P (run ops w).
Proof.
  intros Hstep ops. induction ops as [|op ops IH]; intros w Hw; [exact Hw|].
  cbn [run fold_left]. apply (IH (perform op w)). now apply Hstep.
Qed.

Lemma in_allDocuments_middle before x after d :
  In d (allDocuments (before ++ x :: after))
  <-> In d (allDocuments before) \/ In d (Transaction.documents x)
      \/ In d (allDocuments after).
Proof.
  rewrite allDocuments_app. cbn [allDocuments flat_map]. rewrite !in_app_iff. tauto.
Qed.

End OperationFacts.

(** ** History *)

Section HistoryFacts.

Lemma historyIn_locate txs docId :
  BlockchainServiceNode.historyIn txs docId
  = option_map (fun found => DocumentAsset.events (snd found)) (locate txs docId).
Proof.
  induction txs as [|x rest IH]; simpl; [reflexivity|].
  now destruct (find (hasId docId) (Transaction.documents x)).
Qed.

End HistoryFacts.

(** X1.  [getDocumentHistory] never changes the world; it returns [null]
    exactly when no document of any transaction has the id, and otherwise
    the whole event sequence, in append order, of the first document with
    that id in ledger order. *)
Theorem getDocumentHistory_lookup (docId : string) (w : World) :
  snd (BlockchainServiceNode.getDocumentHistory docId w) = w
  /\ (fst (BlockchainServiceNode.getDocumentHistory docId w) = None
      <-> unknownDocument (transactions w) docId)
  /\ (forall x d,
        locate (transactions w) docId = Some (x, d) ->
        fst (BlockchainServiceNode.getDocumentHistory docId w)
        = Some (DocumentAsset.events d)).
Proof.
  unfold BlockchainServiceNode.getDocumentHistory, bind, readTransactions, ret.
  cbn [fst snd]. rewrite historyIn_locate. split; [reflexivity|]. split.
  - rewrite <- locate_none. destruct (locate (transactions w) docId); cbn; split; congruence.
  - intros x d ->. reflexivity.
Qed.

Lemma getDocumentHistory_lookup_witness :
  fst (BlockchainServiceNode.getDocumentHistory "DOC-does-not-exist" (loadModule demoEnv))
  = None.
Proof.
  apply (proj1 (proj2 (getDocumentHistory_lookup "DOC-does-not-exist" (loadModule demoEnv)))).
  intros x d Hx Hd. simpl in Hx. destruct Hx as [<-|[<-|[]]]; destruct Hd.
Defined.

(** X2.  After [addEvent] has found the document, its history is the
    history before followed by exactly one event, which has the type,
    actor, role, hash and metadata the caller passed (the empty object
    when none was passed) and the second clock reading of the call as its
    timestamp. *)
Theorem history_after_addEvent (s : Service) (docId : string) (type : EventType.t)
    (actor : string) (role : UserRole.t) (hash : string) (metadata : option Metadata)
    (w : World) (history : list BlockchainEvent.t) :
  fst (BlockchainServiceNode.getDocumentHistory docId w) = Some history ->
  exists e,
    fst (BlockchainServiceNode.getDocumentHistory docId
           (perform (AddEvent s docId type actor role hash metadata) w))
    = Some (history ++ [e])
    /\ BlockchainEvent.type e = type
    /\ BlockchainEvent.actorId e = actor
    /\ BlockchainEvent.actorRole e = role
    /\ BlockchainEvent.docHash e = hash
    /\ BlockchainEvent.metadata e = match metadata with Some m => m | None => [] end
    /\ BlockchainEvent.timestamp e = clock (env w) (S (clockReads w))
    /\ BlockchainEvent.id e
       = ("evt_" ++ Text.decimal (clock (env w) (clockReads w)))%string.
Proof.
  unfold BlockchainServiceNode.getDocumentHistory at 1. unfold bind, readTransactions, ret.
  cbn [fst]. rewrite historyIn_locate.
  destruct (locate (transactions w) docId) as [[x d]|] eqn:Hloc; [|discriminate].
  cbn [option_map snd]. intros [= <-].
  destruct (node_addEvent_found docId type actor role hash metadata w x d Hloc)
    as (block & Hadd & _).
  cbv zeta in Hadd.
  eexists. rewrite perform_addEvent, Hadd. cbn [snd].
  unfold BlockchainServiceNode.getDocumentHistory, bind, readTransactions, ret.
  cbn [fst transactions]. rewrite historyIn_locate.
  rewrite (locate_updateFirst _ _ _ _ _ _ Hloc). cbn [option_map snd].
  destruct (eventApplied_fields type
              (BlockchainEvent.make ("evt_" ++ Text.decimal (clock (env w) (clockReads w)))
                 (clock (env w) (S (clockReads w))) type actor role hash
                 (match metadata with Some m => m | None => [] end) block) d)
    as (_ & _ & _ & _ & _ & _ & Hev).
  rewrite Hev. repeat split; reflexivity.
Qed.

Lemma history_after_addEvent_witness :
  exists e,
    fst (BlockchainServiceNode.getDocumentHistory demoId
           (perform (AddEvent Node demoId EventType.VIEW "a@b.c" UserRole.LENDER "00" None)
              (perform (upload Node) (loadModule demoEnv))))
    = Some (match fst (BlockchainServiceNode.getDocumentHistory demoId
                         (perform (upload Node) (loadModule demoEnv))) with
            | Some history => history ++ [e]
            | None => []
            end)
    /\ BlockchainEvent.type e = EventType.VIEW.
Proof.
  destruct (fst (BlockchainServiceNode.getDocumentHistory demoId
                   (perform (upload Node) (loadModule demoEnv))))
    as [history|] eqn:Hh; [|vm_compute in Hh; discriminate Hh].
  destruct (history_after_addEvent Node demoId EventType.VIEW "a@b.c" UserRole.LENDER "00"
              None (perform (upload Node) (loadModule demoEnv)) history Hh)
    as (e & Hafter & Hty & _).
  exists e. split; assumption.
Defined.

(** ** Documents by id *)

Section NamingFacts.

(** The document an id names is the first one with that id when the
    documents of all transactions are read in ledger order. *)
Lemma named_find txs docId :
  option_map snd (locate txs docId) = find (hasId docId) (allDocuments txs).
Proof.
  induction txs as [|x rest IH]; simpl; [reflexivity|].
  rewrite find_app.
  destruct (find (hasId docId) (Transaction.documents x)); [reflexivity | exact IH].
Qed.

Lemma documentNamed_find docId w :
  documentNamed docId w = find (hasId docId) (allDocuments (transactions w)).
Proof. apply named_find. Qed.

Lemma history_named docId w :
  fst (BlockchainServiceNode.getDocumentHistory docId w)
  = option_map DocumentAsset.events (documentNamed docId w).
Proof.
  unfold BlockchainServiceNode.getDocumentHistory, bind, readTransactions, ret.
  cbn [fst]. rewrite historyIn_locate. unfold documentNamed.
  now destruct (locate (transactions w) docId).
Qed.

Lemma find_skip {A} (p : A -> bool) before a after :
  p a = false -> find p (before ++ a :: after) = find p (before ++ after).
Proof. intros H. rewrite !find_app. cbn [find]. now rewrite H. Qed.

Lemma find_none_iff {A} (p : A -> bool) xs :
  find p xs = None <-> forall y, In y xs -> p y = false.
Proof.
  split; [apply find_none|].
  induction xs as [|y rest IH]; intros H; [reflexivity|]. cbn [find].
  rewrite (H y (or_introl eq_refl)). apply IH. intros z Hz. apply H. now right.
Qed.

Lemma hasId_false docId d : hasId docId d = false <-> DocumentAsset.id d <> docId.
Proof. unfold hasId. apply String.eqb_neq. Qed.

Lemma unknown_find txs docId :
  unknownDocument txs docId <-> find (hasId docId) (allDocuments txs) = None.
Proof. now rewrite <- named_find, <- locate_none; destruct (locate txs docId). Qed.

(** The documents of the ledger, in order, after a successful
    [createDocument] and after an [addEvent] that found its document. *)
Lemma allDocuments_middle before x after :
  allDocuments (before ++ x :: after)
  = allDocuments before ++ Transaction.documents x ++ allDocuments after.
Proof. now rewrite allDocuments_app. Qed.

End NamingFacts.

(** X3.  A document that [createDocument] returns can be looked up at
    once: when no document of the ledger had its id, the id names the
    new document afterwards and [getDocumentHistory] returns its one
    UPLOAD event. *)
Theorem created_document_found (s : Service) (tid : string) (file : File.t)
    (docType actor : string) (role : UserRole.t) (w : World) (doc : DocumentAsset.t) :
  fst (createDocumentOf s tid file docType actor role w) = Some doc ->
  unknownDocument (transactions w) (DocumentAsset.id doc) ->
  let w' := snd (createDocumentOf s tid file docType actor role w) in
  documentNamed (DocumentAsset.id doc) w' = Some doc
  /\ exists e,
       fst (BlockchainServiceNode.getDocumentHistory (DocumentAsset.id doc) w') = Some [e]
       /\ BlockchainEvent.type e = EventType.UPLOAD
       /\ BlockchainEvent.actorId e = actor
       /\ BlockchainEvent.actorRole e = role
       /\ BlockchainEvent.docHash e = DocumentAsset.currentHash doc.
Proof.
  intros Hdoc Hunknown w'. subst w'.
  destruct (findIndex (isTransaction tid) (transactions w)) as [i|] eqn:Hi;
    [|rewrite (createDocument_unknown s tid file docType actor role w Hi) in Hdoc;
      discriminate Hdoc].
  destruct (createDocument_known s tid file docType actor role w i Hi)
    as (block & c & Hc & _).
  cbv zeta in Hc.
  match type of Hc with _ = (Some ?built, _) => set (doc0 := built) in * end.
  rewrite Hc in Hdoc |- *. cbn [fst snd] in Hdoc |- *.
  assert (doc = doc0) as -> by congruence. clear Hdoc. rename doc0 into doc.
  assert (exists e,
            DocumentAsset.events doc = [e]
            /\ BlockchainEvent.type e = EventType.UPLOAD
            /\ BlockchainEvent.actorId e = actor
            /\ BlockchainEvent.actorRole e = role
            /\ BlockchainEvent.docHash e = DocumentAsset.currentHash doc) as Hfacts
    by (eexists; repeat split; reflexivity).
  clearbody doc. clear Hc.
  destruct (findIndex_some _ _ _ Hi) as (before & x0 & after & Htxs & _ & _ & Hupd).
  rewrite Hupd.
  assert (documentNamed (DocumentAsset.id doc)
            (mkWorld (env w) (3 + c) (64 + randomDraws w)
               (before ++ Transaction.setDocuments (Transaction.documents x0 ++ [doc]) x0
                  :: after))
          = Some doc) as Hnamed.
  { rewrite documentNamed_find. cbn [transactions]. rewrite allDocuments_middle.
    cbn [Transaction.documents Transaction.setDocuments].
    apply unknown_find in Hunknown. rewrite Htxs, allDocuments_middle in Hunknown.
    rewrite !find_app in Hunknown. rewrite !find_app.
    destruct (find (hasId (DocumentAsset.id doc)) (allDocuments before)); [discriminate|].
    destruct (find (hasId (DocumentAsset.id doc)) (Transaction.documents x0));
      [discriminate|].
    cbn [find].
    assert (hasId (DocumentAsset.id doc) doc = true) as -> by now apply hasId_true.
    reflexivity. }
  split; [exact Hnamed|].
  rewrite history_named, Hnamed.
  destruct Hfacts as (e & Hev & Hfields). exists e. cbn [option_map]. now rewrite Hev.
Qed.

Lemma created_document_found_witness :
  match fst (createDocumentOf Node "TX-2024-8492" demoFile "Test Document"
               "test@example.com" UserRole.ATTORNEY (loadModule demoEnv)) with
  | Some doc =>
      documentNamed (DocumentAsset.id doc)
        (snd (createDocumentOf Node "TX-2024-8492" demoFile "Test Document"
                "test@example.com" UserRole.ATTORNEY (loadModule demoEnv)))
      = Some doc
  | None => False
  end.
Proof.
  destruct (fst (createDocumentOf Node "TX-2024-8492" demoFile "Test Document"
                   "test@example.com" UserRole.ATTORNEY (loadModule demoEnv)))
    as [doc|] eqn:Hdoc; [|vm_compute in Hdoc; discriminate Hdoc].
  apply (created_document_found Node "TX-2024-8492" demoFile "Test Document"
           "test@example.com" UserRole.ATTORNEY (loadModule demoEnv) doc Hdoc).
  intros x d Hx Hd. simpl in Hx. destruct Hx as [<-|[<-|[]]]; destruct Hd.
Defined.

(** X4.  Events never leak between documents: [addEvent] on one id
    leaves the document every other id names, and so its history,
    exactly as it was. *)
Theorem addEvent_isolated (s : Service) (docId : string) (type : EventType.t)
    (actor : string) (role : UserRole.t) (hash : string) (metadata : option Metadata)
    (w : World) (other : string) :
  other <> docId ->
  documentNamed other (perform (AddEvent s docId type actor role hash metadata) w)
  = documentNamed other w
  /\ fst (BlockchainServiceNode.getDocumentHistory other
            (perform (AddEvent s docId type actor role hash metadata) w))
     = fst (BlockchainServiceNode.getDocumentHistory other w).
Proof.
  intros Hother.
  assert (documentNamed other (perform (AddEvent s docId type actor role hash metadata) w)
          = documentNamed other w) as Hnamed.
  { destruct (locate (transactions w) docId) as [[x d]|] eqn:Hloc.
    - destruct (addEvent_located s docId type actor role hash metadata w x d Hloc)
        as (e & _ & _ & _ & _ & Htxs & _).
      destruct (locate_split _ _ _ _ Hloc)
        as (tb & ta & db & da & Hw & Hdocs & Hid & _ & _ & Hg & Hf).
      rewrite !documentNamed_find, Htxs, Hg, Hw, !allDocuments_middle.
      rewrite transactionApplied_documents, Hf, Hdocs.
      assert (hasId other d = false) as Hd by (apply hasId_false; congruence).
      assert (hasId other (eventApplied type e d) = false) as Hd'
        by now rewrite hasId_eventApplied.
      rewrite !find_app. cbn [find]. now rewrite Hd, Hd'.
    - rewrite perform_addEvent.
      now rewrite (node_addEvent_missing docId type actor role hash metadata w Hloc). }
  split; [exact Hnamed|]. now rewrite !history_named, Hnamed.
Qed.

Lemma addEvent_isolated_witness :
  documentNamed "DOC-1700000000007"
    (perform (AddEvent Node demoId EventType.SIGNATURE "actor@example.com"
                UserRole.LENDER "00" None)
       (run [upload Node; upload Node] (loadModule demoEnv)))
  = documentNamed "DOC-1700000000007" (run [upload Node; upload Node] (loadModule demoEnv)).
Proof.
  apply (addEvent_isolated Node demoId EventType.SIGNATURE "actor@example.com"
           UserRole.LENDER "00" None (run [upload Node; upload Node] (loadModule demoEnv))).
  discriminate.
Defined.

(** X5.  A new document does not disturb the others: after
    [createDocument] every id other than the new document's names the
    document it named before, with the history it had. *)
Theorem createDocument_isolated (s : Service) (tid : string) (file : File.t)
    (docType actor : string) (role : UserRole.t) (w : World) (doc : DocumentAsset.t)
    (other : string) :
  fst (createDocumentOf s tid file docType actor role w) = Some doc ->
  other <> DocumentAsset.id doc ->
  let w' := snd (createDocumentOf s tid file docType actor role w) in
  documentNamed other w' = documentNamed other w
  /\ fst (BlockchainServiceNode.getDocumentHistory other w')
     = fst (BlockchainServiceNode.getDocumentHistory other w).
Proof.
  intros Hdoc Hother w'. subst w'.
  destruct (findIndex (isTransaction tid) (transactions w)) as [i|] eqn:Hi;
    [|rewrite (createDocument_unknown s tid file docType actor role w Hi) in Hdoc;
      discriminate Hdoc].
  destruct (createDocument_known s tid file docType actor role w i Hi)
    as (block & c & Hc & _).
  cbv zeta in Hc.
  match type of Hc with _ = (Some ?built, _) => set (doc0 := built) in * end.
  rewrite Hc in Hdoc |- *. cbn [fst snd] in Hdoc |- *.
  assert (doc = doc0) as -> by congruence. clear Hdoc. rename doc0 into doc.
  clearbody doc. clear Hc.
  destruct (findIndex_some _ _ _ Hi) as (before & x0 & after & Htxs & _ & _ & Hupd).
  match goal with |- ?A = ?B /\ _ => assert (A = B) as Hnamed end.
  { rewrite !documentNamed_find. cbn [transactions].
    rewrite Hupd, Htxs, !allDocuments_middle.
    cbn [Transaction.documents Transaction.setDocuments].
    assert (hasId other doc = false) as Hd by (apply hasId_false; congruence).
    rewrite !find_app. cbn [find]. rewrite Hd.
    destruct (find (hasId other) (allDocuments before)); [reflexivity|].
    now destruct (find (hasId other) (Transaction.documents x0)). }
  split; [exact Hnamed|]. now rewrite !history_named, Hnamed.
Qed.

Lemma createDocument_isolated_witness :
  let w := perform (upload Node) (loadModule demoEnv) in
  documentNamed demoId
    (snd (createDocumentOf Node "TX-2024-9921" otherFile "Deed" "a@b.c" UserRole.ATTORNEY w))
  = documentNamed demoId w.
Proof.
  intros w.
  destruct (fst (createDocumentOf Node "TX-2024-9921" otherFile "Deed" "a@b.c"
                   UserRole.ATTORNEY w)) as [doc|] eqn:Hdoc;
    [|vm_compute in Hdoc; discriminate Hdoc].
  apply (createDocument_isolated Node "TX-2024-9921" otherFile "Deed" "a@b.c"
           UserRole.ATTORNEY w doc demoId Hdoc).
  vm_compute in Hdoc. injection Hdoc as <-. discriminate.
Defined.

(** ** Transactions *)

Section TransactionFacts.

Lemma find_findIndex {A} (p : A -> bool) xs :
  find p xs = None <-> findIndex p xs = None.
Proof.
  induction xs as [|y rest IH]; simpl; [tauto|].
  destruct (p y); [split; discriminate|].
  rewrite IH. destruct (findIndex p rest); cbn; split; congruence.
Qed.

Lemma find_middle {A} (p : A -> bool) before x after :
  p x = true -> (forall y, In y before -> p y = false) ->
  find p (before ++ x :: after) = Some x.
Proof.
  intros Hx Hb. rewrite find_app.
  rewrite (proj2 (find_none_iff p before) Hb). cbn [find]. now rewrite Hx.
Qed.

End TransactionFacts.

(** X6.  [createDocument] and [getTransaction] agree on which
    transaction an id names: [createDocument] returns [null] exactly when
    [getTransaction] returns [undefined], and after a successful
    [createDocument] the transaction [getTransaction] returns for the id
    is the one it returned before with the new document added last. *)
Theorem getTransaction_after_create (s : Service) (tid : string) (file : File.t)
    (docType actor : string) (role : UserRole.t) (w : World) :
  (fst (createDocumentOf s tid file docType actor role w) = None
   <-> fst (BlockchainServiceNode.getTransaction tid w) = None)
  /\ (forall doc,
        fst (createDocumentOf s tid file docType actor role w) = Some doc ->
        exists x,
          fst (BlockchainServiceNode.getTransaction tid w) = Some x
          /\ Transaction.id x = tid
          /\ fst (BlockchainServiceNode.getTransaction tid
                    (snd (createDocumentOf s tid file docType actor role w)))
             = Some (Transaction.setDocuments (Transaction.documents x ++ [doc]) x)).
Proof.
  unfold BlockchainServiceNode.getTransaction, bind, readTransactions, ret. cbn [fst].
  destruct (findIndex (isTransaction tid) (transactions w)) as [i|] eqn:Hi.
  - destruct (createDocument_known s tid file docType actor role w i Hi)
      as (block & c & Hc & _).
    cbv zeta in Hc.
    match type of Hc with _ = (Some ?built, _) => set (doc0 := built) in * end.
    clearbody doc0. rewrite Hc. cbn [fst snd transactions].
    destruct (findIndex_some _ _ _ Hi) as (before & x & after & Htxs & Hx & Hb & Hupd).
    rewrite Hupd, Htxs. rewrite (find_middle _ before x after Hx Hb).
    split; [split; discriminate|].
    intros doc [= <-]. exists x. split; [reflexivity|].
    split; [now apply String.eqb_eq|].
    apply find_middle; [exact Hx | exact Hb].
  - rewrite (createDocument_unknown s tid file docType actor role w Hi). cbn [fst].
    rewrite (proj2 (find_findIndex _ _) Hi). split; [tauto | discriminate].
Qed.

Lemma getTransaction_after_create_witness :
  match fst (createDocumentOf Node "TX-2024-9921" demoFile "Deed" "a@b.c"
               UserRole.ATTORNEY (loadModule demoEnv)) with
  | Some doc =>
      exists x,
        fst (BlockchainServiceNode.getTransaction "TX-2024-9921"
               (snd (createDocumentOf Node "TX-2024-9921" demoFile "Deed" "a@b.c"
                       UserRole.ATTORNEY (loadModule demoEnv))))
        = Some (Transaction.setDocuments (Transaction.documents x ++ [doc]) x)
  | None => False
  end.
Proof.
  destruct (fst (createDocumentOf Node "TX-2024-9921" demoFile "Deed" "a@b.c"
                   UserRole.ATTORNEY (loadModule demoEnv)))
    as [doc|] eqn:Hdoc; [|vm_compute in Hdoc; discriminate Hdoc].
  destruct (proj2 (getTransaction_after_create Node "TX-2024-9921" demoFile "Deed" "a@b.c"
                     UserRole.ATTORNEY (loadModule demoEnv)) doc Hdoc)
    as (x & _ & _ & Hafter).
  exists x. exact Hafter.
Defined.

(** X7.  No operation creates, removes, reorders or renames a
    transaction: after every run the ledger has the same transactions in
    the same order, each with the address, amount, lender, borrower and
    creation time it had, and with the status it had or RECORDED.  In
    particular a RECORDED transaction stays RECORDED and no transaction
    ever becomes COMPLETED. *)
Theorem transactions_fixed (s : Service) (ops : list (Operation s)) (w : World) :
  Forall2 (fun x x' =>
             describe x' = describe x
             /\ (Transaction.status x' = Transaction.status x
                 \/ Transaction.status x' = TransactionStatus.RECORDED))
          (transactions w) (transactions (run ops w)).
Proof.
  revert w. induction ops as [|op ops IH]; intros w.
  - apply Forall2_same. auto.
  - cbn [run fold_left]. change (fold_left _ ops (perform op w)) with (run ops (perform op w)).
    specialize (IH (perform op w)).
    assert (Forall2 (fun x x' =>
                       describe x' = describe x
                       /\ (Transaction.status x' = Transaction.status x
                           \/ Transaction.status x' = TransactionStatus.RECORDED))
                    (transactions w) (transactions (perform op w))) as Hstep.
    { destruct (perform_ledger op w)
        as [Hsame | [(before & x & after & doc & e & Hw & Hafter & _)
                    | (tb & x & ta & db & d & da & docId & type & e & Hw & _ & Hafter & _)]].
      - rewrite Hsame. apply Forall2_same. auto.
      - rewrite Hafter, Hw. apply Forall2_middle; auto.
      - rewrite Hafter, Hw. apply Forall2_middle; [auto|].
        split; [now destruct type|].
        rewrite transactionApplied_status.
        destruct (EventType.eqb type EventType.RECORDED); auto. }
    clear -IH Hstep.
    revert IH. generalize (transactions (run ops (perform op w))).
    induction Hstep as [|x y xs ys [Hd Hs] _ IHs]; intros zs Hzs;
      inversion Hzs as [|y' z ys' zs' [Hd' Hs'] Hrest]; subst; constructor.
    + split; [congruence|]. destruct Hs' as [Hs'|Hs']; [|now right].
      rewrite Hs'. exact Hs.
    + now apply IHs.
Qed.

(** X8.  Documents are only ever added, one at a time: an operation
    changes the number of documents [listAllDocuments] lists exactly when
    it is a [createDocument] on a known transaction, and then by one. *)
Theorem one_document_per_upload (s : Service) (op : Operation s) (w : World) :
  let total w' := totalDocuments (fst (BlockchainServiceNode.listAllDocuments w')) in
  (total (perform op w) = total w \/ total (perform op w) = S (total w))
  /\ (total (perform op w) = S (total w)
      <-> exists tid file docType actor role,
            op = CreateDocument s tid file docType actor role
            /\ In tid (map Transaction.id (transactions w))).
Proof.
  cbv beta zeta.
  assert (forall w', totalDocuments (fst (BlockchainServiceNode.listAllDocuments w'))
                     = List.length (allDocuments (transactions w'))) as Htotal.
  { intros w'. unfold BlockchainServiceNode.listAllDocuments, bind, readTransactions, ret.
    cbn [fst]. unfold totalDocuments, allDocuments.
    generalize (transactions w'). intros txs.
    assert (forall n, fold_left (fun sum item => (sum + List.length (snd item))%nat)
                        (map (fun x => (x, Transaction.documents x)) txs) n
                      = (n + List.length (flat_map Transaction.documents txs))%nat) as Hgen.
    { induction txs as [|x rest IH]; intros n; cbn; [lia|].
      rewrite IH, length_app. lia. }
    apply Hgen. }
  rewrite !Htotal.
  assert (forall tid file docType actor role,
            List.length (allDocuments
                           (transactions (snd (createDocumentOf s tid file docType actor
                                                 role w))))
            = match findIndex (isTransaction tid) (transactions w) with
              | Some _ => S (List.length (allDocuments (transactions w)))
              | None => List.length (allDocuments (transactions w))
              end) as Hcreate.
  { intros tid file docType actor role.
    destruct (findIndex (isTransaction tid) (transactions w)) as [i|] eqn:Hi.
    - destruct (createDocument_known s tid file docType actor role w i Hi)
        as (block & c & Hc & _).
      cbv zeta in Hc. rewrite Hc. cbn [snd transactions].
      destruct (findIndex_some _ _ _ Hi) as (before & x & after & Htxs & _ & _ & Hupd).
      rewrite Hupd, Htxs, !allDocuments_middle.
      cbn [Transaction.documents Transaction.setDocuments].
      rewrite !length_app. cbn [List.length]. lia.
    - now rewrite (createDocument_unknown s tid file docType actor role w Hi). }
  assert (forall docId type actor role hash metadata,
            List.length (allDocuments
                           (transactions
                              (perform (AddEvent s docId type actor role hash metadata) w)))
            = List.length (allDocuments (transactions w))) as Hadd.
  { intros docId type actor role hash metadata.
    destruct (locate (transactions w) docId) as [[x d]|] eqn:Hloc.
    - destruct (addEvent_located s docId type actor role hash metadata w x d Hloc)
        as (e & _ & _ & _ & _ & Htxs & _).
      destruct (locate_split _ _ _ _ Hloc)
        as (tb & ta & db & da & Hw & Hdocs & _ & _ & _ & Hg & Hf).
      rewrite Htxs, Hg, Hw, !allDocuments_middle, transactionApplied_documents, Hf, Hdocs.
      rewrite !length_app. reflexivity.
    - rewrite perform_addEvent.
      now rewrite (node_addEvent_missing docId type actor role hash metadata w Hloc). }
  destruct op as [s tid file docType actor role | s docId type actor role hash metadata
                 | s file | s | s id | | docId].
  - assert (perform (CreateDocument s tid file docType actor role) w
            = snd (createDocumentOf s tid file docType actor role w)) as ->
      by now destruct s.
    rewrite Hcreate.
    destruct (findIndex (isTransaction tid) (transactions w)) as [i|] eqn:Hi.
    + split; [now right|]. split; [|reflexivity].
      intros _. exists tid, file, docType, actor, role. split; [reflexivity|].
      apply known_transaction. congruence.
    + split; [now left|]. split; [lia|].
      intros (tid' & file' & docType' & actor' & role' & Heq & Hin).
      injection Heq as <- _ _ _ _. apply known_transaction in Hin. congruence.
  - rewrite Hadd. split; [now left|]. split; [lia|].
    intros (? & ? & ? & ? & ? & Heq & _). discriminate Heq.
  - assert (transactions (perform (VerifyDocument s file) w) = transactions w) as ->.
    { destruct (perform_ledger (VerifyDocument s file) w)
        as [Hsame | [(before & x & after & doc & e & Hw & Hafter & _)
                    | (tb & x & ta & db & d & da & docId & type & e & Hw & _ & Hafter & _)]];
        [exact Hsame | |];
        destruct (computeFileHash_spec s file w) as (c & Hhash & _);
        destruct s; cbn [perform];
          [unfold BlockchainService.verifyDocument
          |unfold BlockchainServiceNode.verifyDocument
          |unfold BlockchainService.verifyDocument
          |unfold BlockchainServiceNode.verifyDocument];
          unfold bind at 1; rewrite Hhash; reflexivity. }
    split; [now left|]. split; [lia|].
    intros (? & ? & ? & ? & ? & Heq & _). discriminate Heq.
  - assert (transactions (perform (GetTransactions s) w) = transactions w) as ->
      by now destruct s.
    split; [now left|]. split; [lia|].
    intros (? & ? & ? & ? & ? & Heq & _). discriminate Heq.
  - assert (transactions (perform (GetTransaction s id) w) = transactions w) as ->
      by now destruct s.
    split; [now left|]. split; [lia|].
    intros (? & ? & ? & ? & ? & Heq & _). discriminate Heq.
  - cbn [perform]. split; [now left|]. split; [cbn; lia|].
    intros (? & ? & ? & ? & ? & Heq & _). discriminate Heq.
  - cbn [perform]. split; [now left|]. split; [cbn; lia|].
    intros (? & ? & ? & ? & ? & Heq & _). discriminate Heq.
Qed.

(** ** Invariants of the documents *)

Section DocumentFacts.

(** Where a document of the ledger comes from after one operation: it
    was there, or it has just been created, or it is a document that was
    there with one event applied. *)
Lemma perform_documents {s} (op : Operation s) w d' :
  In d' (allDocuments (transactions (perform op w))) ->
  In d' (allDocuments (transactions w))
  \/ (exists e c,
        DocumentAsset.id d' = ("DOC-" ++ Text.decimal (clock (env w) (2 + c)))%string
        /\ DocumentAsset.status d' = DocumentStatus.DRAFT
        /\ DocumentAsset.currentVersion d' = 1
        /\ DocumentAsset.events d' = [e]
        /\ BlockchainEvent.type e = EventType.UPLOAD
        /\ BlockchainEvent.docHash e = DocumentAsset.currentHash d'
        /\ BlockchainEvent.timestamp e = clock (env w) (S c)
        /\ (clockReads w <= c)%nat
        /\ clockReads (perform op w) = (3 + c)%nat)
  \/ (exists d e,
        In d (allDocuments (transactions w))
        /\ d' = eventApplied (BlockchainEvent.type e) e d
        /\ BlockchainEvent.timestamp e = clock (env w) (S (clockReads w))
        /\ clockReads (perform op w) = (2 + clockReads w)%nat).
Proof.
  intros Hd.
  destruct (perform_effect op w)
    as (_ & _ & [Hsame
                | [(before & x & after & doc & e & c & file & Hw & Hafter & Hid & Hst & Hver
                    & _ & Hev & Hty & Hh & Hts & Hle & Hclock)
                  | (tb & x & ta & db & d & da & docId & type & e & Hw & Hdocs & Hafter
                     & Hdocs' & Hty & Hts & Hclock)]]).
  - left. now rewrite <- Hsame.
  - rewrite Hafter in Hd. rewrite Hw. rewrite in_allDocuments_middle in Hd |- *.
    cbn [Transaction.documents Transaction.setDocuments] in Hd. rewrite in_app_iff in Hd.
    destruct Hd as [Hd | [[Hd | [<- | []]] | Hd]]; try (left; tauto).
    right. left. exists e, c. repeat split; assumption.
  - rewrite Hafter in Hd. rewrite Hw. rewrite in_allDocuments_middle in Hd |- *.
    rewrite Hdocs' in Hd. rewrite Hdocs. rewrite in_app_iff in Hd |- *. cbn [In] in Hd |- *.
    destruct Hd as [Hd | [[Hd | [<- | Hd]] | Hd]]; try (left; tauto).
    right. right. exists d, e. rewrite Hty. repeat split; auto.
    rewrite in_allDocuments_middle, Hdocs, in_app_iff. cbn [In]. tauto.
Qed.

(** Nothing is lost: a document of the ledger is still there after an
    operation, under the same id, with at most more events. *)
Lemma perform_keeps {s} (op : Operation s) w d :
  In d (allDocuments (transactions w)) ->
  exists d' more,
    In d' (allDocuments (transactions (perform op w)))
    /\ DocumentAsset.id d' = DocumentAsset.id d
    /\ DocumentAsset.events d' = DocumentAsset.events d ++ more.
Proof.
  intros Hd.
  destruct (perform_ledger op w)
    as [Hsame | [(before & x & after & doc & e & Hw & Hafter & _)
                | (tb & x & ta & db & d0 & da & docId & type & e & Hw & Hdocs & Hafter
                   & Hdocs')]].
  - exists d, []. rewrite Hsame, app_nil_r. auto.
  - exists d, []. rewrite app_nil_r. split; [|auto].
    rewrite Hafter. rewrite Hw in Hd. rewrite in_allDocuments_middle in Hd |- *.
    cbn [Transaction.documents Transaction.setDocuments]. rewrite in_app_iff. tauto.
  - rewrite Hw, in_allDocuments_middle, Hdocs, in_app_iff in Hd. cbn [In] in Hd.
    assert (forall d1, In d1 (allDocuments tb) \/ (In d1 db \/ In d1 da)
                       \/ In d1 (allDocuments ta) ->
                       In d1 (allDocuments (transactions (perform op w)))) as Hstay.
    { intros d1 H1. rewrite Hafter, in_allDocuments_middle, Hdocs', in_app_iff.
      cbn [In]. tauto. }
    destruct Hd as [Hd | [[Hd | [<- | Hd]] | Hd]];
      try (exists d, []; rewrite app_nil_r; split; [apply Hstay; tauto | auto]; fail).
    exists (eventApplied type e d0), [e].
    destruct (eventApplied_fields type e d0) as (Hid & _ & _ & _ & _ & _ & Hev).
    split; [|auto].
    rewrite Hafter, in_allDocuments_middle, Hdocs', in_app_iff. cbn [In]. tauto.
Qed.

Lemma replayStatus_snoc events e :
  replayStatus (events ++ [e])
  = statusAfter (BlockchainEvent.type e) (replayStatus events).
Proof. unfold replayStatus. now rewrite fold_left_app. Qed.

Lemma ascending_snoc stamps t :
  ascending (stamps ++ [t]) <-> ascending stamps /\ forall u, In u stamps -> u <= t.
Proof.
  induction stamps as [|v rest IH]; cbn [app ascending].
  - split; [intros _; split; [exact I | intros ? []] | intros _; split; [intros ? [] | exact I]].
  - rewrite IH. split.
    + intros (Hv & Hrest & Hle). repeat split; auto.
      * intros u Hu. apply Hv. apply in_or_app. now left.
      * intros u [<-|Hu]; [apply Hv; apply in_or_app; right; now left | auto].
    + intros ((Hv & Hrest) & Hle). repeat split; auto.
      * intros u Hu. apply in_app_or in Hu. destruct Hu as [Hu|[<-|[]]]; [auto|].
        apply Hle. now left.
      * intros u Hu. apply Hle. now right.
Qed.

End DocumentFacts.

(** X9.  The status of a document is always the one its events lead to:
    replaying the event types of its history from DRAFT (APPROVAL gives
    APPROVED, SIGNATURE gives SIGNED, RECORDED gives RECORDED, the others
    nothing) gives its status, after every run of operations. *)
Theorem status_is_replay (s : Service) (ops : list (Operation s)) (e : Env) :
  forall d,
    In d (allDocuments (transactions (run ops (loadModule e)))) ->
    DocumentAsset.status d = replayStatus (DocumentAsset.events d).
Proof.
  apply (run_invariant
           (fun w => forall d, In d (allDocuments (transactions w)) ->
                               DocumentAsset.status d
                               = replayStatus (DocumentAsset.events d))).
  - intros op w Hinv d' Hd'.
    destruct (perform_documents op w d' Hd')
      as [Hold | [(e0 & c & _ & Hst & _ & Hev & Hty & _)
                 | (d & e0 & Hd & -> & _)]].
    + now apply Hinv.
    + rewrite Hst, Hev. unfold replayStatus. cbn. now rewrite Hty.
    + destruct (eventApplied_fields (BlockchainEvent.type e0) e0 d)
        as (_ & _ & _ & _ & _ & Hst & Hev).
      rewrite Hst, Hev, replayStatus_snoc. now rewrite (Hinv d Hd).
  - intros d [].
Qed.

(** X10.  On a clock that never goes back, the timestamps of the events
    of every document are in non-decreasing order, after every run of
    operations. *)
Theorem timestamps_ascend (s : Service) (ops : list (Operation s)) (e : Env) :
  clockMonotone e ->
  forall d,
    In d (allDocuments (transactions (run ops (loadModule e)))) ->
    ascending (map BlockchainEvent.timestamp (DocumentAsset.events d)).
Proof.
  intros Hmono.
  assert (forall w,
            env w = e
            /\ (forall d, In d (allDocuments (transactions w)) ->
                  ascending (map BlockchainEvent.timestamp (DocumentAsset.events d))
                  /\ forall t, In t (map BlockchainEvent.timestamp (DocumentAsset.events d)) ->
                               t <= clock e (clockReads w)) ->
            forall d, In d (allDocuments (transactions w)) ->
              ascending (map BlockchainEvent.timestamp (DocumentAsset.events d))) as Hweak
    by (intros w [_ H] d Hd; now apply H).
  intros d. apply Hweak. clear Hweak d.
  apply (run_invariant
           (fun w => env w = e
                     /\ forall d, In d (allDocuments (transactions w)) ->
                          ascending (map BlockchainEvent.timestamp (DocumentAsset.events d))
                          /\ forall t,
                               In t (map BlockchainEvent.timestamp (DocumentAsset.events d)) ->
                               t <= clock e (clockReads w))).
  - intros op w [Henv Hinv].
    destruct (perform_effect op w) as (Henv' & Hle & _).
    split; [congruence|]. intros d' Hd'.
    destruct (perform_documents op w d' Hd')
      as [Hold | [(e0 & c & _ & _ & _ & Hev & _ & _ & Hts & Hc & Hclock)
                 | (d & e0 & Hd & -> & Hts & Hclock)]].
    + destruct (Hinv d' Hold) as [Hasc Hbound]. split; [exact Hasc|].
      intros t Ht. apply Z.le_trans with (clock e (clockReads w)); [now apply Hbound|].
      now apply Hmono.
    + rewrite Hev. cbn [map]. rewrite Hts, Henv, Hclock. split.
      * split; [intros ? [] | exact I].
      * intros t [<-|[]]. apply Hmono. lia.
    + destruct (eventApplied_fields (BlockchainEvent.type e0) e0 d)
        as (_ & _ & _ & _ & _ & _ & Hev).
      destruct (Hinv d Hd) as [Hasc Hbound].
      rewrite Hev, map_app. cbn [map]. rewrite Hts, Henv, Hclock. split.
      * apply ascending_snoc. split; [exact Hasc|].
        intros u Hu. apply Z.le_trans with (clock e (clockReads w)); [now apply Hbound|].
        apply Hmono. lia.
      * intros t Ht. apply in_app_or in Ht. destruct Ht as [Ht|[<-|[]]].
        -- apply Z.le_trans with (clock e (clockReads w)); [now apply Hbound|].
           apply Hmono. lia.
        -- apply Hmono. lia.
  - split; [reflexivity|]. intros d [].
Qed.

Lemma timestamps_ascend_witness :
  match documentNamed demoId
          (run [upload Node; act Node EventType.APPROVAL "00";
                act Node EventType.SIGNATURE "00"] (loadModule demoEnv)) with
  | Some d => ascending (map BlockchainEvent.timestamp (DocumentAsset.events d))
  | None => False
  end.
Proof.
  pose proof (timestamps_ascend Node
                [upload Node; act Node EventType.APPROVAL "00";
                 act Node EventType.SIGNATURE "00"] demoEnv) as Hall.
  destruct (documentNamed demoId
              (run [upload Node; act Node EventType.APPROVAL "00";
                    act Node EventType.SIGNATURE "00"] (loadModule demoEnv)))
    as [d|] eqn:Hd; [|vm_compute in Hd; discriminate Hd].
  apply Hall.
  - intros i j Hij. cbn [clock demoEnv]. lia.
  - vm_compute in Hd. injection Hd as <-. vm_compute. left. reflexivity.
Defined.

Lemma status_is_replay_witness :
  match documentNamed demoId
          (run [upload Node; act Node EventType.SIGNATURE "00";
                act Node EventType.APPROVAL "00"] (loadModule demoEnv)) with
  | Some d => DocumentAsset.status d = replayStatus (DocumentAsset.events d)
  | None => False
  end.
Proof.
  pose proof (status_is_replay Node
                [upload Node; act Node EventType.SIGNATURE "00";
                 act Node EventType.APPROVAL "00"] demoEnv) as Hall.
  destruct (documentNamed demoId
              (run [upload Node; act Node EventType.SIGNATURE "00";
                    act Node EventType.APPROVAL "00"] (loadModule demoEnv)))
    as [d|] eqn:Hd; [|vm_compute in Hd; discriminate Hd].
  apply Hall. vm_compute in Hd. injection Hd as <-. vm_compute. left. reflexivity.
Defined.

(** ** Unique ids *)

Section UniqueFacts.

Lemma find_unique (l : list DocumentAsset.t) d :
  NoDup (map DocumentAsset.id l) -> In d l -> find (hasId (DocumentAsset.id d)) l = Some d.
Proof.
  induction l as [|a rest IH]; intros Hnd Hin; [destruct Hin|].
  cbn [map] in Hnd. apply NoDup_cons_iff in Hnd. destruct Hnd as [Hnot Hnd].
  cbn [find]. destruct Hin as [->|Hin].
  - assert (hasId (DocumentAsset.id d) d = true) as -> by now apply hasId_true.
    reflexivity.
  - destruct (hasId (DocumentAsset.id d) a) eqn:Ha; [|auto].
    exfalso. apply Hnot. apply hasId_true in Ha. rewrite Ha. now apply in_map.
Qed.

Lemma NoDup_insert {A} (a : A) (l1 l2 : list A) :
  NoDup (l1 ++ l2) -> ~ In a (l1 ++ l2) -> NoDup (l1 ++ a :: l2).
Proof.
  induction l1 as [|b l1 IH]; cbn [app]; intros Hnd Hnot.
  - now constructor.
  - apply NoDup_cons_iff in Hnd. destruct Hnd as [Hb Hnd].
    constructor.
    + rewrite in_app_iff in Hb |- *. cbn [In]. intros [H|[->|H]]; [tauto | | tauto].
      apply Hnot. now left.
    + apply IH; [exact Hnd|]. intros H. apply Hnot. now right.
Qed.

End UniqueFacts.

(** X11.  On a clock that advances at every reading no two documents
    share an id, after every run of operations; and then every document of
    the ledger is the one its id names, so that [addEvent] and
    [getDocumentHistory] reach it. *)
Theorem ids_unique_on_strict_clock (s : Service) (ops : list (Operation s)) (e : Env) :
  clockStrict e ->
  let w := run ops (loadModule e) in
  NoDup (map DocumentAsset.id (allDocuments (transactions w)))
  /\ forall d, In d (allDocuments (transactions w)) ->
       documentNamed (DocumentAsset.id d) w = Some d.
Proof.
  intros Hstrict w.
  assert (NoDup (map DocumentAsset.id (allDocuments (transactions w)))) as Hnd.
  { subst w.
    assert (forall w,
              env w = e
              /\ NoDup (map DocumentAsset.id (allDocuments (transactions w)))
              /\ (forall d, In d (allDocuments (transactions w)) ->
                    exists k, (k < clockReads w)%nat
                              /\ DocumentAsset.id d
                                 = ("DOC-" ++ Text.decimal (clock e k))%string) ->
              NoDup (map DocumentAsset.id (allDocuments (transactions w)))) as Hweak
      by (intros w H; apply H).
    apply Hweak. clear Hweak.
    apply (run_invariant
             (fun w => env w = e
                       /\ NoDup (map DocumentAsset.id (allDocuments (transactions w)))
                       /\ forall d, In d (allDocuments (transactions w)) ->
                            exists k, (k < clockReads w)%nat
                                      /\ DocumentAsset.id d
                                         = ("DOC-" ++ Text.decimal (clock e k))%string)).
    - intros op w (Henv & Hnd & Hids).
      destruct (perform_effect op w)
        as (Henv' & Hle
            & [Hsame
              | [(before & x & after & doc & e0 & c & file & Hw & Hafter & Hid & _ & _
                  & _ & _ & _ & _ & _ & Hc & Hclock)
                | (tb & x & ta & db & d & da & docId & type & e0 & Hw & Hdocs & Hafter
                   & Hdocs' & _ & _ & Hclock)]]).
      + split; [congruence|]. rewrite Hsame. split; [exact Hnd|].
        intros d Hd. destruct (Hids d Hd) as (k & Hk & Hidk). exists k. split; [lia | exact Hidk].
      + split; [congruence|]. rewrite Henv in Hid.
        rewrite Hafter. rewrite Hw in Hnd, Hids.
        rewrite allDocuments_middle in Hnd |- *.
        cbn [Transaction.documents Transaction.setDocuments].
        split.
        * rewrite <- app_assoc. cbn [app]. rewrite !map_app in Hnd |- *. cbn [map].
          rewrite app_assoc. apply NoDup_insert; [now rewrite <- app_assoc|].
          rewrite <- app_assoc, <- !map_app. intros Hin. apply in_map_iff in Hin.
          destruct Hin as (d & Hdid & Hd).
          destruct (Hids d) as (k & Hk & Hidk).
          { rewrite allDocuments_middle. exact Hd. }
          rewrite Hid, Hidk in Hdid. apply append_inj_l, decimal_inj in Hdid.
          assert (k < 2 + c)%nat as Hlt by lia.
          pose proof (Hstrict _ _ Hlt). lia.
        * intros d Hd. rewrite !in_app_iff in Hd. cbn [In] in Hd.
          assert (In d (allDocuments (before ++ x :: after)) \/ d = doc) as [Hold| ->].
          { rewrite in_allDocuments_middle. intuition auto. }
          -- destruct (Hids d Hold) as (k & Hk & Hidk). exists k. split; [lia | exact Hidk].
          -- exists (2 + c)%nat. split; [lia | exact Hid].
      + split; [congruence|].
        assert (map DocumentAsset.id (allDocuments (transactions (perform op w)))
                = map DocumentAsset.id (allDocuments (transactions w))) as Hsameids.
        { rewrite Hafter, Hw, !allDocuments_middle, Hdocs', Hdocs, !map_app. cbn [map].
          now destruct (eventApplied_fields type e0 d) as (-> & _). }
        rewrite Hsameids. split; [exact Hnd|].
        intros d' Hd'.
        assert (In (DocumentAsset.id d')
                   (map DocumentAsset.id (allDocuments (transactions w)))) as Hin
          by (rewrite <- Hsameids; now apply in_map).
        apply in_map_iff in Hin. destruct Hin as (d0 & Hid0 & Hd0).
        destruct (Hids d0 Hd0) as (k & Hk & Hidk).
        exists k. split; [lia | congruence].
    - split; [reflexivity|]. split; [constructor | intros d []]. }
  split; [exact Hnd|].
  intros d Hd. rewrite documentNamed_find. now apply find_unique.
Qed.

Lemma ids_unique_on_strict_clock_witness :
  NoDup (map DocumentAsset.id
           (allDocuments
              (transactions (run [upload Node; upload Node] (loadModule demoEnv))))).
Proof.
  apply (ids_unique_on_strict_clock Node [upload Node; upload Node] demoEnv).
  intros i j Hij. cbn [clock demoEnv]. lia.
Defined.

(** ** Verification over time *)

Section CarriedFacts.

Lemma in_allDocuments txs d :
  In d (allDocuments txs) <-> exists x, In x txs /\ In d (Transaction.documents x).
Proof. unfold allDocuments. apply in_flat_map. Qed.

Lemma carried_documents hash txs :
  carried hash txs
  <-> exists d e, In d (allDocuments txs) /\ In e (DocumentAsset.events d)
                  /\ BlockchainEvent.docHash e = hash.
Proof.
  unfold carried. split.
  - intros (x & d & e & Hx & Hd & He & Hh). exists d, e. split; [|auto].
    apply in_allDocuments. now exists x.
  - intros (d & e & Hd & He & Hh). apply in_allDocuments in Hd.
    destruct Hd as (x & Hx & Hd). now exists x, d, e.
Qed.

Lemma carried_perform {s} (op : Operation s) hash w :
  carried hash (transactions w) -> carried hash (transactions (perform op w)).
Proof.
  rewrite !carried_documents. intros (d & e & Hd & He & Hh).
  destruct (perform_keeps op w d Hd) as (d' & more & Hd' & _ & Hev).
  exists d', e. split; [exact Hd'|]. split; [|exact Hh].
  rewrite Hev. apply in_or_app. now left.
Qed.

Lemma verified_carried s file w :
  VerificationResult.verified (fst (verifyDocumentOf s file w)) = true
  <-> carried (hashIn s file w) (transactions w).
Proof. rewrite verified_result, verified_stated. apply firstMatch_some. Qed.

End CarriedFacts.

(** X12.  Verification is never withdrawn: where the hash is SHA-256
    (the Node service, the browser service with [crypto.subtle]), a file
    that verifies keeps verifying after every run of operations. *)
Theorem verification_persists (s : Service) (file : File.t) (ops : list (Operation s))
    (w : World) :
  s = Node \/ subtleCrypto (env w) = true ->
  VerificationResult.verified (fst (verifyDocumentOf s file w)) = true ->
  VerificationResult.verified (fst (verifyDocumentOf s file (run ops w))) = true.
Proof.
  intros Hsha. rewrite !verified_carried.
  rewrite (hashIn_sha256 s file w Hsha).
  rewrite (hashIn_sha256 s file (run ops w)) by (now rewrite env_run).
  apply (run_invariant (fun w' => carried (sha256Hex (File.content file)) (transactions w'))).
  intros op w'. apply carried_perform.
Qed.

Lemma verification_persists_witness :
  VerificationResult.verified
    (fst (verifyDocumentOf Node demoFile
            (run [act Node EventType.RECORDED "00"; upload Node]
               (snd (createDocumentOf Node "TX-2024-8492" demoFile "Test Document"
                       "test@example.com" UserRole.ATTORNEY (loadModule demoEnv))))))
  = true.
Proof.
  apply (verification_persists Node demoFile [act Node EventType.RECORDED "00"; upload Node]).
  - left. reflexivity.
  - vm_compute. reflexivity.
Defined.

(** X13.  The ledger trusts the hash a caller asserts: after [addEvent]
    of any type on an existing document with the SHA-256 of some file as
    its hash, that file verifies, whatever the document was created from. *)
Theorem asserted_hash_verifies (s : Service) (docId : string) (type : EventType.t)
    (actor : string) (role : UserRole.t) (metadata : option Metadata) (file : File.t)
    (w : World) :
  s = Node \/ subtleCrypto (env w) = true ->
  ~ unknownDocument (transactions w) docId ->
  VerificationResult.verified
    (fst (verifyDocumentOf s file
            (perform (AddEvent s docId type actor role (sha256Hex (File.content file))
                        metadata) w)))
  = true.
Proof.
  intros Hsha Hknown. rewrite <- locate_none in Hknown.
  destruct (locate (transactions w) docId) as [[x d]|] eqn:Hloc; [|congruence].
  destruct (addEvent_located s docId type actor role (sha256Hex (File.content file))
              metadata w x d Hloc) as (e & _ & Hh & _ & _ & _ & Hafter).
  apply verified_carried.
  rewrite hashIn_sha256
    by (destruct (perform_effect
                    (AddEvent s docId type actor role (sha256Hex (File.content file))
                       metadata) w) as (-> & _); exact Hsha).
  apply locate_some in Hafter. destruct Hafter as (Hx & Hd & _).
  exists (transactionApplied docId type e x), (eventApplied type e d), e.
  repeat split; auto.
  destruct (eventApplied_fields type e d) as (_ & _ & _ & _ & _ & _ & ->).
  apply in_or_app. right. now left.
Qed.

Lemma asserted_hash_verifies_witness :
  VerificationResult.verified
    (fst (verifyDocumentOf Node otherFile
            (perform (AddEvent Node demoId EventType.VIEW "a@b.c" UserRole.BORROWER
                        (sha256Hex (File.content otherFile)) None)
               (perform (upload Node) (loadModule demoEnv)))))
  = true.
Proof.
  apply (asserted_hash_verifies Node demoId EventType.VIEW "a@b.c" UserRole.BORROWER None
           otherFile (perform (upload Node) (loadModule demoEnv))).
  - left. reflexivity.
  - rewrite <- locate_none. vm_compute. discriminate.
Defined.

(** ** The two services side by side *)

(** X14.  With [crypto.subtle] at hand the browser service does what the
    Node service does: [createDocument] returns the same document and
    leaves the same world, [addEvent] leaves the same world, and
    [verifyDocument] reports the same verdict, document and matching
    event, without the transaction. *)
Theorem services_agree (w : World) :
  subtleCrypto (env w) = true ->
  (forall tid file docType actor role,
     BlockchainService.createDocument tid file docType actor role w
     = BlockchainServiceNode.createDocument tid file docType actor role w)
  /\ (forall docId type actor role hash metadata,
        snd (BlockchainService.addEvent docId type actor role hash metadata w)
        = snd (BlockchainServiceNode.addEvent docId type actor role hash metadata w))
  /\ (forall file,
        let browser := BlockchainService.verifyDocument file w in
        let node := BlockchainServiceNode.verifyDocument file w in
        snd browser = snd node
        /\ VerificationResult.verified (fst browser) = VerificationResult.verified (fst node)
        /\ VerificationResult.doc (fst browser) = VerificationResult.doc (fst node)
        /\ VerificationResult.matchedEvent (fst browser)
           = VerificationResult.matchedEvent (fst node)
        /\ VerificationResult.transaction (fst browser) = None).
Proof.
  intros Hsubtle.
  assert (forall file, BlockchainService.computeFileHash file w
                       = BlockchainServiceNode.computeFileHash file w) as Hhash
    by (intros file; unfold BlockchainService.computeFileHash; now rewrite Hsubtle).
  split; [|split].
  - intros tid file docType actor role.
    unfold BlockchainService.createDocument, BlockchainServiceNode.createDocument.
    unfold bind, readTransactions. cbn beta iota.
    destruct (findIndex (isTransaction tid) (transactions w)); [|reflexivity].
    now rewrite Hhash.
  - intros. now rewrite browser_addEvent.
  - intros file. cbv zeta.
    assert (snd (BlockchainService.verifyDocument file w)
            = snd (BlockchainServiceNode.verifyDocument file w)) as Hworld.
    { unfold BlockchainService.verifyDocument, BlockchainServiceNode.verifyDocument.
      unfold bind. now rewrite Hhash. }
    split; [exact Hworld|].
    pose proof (verifyDocument_result Browser file w) as Hb.
    pose proof (verifyDocument_result Node file w) as Hn.
    cbn [verifyDocumentOf] in Hb, Hn. rewrite Hb, Hn.
    rewrite (hashIn_sha256 Browser file w (or_intror Hsubtle)).
    rewrite (hashIn_sha256 Node file w (or_introl eq_refl)).
    unfold verificationWithoutTransaction, verificationStated.
    destruct (firstMatch _ _) as [[[x d] e]|]; repeat split.
Qed.

Lemma services_agree_witness :
  BlockchainService.createDocument "TX-2024-8492" demoFile "Test Document"
    "test@example.com" UserRole.ATTORNEY (loadModule demoEnv)
  = BlockchainServiceNode.createDocument "TX-2024-8492" demoFile "Test Document"
      "test@example.com" UserRole.ATTORNEY (loadModule demoEnv).
Proof.
  apply (proj1 (services_agree (loadModule demoEnv) eq_refl)).
Defined.

(** ** Documents that share an id *)

Section ShadowFacts.

Lemma updateFirst_app {A} (p : A -> bool) (f : A -> A) l1 l2 :
  updateFirst p f (l1 ++ l2)
  = if existsb p l1 then updateFirst p f l1 ++ l2 else l1 ++ updateFirst p f l2.
Proof.
  induction l1 as [|a rest IH]; cbn [app updateFirst existsb]; [reflexivity|].
  destruct (p a); cbn [orb]; [reflexivity|].
  rewrite IH. now destruct (existsb p rest).
Qed.

Lemma updateFirst_keeps {A} (p : A -> bool) (f : A -> A) l a :
  In a l -> p a = false -> In a (updateFirst p f l).
Proof.
  induction l as [|b rest IH]; cbn [updateFirst]; [auto|].
  intros [->|Hin] Ha.
  - rewrite Ha. now left.
  - destruct (p b); [now right | right; auto].
Qed.

Lemma updateFirst_same_id (docId : string) (f : DocumentAsset.t -> DocumentAsset.t) l d :
  (forall y, DocumentAsset.id (f y) = DocumentAsset.id y) ->
  In d l ->
  exists d', In d' (updateFirst (hasId docId) f l)
             /\ DocumentAsset.id d' = DocumentAsset.id d.
Proof.
  intros Hf. induction l as [|b rest IH]; cbn [updateFirst]; [intros []|].
  intros [->|Hin].
  - destruct (hasId docId d); [exists (f d) | exists d]; split; auto; now left.
  - destruct (hasId docId b).
    + exists d. split; [now right | reflexivity].
    + destruct (IH Hin) as (d' & Hd' & Hid). exists d'. split; [now right | exact Hid].
Qed.

(** The documents of the ledger, read in order, after the loop of
    [addEvent] has applied an event. *)
Lemma allDocuments_applied docId type e txs :
  allDocuments (updateFirst (holds docId) (transactionApplied docId type e) txs)
  = updateFirst (hasId docId) (eventApplied type e) (allDocuments txs).
Proof.
  induction txs as [|x rest IH]; cbn [updateFirst allDocuments flat_map]; [reflexivity|].
  rewrite updateFirst_app. fold (holds docId x).
  destruct (holds docId x); cbn [allDocuments flat_map].
  - now rewrite transactionApplied_documents.
  - f_equal. exact IH.
Qed.

Lemma existsb_false {A} (p : A -> bool) l :
  existsb p l = false -> forall a, In a l -> p a = false.
Proof.
  intros H a Ha. destruct (p a) eqn:Hp; [|reflexivity].
  rewrite <- H. symmetry. apply existsb_exists. now exists a.
Qed.

(** The documents of the ledger, read in order, after one operation:
    the same, or with one new document put in, or with an event applied
    to the first document of some id. *)
Lemma perform_flat {s} (op : Operation s) w :
  allDocuments (transactions (perform op w)) = allDocuments (transactions w)
  \/ (exists front back doc,
        allDocuments (transactions w) = front ++ back
        /\ allDocuments (transactions (perform op w)) = front ++ doc :: back)
  \/ (exists docId type e,
        allDocuments (transactions (perform op w))
        = updateFirst (hasId docId) (eventApplied type e) (allDocuments (transactions w))).
Proof.
  destruct op as [s tid file docType actor role | s docId type actor role hash metadata
                 | s file | s | s id | | docId].
  - assert (perform (CreateDocument s tid file docType actor role) w
            = snd (createDocumentOf s tid file docType actor role w)) as ->
      by now destruct s.
    destruct (findIndex (isTransaction tid) (transactions w)) as [i|] eqn:Hi.
    + right. left.
      destruct (createDocument_known s tid file docType actor role w i Hi)
        as (block & c & Hc & _).
      cbv zeta in Hc. rewrite Hc. cbn [snd transactions].
      destruct (findIndex_some _ _ _ Hi) as (before & x & after & Htxs & _ & _ & Hupd).
      rewrite Hupd, Htxs, !allDocuments_middle.
      cbn [Transaction.documents Transaction.setDocuments].
      eexists (allDocuments before ++ Transaction.documents x), (allDocuments after), _.
      rewrite <- !app_assoc. split; reflexivity.
    + left. now rewrite (createDocument_unknown s tid file docType actor role w Hi).
  - destruct (locate (transactions w) docId) as [[x d]|] eqn:Hloc.
    + right. right.
      destruct (addEvent_located s docId type actor role hash metadata w x d Hloc)
        as (e & _ & _ & _ & _ & Htxs & _).
      exists docId, type, e. rewrite Htxs. apply allDocuments_applied.
    + left. rewrite perform_addEvent.
      now rewrite (node_addEvent_missing docId type actor role hash metadata w Hloc).
  - left. destruct (computeFileHash_spec s file w) as (c & Hhash & _).
    destruct s; cbn [perform];
      [unfold BlockchainService.verifyDocument
      |unfold BlockchainServiceNode.verifyDocument];
      unfold bind at 1; rewrite Hhash; reflexivity.
  - left. now destruct s.
  - left. now destruct s.
  - now left.
  - now left.
Qed.

Lemma shadowed_perform {s} (op : Operation s) w d :
  shadowed d (transactions w) -> shadowed d (transactions (perform op w)).
Proof.
  intros (earlier & later & first & Hsplit & Hfirst & Hid & Hd). unfold shadowed.
  destruct (perform_flat op w)
    as [-> | [(front & back & doc & Hw & ->) | (docId & type & e & ->)]].
  - now exists earlier, later, first.
  - rewrite Hw in Hsplit. apply app_eq_app in Hsplit.
    destruct Hsplit as (m & [[Hl Hr] | [Hl Hr]]).
    + exists earlier, (m ++ doc :: back), first. rewrite Hl, <- app_assoc.
      repeat split; auto.
      rewrite Hr in Hd. apply in_app_or in Hd. apply in_or_app.
      destruct Hd as [Hd|Hd]; [now left | right; now right].
    + exists (front ++ doc :: m), later, first. rewrite Hr, <- app_assoc.
      repeat split; auto.
      rewrite Hl in Hfirst. apply in_app_or in Hfirst. apply in_or_app.
      destruct Hfirst as [H|H]; [now left | right; now right].
  - rewrite Hsplit, updateFirst_app.
    destruct (existsb (hasId docId) earlier) eqn:Hex.
    + destruct (updateFirst_same_id docId (eventApplied type e) earlier first)
        as (first' & Hin' & Hid'); [|exact Hfirst|].
      * intros y. now destruct (eventApplied_fields type e y) as (-> & _).
      * exists (updateFirst (hasId docId) (eventApplied type e) earlier), later, first'.
        repeat split; auto. congruence.
    + exists earlier, (updateFirst (hasId docId) (eventApplied type e) later), first.
      repeat split; auto. apply updateFirst_keeps; [exact Hd|].
      pose proof (existsb_false _ _ Hex first Hfirst) as Hp.
      apply hasId_false in Hp. apply hasId_false. congruence.
Qed.

End ShadowFacts.

(** X15.  A document whose id is already the id of an earlier document
    of the ledger is out of reach: after every run of operations it is
    still in the ledger exactly as it was, behind a document of the same
    id, so no [addEvent] has ever changed its events or its status. *)
Theorem shadowed_document_never_changes (s : Service) (ops : list (Operation s))
    (w : World) (d : DocumentAsset.t) :
  shadowed d (transactions w) -> shadowed d (transactions (run ops w)).
Proof.
  apply (run_invariant (fun w' => shadowed d (transactions w'))).
  intros op w'. apply shadowed_perform.
Qed.

Lemma shadowed_document_never_changes_witness :
  match allDocuments
          (transactions (run [upload Node; upload Node] (loadModule sameMillisecondEnv))) with
  | [_; second] =>
      shadowed second
        (transactions
           (run [AddEvent Node "DOC-1700000000000" EventType.SIGNATURE "ceo@example.com"
                   UserRole.BORROWER "00" None]
              (run [upload Node; upload Node] (loadModule sameMillisecondEnv))))
  | _ => False
  end.
Proof.
  destruct (allDocuments
              (transactions (run [upload Node; upload Node] (loadModule sameMillisecondEnv))))
    as [|first [|second [|third rest]]] eqn:Hdocs;
    try (vm_compute in Hdocs; discriminate Hdocs).
  apply (shadowed_document_never_changes Node
           [AddEvent Node "DOC-1700000000000" EventType.SIGNATURE "ceo@example.com"
              UserRole.BORROWER "00" None]
           (run [upload Node; upload Node] (loadModule sameMillisecondEnv)) second).
  exists [first], [second], first. rewrite Hdocs.
  split; [reflexivity|]. split; [now left|]. split; [|now left].
  vm_compute in Hdocs. injection Hdocs as <- <-. reflexivity.
Defined.

(** * The web demo *)

(** ** The hash of the pages *)

Section MockHashFacts.

Lemma toInt32_range x : - 2 ^ 31 <= Int32.toInt32 x < 2 ^ 31.
Proof.
  unfold Int32.toInt32. pose proof (Z.mod_pos_bound (x + 2 ^ 31) (2 ^ 32) eq_refl). lia.
Qed.

(** [toInt32] only looks at the value modulo [2^32]. *)
Lemma toInt32_shift x k : Int32.toInt32 (x + k * 2 ^ 32) = Int32.toInt32 x.
Proof.
  unfold Int32.toInt32.
  replace (x + k * 2 ^ 32 + 2 ^ 31) with (x + 2 ^ 31 + k * 2 ^ 32) by ring.
  now rewrite Z_mod_plus_full.
Qed.

Lemma toInt32_lift x : exists k, Int32.toInt32 x = x + k * 2 ^ 32.
Proof.
  exists (- ((x + 2 ^ 31) / 2 ^ 32)). unfold Int32.toInt32.
  rewrite Z.mod_eq by discriminate. ring.
Qed.

Lemma toInt32_fixed x : - 2 ^ 31 <= x < 2 ^ 31 -> Int32.toInt32 x = x.
Proof.
  intros H. unfold Int32.toInt32. rewrite Z.mod_small; lia.
Qed.

(** One turn of the loop multiplies by 31 and adds the code unit, in 32
    bits. *)
Lemma mix_31 hash char : MockData.mix hash char = Int32.toInt32 (31 * hash + char).
Proof.
  unfold MockData.mix, Int32.and, Int32.shiftLeft. cbv zeta.
  rewrite Z.land_diag, (toInt32_fixed (Int32.toInt32 _)) by apply toInt32_range.
  change (5 mod 32) with 5. rewrite Z.shiftl_mul_pow2 by lia.
  destruct (toInt32_lift hash) as (k1 & ->).
  destruct (toInt32_lift ((hash + k1 * 2 ^ 32) * 2 ^ 5)) as (k2 & ->).
  replace ((hash + k1 * 2 ^ 32) * 2 ^ 5 + k2 * 2 ^ 32 - hash + char)
    with (31 * hash + char + (32 * k1 + k2) * 2 ^ 32) by ring.
  apply toInt32_shift.
Qed.

Lemma mix_twice hash a b :
  MockData.mix (MockData.mix hash a) b = Int32.toInt32 (961 * hash + 31 * a + b).
Proof.
  rewrite !mix_31. destruct (toInt32_lift (31 * hash + a)) as (k & ->).
  replace (31 * (31 * hash + a + k * 2 ^ 32) + b)
    with (961 * hash + 31 * a + b + (31 * k) * 2 ^ 32) by ring.
  apply toInt32_shift.
Qed.

Lemma fold_mix_range content :
  - 2 ^ 31 <= fold_left MockData.mix content 0 < 2 ^ 31.
Proof.
  destruct content as [|c rest] using rev_ind; [cbn [fold_left]; lia|].
  rewrite fold_left_app. cbn [fold_left]. rewrite mix_31. apply toInt32_range.
Qed.

Lemma isLowerHex_digitChar d : 0 <= d < 16 -> Text.isLowerHex (Text.digitChar d) = true.
Proof.
  apply (below_by_running (fun d => Text.isLowerHex (Text.digitChar d)) 16).
  vm_compute. reflexivity.
Qed.

Lemma digitsOf_hex fuel : forall n, 0 <= n ->
  forallb Text.isLowerHex (Text.digitsOf 16 fuel n) = true.
Proof.
  induction fuel as [|fuel IH]; intros n Hn; [reflexivity|].
  cbn [Text.digitsOf]. destruct (Z.ltb_spec n 16).
  - cbn [forallb]. rewrite isLowerHex_digitChar; [reflexivity | lia].
  - rewrite forallb_app, IH by (apply Z.div_pos; lia).
    cbn [forallb]. rewrite isLowerHex_digitChar; [reflexivity|].
    pose proof (Z.mod_pos_bound n 16). lia.
Qed.

(** A number below [16^k] prints on at most [k] hex digits. *)
Lemma digitsOf_short (k : nat) : forall fuel n,
  0 <= n < 16 ^ Z.of_nat (S k) ->
  (List.length (Text.digitsOf 16 fuel n) <= S k)%nat.
Proof.
  induction k as [|k IH]; intros fuel n Hn.
  - destruct fuel as [|fuel]; [cbn; lia|]. cbn [Text.digitsOf].
    change (16 ^ Z.of_nat 1) with 16 in Hn.
    destruct (Z.ltb_spec n 16); [cbn; lia | lia].
  - destruct fuel as [|fuel]; [cbn; lia|]. cbn [Text.digitsOf].
    destruct (Z.ltb_spec n 16); [cbn; lia|].
    rewrite length_app. cbn [List.length].
    assert (List.length (Text.digitsOf 16 fuel (n / 16)) <= S k)%nat; [|lia].
    apply IH. rewrite (Nat2Z.inj_succ (S k)), Z.pow_succ_r in Hn by lia.
    split; [apply Z.div_pos; lia | apply Z.div_lt_upper_bound; lia].
Qed.

Lemma padStart_shape width fill s :
  (String.length s <= width)%nat ->
  String.length (Text.padStart width fill s) = width.
Proof.
  intros H. unfold Text.padStart.
  rewrite length_append, length_string_of_list, repeat_length. lia.
Qed.

Lemma padStart_chars p width fill s :
  p fill = true -> Text.allChars p s = true ->
  Text.allChars p (Text.padStart width fill s) = true.
Proof.
  intros Hfill Hs. unfold Text.padStart.
  rewrite allChars_append, allChars_of_list, Hs, andb_true_r.
  induction (width - String.length s)%nat as [|n IH]; [reflexivity|].
  cbn [repeat forallb]. now rewrite Hfill, IH.
Qed.

Lemma isLowerHex_isHexDigit s :
  Text.allChars Text.isLowerHex s = true -> Text.allChars isHexDigit s = true.
Proof.
  unfold Text.allChars. rewrite !forallb_forall. intros H c Hc.
  specialize (H c Hc). unfold Text.isLowerHex in H. unfold isHexDigit.
  cbv zeta in *. now rewrite H.
Qed.

(** The block [computeHash] repeats: 8 characters of [0-9a-f]. *)
Lemma hashBlock_shape content :
  let block := Text.padStart 8 "0"
                 (Text.toString 16 (Z.abs (fold_left MockData.mix content 0))) in
  String.length block = 8%nat /\ Text.allChars Text.isLowerHex block = true.
Proof.
  cbv zeta. set (hash := fold_left MockData.mix content 0).
  pose proof (fold_mix_range content) as Hrange. fold hash in Hrange.
  unfold Text.toString. destruct (Z.ltb_spec (Z.abs hash) 0); [lia|]. split.
  - apply padStart_shape. rewrite length_string_of_list.
    apply (digitsOf_short 7). change (16 ^ Z.of_nat 8) with (2 ^ 32). lia.
  - apply padStart_chars; [reflexivity|].
    rewrite allChars_of_list. apply digitsOf_hex. lia.
Qed.

Lemma computeHash_hex content :
  String.length (MockData.computeHash content) = 64%nat
  /\ Text.allChars Text.isLowerHex (MockData.computeHash content) = true.
Proof.
  destruct (hashBlock_shape content) as [Hlen Hhex]. cbv zeta in Hlen, Hhex.
  unfold MockData.computeHash. cbv zeta.
  set (block := Text.padStart 8 "0" _) in *.
  assert (Forall (fun s => String.length s = 8%nat
                           /\ Text.allChars Text.isLowerHex s = true) (repeat block 8))
    as Hparts by (repeat constructor; assumption).
  destruct (join_pieces 8 _ Hparts) as [Hl Hc].
  rewrite repeat_length in Hl. now split.
Qed.

End MockHashFacts.

(** X16.  [computeHash] of the web demo always returns 64 characters of
    [0-9a-f], so a string [HashSchema] accepts; the 64 characters are one
    block of 8 written 8 times, the hex digits of the absolute value of a
    32-bit number. *)
Theorem computeHash_shape (content : list Z) :
  exists block,
    MockData.computeHash content = Text.join (repeat block 8)
    /\ String.length block = 8%nat
    /\ Text.allChars Text.isLowerHex block = true
    /\ String.length (MockData.computeHash content) = 64%nat
    /\ isValidHash (MockData.computeHash content) = true.
Proof.
  destruct (hashBlock_shape content) as [Hlen Hhex]. cbv zeta in Hlen, Hhex.
  destruct (computeHash_hex content) as [Hl Hc].
  eexists. split; [reflexivity|]. split; [exact Hlen|]. split; [exact Hhex|].
  split; [exact Hl|].
  unfold isValidHash. rewrite Hl. now rewrite (isLowerHex_isHexDigit _ Hc).
Qed.

(** X17.  [computeHash] does not tell contents apart that differ by the
    two characters [Aa] against [BB], wherever they stand: the two
    contents get the same hash. *)
Theorem computeHash_collides (before after : list Z) :
  MockData.computeHash (before ++ unitsOf "Aa" ++ after)
  = MockData.computeHash (before ++ unitsOf "BB" ++ after)
  /\ before ++ unitsOf "Aa" ++ after <> before ++ unitsOf "BB" ++ after.
Proof.
  split.
  - unfold MockData.computeHash. cbv zeta.
    rewrite !fold_left_app. change (unitsOf "Aa") with [65; 97].
    change (unitsOf "BB") with [66; 66]. cbn [fold_left].
    rewrite !mix_twice.
    set (h := fold_left MockData.mix before 0).
    replace (961 * h + 31 * 65 + 97) with (961 * h + 31 * 66 + 66) by lia.
    reflexivity.
  - intros H. apply app_inv_head in H. discriminate H.
Qed.

(** ** Verification on the web demo *)

(** X18.  [verifyDocument] of the web demo looks at current hashes only:
    it reports [verified] exactly when some document of the ledger has
    the hash as its [currentHash], and then returns a document with that
    current hash together with a transaction of the ledger that holds it;
    otherwise it returns neither. *)
Theorem web_verifyDocument_current_hash (txs : list WebTransaction.t) (hash : string) :
  let result := MockData.verifyDocument txs hash in
  (WebVerification.verified result = true
   <-> exists x doc,
         In x txs /\ In doc (WebTransaction.documents x)
         /\ WebDocument.currentHash doc = hash)
  /\ (WebVerification.verified result = true ->
      exists x doc,
        WebVerification.document result = Some doc
        /\ WebVerification.transaction result = Some x
        /\ In x txs /\ In doc (WebTransaction.documents x)
        /\ WebDocument.currentHash doc = hash)
  /\ (WebVerification.verified result = false ->
      WebVerification.document result = None
      /\ WebVerification.transaction result = None).
Proof.
  cbv zeta. induction txs as [|x rest (IHiff & IHsome & IHnone)]; cbn [MockData.verifyDocument].
  - cbn. split; [|split].
    + split; [discriminate | intros (? & ? & [] & _)].
    + discriminate.
    + auto.
  - destruct (find (fun doc => (WebDocument.currentHash doc =? hash)%string)
                (WebTransaction.documents x)) as [doc|] eqn:Hfind.
    + apply find_some in Hfind. destruct Hfind as [Hin Heq]. apply String.eqb_eq in Heq.
      cbn. split; [|split].
      * split; [|reflexivity]. intros _. exists x, doc. split; [now left | auto].
      * intros _. exists x, doc.
        split; [reflexivity|]. split; [reflexivity|]. split; [now left | auto].
      * discriminate.
    + split; [|split].
      * rewrite IHiff. split.
        -- intros (y & doc & Hy & Hdoc & Hh). exists y, doc.
           split; [now right | auto].
        -- intros (y & doc & [<-|Hy] & Hdoc & Hh); [|now exists y, doc].
           pose proof (find_none _ _ Hfind doc Hdoc) as Hne. cbn in Hne.
           apply String.eqb_neq in Hne. contradiction.
      * intros Hv. destruct (IHsome Hv) as (y & doc & Hd & Ht & Hy & Hdoc & Hh).
        exists y, doc. split; [exact Hd|]. split; [exact Ht|]. split; [now right | auto].
      * exact IHnone.
Qed.

Lemma web_verifyDocument_current_hash_witness :
  WebVerification.verified
    (MockData.verifyDocument (MockData.mockTransactions (clock demoEnv))
       "b2c3d4e5f6789012345678901234567890abcdef1234567890abcdef123456789a")
  = true.
Proof.
  apply (proj1 (web_verifyDocument_current_hash
                  (MockData.mockTransactions (clock demoEnv))
                  "b2c3d4e5f6789012345678901234567890abcdef1234567890abcdef123456789a")).
  eexists _, _. split; [left; reflexivity|]. split; [right; left; reflexivity|]. reflexivity.
Defined.

Section MockLedgerFacts.

Lemma eqb_length (a b : string) :
  String.length a <> String.length b -> (a =? b)%string = false.
Proof. intros H. apply String.eqb_neq. intros ->. now apply H. Qed.

End MockLedgerFacts.

(** X19.  The verify page never verifies anything: whatever the content
    of the file, its [computeHash] is not the current hash of any
    document of [mockTransactions] (they have 66 characters, a hash has
    64), so [verifyDocument(computeHash(content))] is not verified. *)
Theorem verify_page_never_verifies (now : nat -> Z) (content : list Z) :
  MockData.verifyDocument (MockData.mockTransactions now) (MockData.computeHash content)
  = WebVerification.make false None None.
Proof.
  destruct (computeHash_hex content) as [Hlen _].
  generalize dependent (MockData.computeHash content). intros hash Hlen.
  unfold MockData.mockTransactions. cbn [MockData.verifyDocument WebTransaction.documents find
                                         WebDocument.currentHash].
  rewrite !eqb_length by (rewrite Hlen; cbn; discriminate).
  reflexivity.
Qed.

(** ** The audit trail *)

Section SortFacts.

Variable compare : AuditRow.t -> AuditRow.t -> Z.

Lemma insertSorted_permutation a rows :
  Permutation (a :: rows) (MockData.insertSorted compare a rows).
Proof.
  induction rows as [|b rest IH]; cbn [MockData.insertSorted]; [reflexivity|].
  destruct (compare a b <=? 0); [reflexivity|].
  rewrite perm_swap. now apply perm_skip.
Qed.

Lemma sort_permutation rows : Permutation rows (MockData.sort compare rows).
Proof.
  induction rows as [|a rest IH]; cbn; [constructor|].
  rewrite <- insertSorted_permutation. now apply perm_skip.
Qed.

End SortFacts.

Section AuditFacts.

Lemma insertSorted_descending a rows :
  descending (map MockData.rowTime rows) ->
  descending (map MockData.rowTime (MockData.insertSorted MockData.byTimeDescending a rows)).
Proof.
  induction rows as [|b rest IH]; cbn [MockData.insertSorted map descending].
  - intros _. split; [intros ? [] | exact I].
  - intros [Hb Hrest]. unfold MockData.byTimeDescending at 1.
    fold (MockData.rowTime a) (MockData.rowTime b).
    destruct (Z.leb_spec (MockData.rowTime b - MockData.rowTime a) 0) as [Hle|Hgt]; cbn [map descending].
    + split; [|split; assumption].
      intros u [<-|Hu]; [lia|]. specialize (Hb u Hu). lia.
    + split; [|now apply IH].
      intros u Hu.
      apply (Permutation_in u
               (Permutation_map MockData.rowTime
                  (Permutation_sym
                     (insertSorted_permutation MockData.byTimeDescending a rest)))) in Hu.
      cbn [map] in Hu. destruct Hu as [<-|Hu]; [lia | auto].
Qed.

Lemma sort_descending rows :
  descending (map MockData.rowTime (MockData.sort MockData.byTimeDescending rows)).
Proof.
  induction rows as [|a rest IH]; cbn; [exact I|]. now apply insertSorted_descending.
Qed.

Lemma totalEvents_count txs :
  MockData.totalEvents txs = Z.of_nat (List.length (MockData.collectEvents txs)).
Proof.
  unfold MockData.totalEvents, MockData.collectEvents.
  assert (forall docs name_of acc,
            fold_left (fun docAcc doc =>
                         docAcc + Z.of_nat (List.length (WebDocument.events doc))) docs acc
            = acc + Z.of_nat
                      (List.length
                         (flat_map (fun doc : WebDocument.t =>
                                      map (fun event => AuditRow.make event
                                                          (WebDocument.name doc) name_of)
                                          (WebDocument.events doc)) docs))) as Hdocs.
  { induction docs as [|doc rest IH]; intros name_of acc; cbn [fold_left flat_map].
    - cbn. lia.
    - rewrite (IH name_of), length_app, length_map. lia. }
  assert (forall acc,
            fold_left (fun acc x =>
                         acc + fold_left (fun docAcc doc =>
                                            docAcc
                                            + Z.of_nat (List.length (WebDocument.events doc)))
                                         (WebTransaction.documents x) 0) txs acc
            = acc + Z.of_nat
                      (List.length
                         (flat_map (fun x =>
                            flat_map (fun doc =>
                              map (fun event => AuditRow.make event (WebDocument.name doc)
                                                  (WebTransaction.id x))
                                  (WebDocument.events doc))
                              (WebTransaction.documents x)) txs))) as Hgen.
  { induction txs as [|x rest IH]; intros acc; cbn [fold_left flat_map].
    - cbn. lia.
    - rewrite IH, (Hdocs _ (WebTransaction.id x)), length_app. lia. }
  rewrite Hgen. lia.
Qed.

End AuditFacts.

(** X20.  [getAllEvents] returns every event of every document exactly
    once, each with the name of its document and the id of its
    transaction, ordered from the latest timestamp to the earliest; it has
    as many rows as the dashboard counts events. *)
Theorem getAllEvents_sorted (txs : list WebTransaction.t) :
  Permutation (MockData.collectEvents txs) (MockData.getAllEvents txs)
  /\ descending (map (fun row => WebEvent.timestamp (AuditRow.event row))
                     (MockData.getAllEvents txs))
  /\ (forall row,
        In row (MockData.getAllEvents txs)
        <-> exists x doc event,
              In x txs /\ In doc (WebTransaction.documents x)
              /\ In event (WebDocument.events doc)
              /\ row = AuditRow.make event (WebDocument.name doc) (WebTransaction.id x))
  /\ Z.of_nat (List.length (MockData.getAllEvents txs)) = MockData.totalEvents txs.
Proof.
  pose proof (sort_permutation MockData.byTimeDescending (MockData.collectEvents txs))
    as Hperm.
  split; [exact Hperm|]. split; [apply sort_descending|]. split.
  - intros row. split.
    + intros Hrow. apply (Permutation_in _ (Permutation_sym Hperm)) in Hrow.
      unfold MockData.collectEvents in Hrow. apply in_flat_map in Hrow.
      destruct Hrow as (x & Hx & Hrow). apply in_flat_map in Hrow.
      destruct Hrow as (doc & Hdoc & Hrow). apply in_map_iff in Hrow.
      destruct Hrow as (event & <- & Hevent). now exists x, doc, event.
    + intros (x & doc & event & Hx & Hdoc & Hevent & ->).
      apply (Permutation_in _ Hperm).
      unfold MockData.collectEvents. apply in_flat_map. exists x. split; [exact Hx|].
      apply in_flat_map. exists doc. split; [exact Hdoc|].
      apply in_map_iff. now exists event.
  - rewrite totalEvents_count. f_equal. symmetry. now apply Permutation_length.
Qed.

(** ** The upload page *)

Section UploadFacts.

Lemma matchesBlockId_hex h :
  String.length h = 64%nat -> Text.allChars Text.isLowerHex h = true ->
  matchesBlockId ("0x" ++ h) = true.
Proof.
  intros Hl Hc. unfold matchesBlockId.
  rewrite prefix_append, length_append, Hl.
  change (String.length "0x" + 64 - 2)%nat with 64%nat.
  rewrite <- Hl at 1. change 2%nat with (String.length "0x") at 1.
  rewrite substring_append, Hc. reflexivity.
Qed.

End UploadFacts.

(** X21.  Whatever the file, the clock and the random number, the upload
    page shows a hash that [HashSchema] accepts, a block id of [0x] and 64
    characters of [0-9a-f], and a document id of [DOC-] and the digits of
    the clock reading, at least 13 of them from the reading [10^12] on. *)
Theorem upload_page_identifiers (fileContent : list Z) (now1 : Z) (randomText : list Z)
    (now2 : Z) :
  let shown := UploadPage.handleUpload fileContent now1 randomText now2 in
  isValidHash (UploadPage.hash shown) = true
  /\ matchesBlockId (UploadPage.blockId shown) = true
  /\ String.length (UploadPage.blockId shown) = 66%nat
  /\ UploadPage.documentId shown = ("DOC-" ++ Text.decimal now2)%string
  /\ (10 ^ 12 <= now2 -> matchesDocumentId (UploadPage.documentId shown) = true).
Proof.
  cbv zeta. unfold UploadPage.handleUpload. cbv zeta.
  cbn [UploadPage.hash UploadPage.blockId UploadPage.documentId].
  destruct (computeHash_hex (fileContent ++ unitsOf (Text.decimal now1))) as [Hl1 Hc1].
  assert (isValidHash (MockData.computeHash (fileContent ++ unitsOf (Text.decimal now1)))
          = true) as Hvalid
    by (unfold isValidHash; rewrite Hl1; now rewrite (isLowerHex_isHexDigit _ Hc1)).
  set (hash := MockData.computeHash (fileContent ++ unitsOf (Text.decimal now1))) in *.
  destruct (computeHash_hex (unitsOf hash ++ randomText)) as [Hlen Hhex].
  split; [exact Hvalid|]. split; [now apply matchesBlockId_hex|].
  split; [now rewrite length_append, Hlen|]. split; [reflexivity|].
  apply matchesDocumentId_minted.
Qed.

Lemma upload_page_identifiers_witness :
  matchesDocumentId
    (UploadPage.documentId
       (UploadPage.handleUpload (unitsOf "NOTE-V1") 1700000000000 (unitsOf "0.25")
          1700000000001))
  = true.
Proof.
  apply (upload_page_identifiers (unitsOf "NOTE-V1") 1700000000000 (unitsOf "0.25")
           1700000000001).
  vm_compute. discriminate.
Defined.

(** ** The fallback hash of the browser service *)

(** X22.  Without [crypto.subtle] the browser [computeFileHash] does not
    look at the content: it returns [mock-hash-], the name, the size and
    the clock reading of the call, so two files of the same name and size
    get the same hash at the same clock reading whatever they contain;
    the clock is read once; and the hash is never one [HashSchema]
    accepts. *)
Theorem fallback_hash_ignores_content (file : File.t) (w : World) :
  subtleCrypto (env w) = false ->
  BlockchainService.computeFileHash file w
  = (("mock-hash-" ++ File.name file ++ "-" ++ Text.decimal (File.size file) ++ "-"
      ++ Text.decimal (clock (env w) (clockReads w)))%string,
     mkWorld (env w) (S (clockReads w)) (randomDraws w) (transactions w))
  /\ (forall other,
        File.name other = File.name file ->
        List.length (File.content other) = List.length (File.content file) ->
        fst (BlockchainService.computeFileHash other w)
        = fst (BlockchainService.computeFileHash file w))
  /\ isValidHash (fst (BlockchainService.computeFileHash file w)) = false.
Proof.
  intros Hsubtle.
  assert (forall f, BlockchainService.computeFileHash f w
                    = (("mock-hash-" ++ File.name f ++ "-" ++ Text.decimal (File.size f)
                        ++ "-" ++ Text.decimal (clock (env w) (clockReads w)))%string,
                       mkWorld (env w) (S (clockReads w)) (randomDraws w) (transactions w)))
    as Hform.
  { intros f. unfold BlockchainService.computeFileHash. now rewrite Hsubtle. }
  split; [apply Hform|]. split.
  - intros other Hname Hsize. rewrite !Hform. cbn [fst]. unfold File.size.
    now rewrite Hname, Hsize.
  - rewrite Hform. cbn [fst]. unfold isValidHash.
    apply andb_false_iff. right. reflexivity.
Qed.

Lemma fallback_hash_ignores_content_witness :
  fst (BlockchainService.computeFileHash
         (File.make "test-doc.txt" (bytesOf "NOTE-V2")) (loadModule insecureEnv))
  = fst (BlockchainService.computeFileHash demoFile (loadModule insecureEnv)).
Proof.
  apply (proj1 (proj2 (fallback_hash_ignores_content demoFile (loadModule insecureEnv)
                         eq_refl))); reflexivity.
Defined.
